(** * ED_Mission_Stacker: the mission aggregation engine and its kill-ratio engine

    A shallow embedding of [src/mission_stack.py] and [src/kill_ratio.py], and
    of the event classes of [src/events.py].

    Modelling conventions.
    - Python [int] is [Z]; [str] is [string]; [bool] is [bool].
    - Python [float] is an exact rational [Q], and float equality is [Qeq]:
      the rounding of binary64 is outside the model. Its range is not: next
      to each function that divides, [Binary64] has the same function with
      the OverflowError that Python's [/] raises beyond that range.
    - A Python [dict] keeps insertion order and the scans of the program depend
      on it, so a dict is an association list in insertion order; a dict has
      pairwise distinct keys ([dict_ok], [registry_ok] for the nested registry).
    - Methods mutate [self]: they are computations in a state monad whose
      result is either a normal value or a raised exception; the state
      survives a raise, as the mutations made before a Python exception do.
    - No object of this program is held in two places: an object is the value
      stored under its key, and a method call on an object met in a loop over
      a dict stores the state it leaves the object in back under that key.
    - The journal fields of an event are typed as the journal schema types
      them; an absent field is [None] and read with [.get(key, default)].
    - Logging is not modelled. *)

From Stdlib Require Import ZArith QArith Qfield List String Ascii Bool Lia Permutation.
Import ListNotations.

Set Implicit Arguments.
Local Open Scope string_scope.
Local Open Scope list_scope.
Local Open Scope Z_scope.

(** ** Python runtime: exceptions, results, stateful computations *)

Module Py.

Inductive exn : Type :=
| KeyError
| ZeroDivisionError
| ValueError
| OverflowError.

Inductive result (A : Type) : Type :=
| Ok (a : A)
| Raise (e : exn).
Arguments Ok {A} a.
Arguments Raise {A} e.

Definition rbind {A B} (r : result A) (k : A -> result B) : result B :=
  match r with
  | Ok a => k a
  | Raise e => Raise e
  end.

(** A method on an object of type [S] returning [A]. *)
Definition M (S A : Type) : Type := S -> result A * S.

Definition ret {S A} (a : A) : M S A := fun s => (Ok a, s).

Definition bind {S A B} (m : M S A) (k : A -> M S B) : M S B :=
  fun s =>
    match m s with
    | (Ok a, s') => k a s'
    | (Raise e, s') => (Raise e, s')
    end.

Definition gets {S A} (f : S -> A) : M S A := fun s => (Ok (f s), s).
Definition modify {S} (f : S -> S) : M S unit := fun s => (Ok tt, f s).
Definition lift {S A} (r : result A) : M S A := fun s => (r, s).

(** [try: body / except Exception: return dflt]. *)
Definition try_except {S A} (body : M S A) (dflt : A) : M S A :=
  fun s =>
    match body s with
    | (Ok a, s') => (Ok a, s')
    | (Raise _, s') => (Ok dflt, s')
    end.

Definition returns {S A} (m : M S A) (s : S) : Prop :=
  exists a s', m s = (Ok a, s').

End Py.

Import Py.

Declare Scope py_scope.
Delimit Scope py_scope with py.
Notation "x <- c1 ;; c2" := (bind c1 (fun x => c2))
  (at level 100, c1 at next level, right associativity) : py_scope.
Notation "c1 ;; c2" := (bind c1 (fun _ => c2))
  (at level 100, right associativity) : py_scope.
Notation "x <~ r ;; c2" := (rbind r (fun x => c2))
  (at level 100, r at next level, right associativity) : py_scope.
Local Open Scope py_scope.

(** ** Python [dict] with [str] keys, in insertion order *)

Section Dict.
Variable V : Type.

Definition dict : Type := list (string * V).

Definition dict_keys (d : dict) : list string := map fst d.
Definition dict_values (d : dict) : list V := map snd d.
Definition dict_wf (d : dict) : Prop := NoDup (dict_keys d).

(** [d.get(k)] as an option. *)
Fixpoint dict_find (k : string) (d : dict) : option V :=
  match d with
  | [] => None
  | (k', v) :: d' => if String.eqb k k' then Some v else dict_find k d'
  end.

(** [k in d] *)
Definition dict_contains (k : string) (d : dict) : bool :=
  match dict_find k d with Some _ => true | None => false end.

(** [d[k]] *)
Definition dict_getitem (k : string) (d : dict) : result V :=
  match dict_find k d with Some v => Ok v | None => Raise KeyError end.

(** [d[k] = v]: an existing key keeps its position, a new key goes last. *)
Fixpoint dict_setitem (k : string) (v : V) (d : dict) : dict :=
  match d with
  | [] => [(k, v)]
  | (k', v') :: d' =>
      if String.eqb k k' then (k', v) :: d' else (k', v') :: dict_setitem k v d'
  end.

Fixpoint dict_remove (k : string) (d : dict) : dict :=
  match d with
  | [] => []
  | (k', v') :: d' => if String.eqb k k' then d' else (k', v') :: dict_remove k d'
  end.

(** [del d[k]] *)
Definition dict_delitem (k : string) (d : dict) : result dict :=
  if dict_contains k d then Ok (dict_remove k d) else Raise KeyError.

(** The object held under [k] is replaced by its new state [v], in place;
    nothing is inserted. *)
Fixpoint dict_store (k : string) (v : V) (d : dict) : dict :=
  match d with
  | [] => []
  | (k', v') :: d' =>
      if String.eqb k k' then (k', v) :: d' else (k', v') :: dict_store k v d'
  end.

(** [not d] *)
Definition dict_is_empty (d : dict) : bool :=
  match d with [] => true | _ => false end.

End Dict.

Arguments dict_find {V} k d.
Arguments dict_contains {V} k d.
Arguments dict_getitem {V} k d.
Arguments dict_setitem {V} k v d.
Arguments dict_remove {V} k d.
Arguments dict_store {V} k v d.
Arguments dict_delitem {V} k d.
Arguments dict_is_empty {V} d.
Arguments dict_keys {V} d.
Arguments dict_values {V} d.
Arguments dict_wf {V} d.

(** [o] is the value of an optional key: [event_data.get(key, dflt)]. *)
Definition get {A} (o : option A) (dflt : A) : A :=
  match o with Some a => a | None => dflt end.

(** ** Strings *)

(** [needle in s] *)
Fixpoint str_in (needle s : string) : bool :=
  String.prefix needle s
  || match s with
     | EmptyString => false
     | String _ s' => str_in needle s'
     end.

(** [s.endswith(c)] for a one-character suffix. *)
Fixpoint endswith (s : string) (c : ascii) : bool :=
  match s with
  | EmptyString => false
  | String a EmptyString => Ascii.eqb a c
  | String _ s' => endswith s' c
  end.

(** [s[:-1]] *)
Fixpoint drop_last (s : string) : string :=
  match s with
  | EmptyString => EmptyString
  | String _ EmptyString => EmptyString
  | String a s' => String a (drop_last s')
  end.

(** ** The standard library's [datetime.fromisoformat]

    The parser belongs to Python, not to this repository: it is an interface,
    [None] standing for the [ValueError] it raises on a string it rejects. *)

Class DateTimeLib : Type := {
  datetime : Type;
  fromisoformat : string -> option datetime
}.

(** ** A journal event: [Dict[str, Any]] read with [.get] *)

Record event_data : Type := {
  ev_event : option string;
  ev_MissionID : option Z;
  ev_Name : option string;
  ev_LocalisedName : option string;
  ev_Faction : option string;
  ev_TargetFaction : option string;
  ev_KillCount : option Z;
  ev_Reward : option Z;
  ev_Expiry : option string;
  ev_Wing : option bool;
  ev_DestinationSystem : option string;
  ev_DestinationStation : option string;
  ev_timestamp : option string
}.

(** ** class MissionData *)

Module MissionData.
Section WithDateTime.
Context {DT : DateTimeLib}.

Record t : Type := mk {
  mission_id : Z;
  name : string;
  localised_name : string;
  faction : string;
  target_faction : string;
  initial_kill_count : Z;
  current_kill_count : Z;
  reward : Z;
  expiry : string;
  wing : bool;
  destination_system : string;
  destination_station : string;
  timestamp : string;
  expiry_datetime : option datetime
}.

(** The expiry string after the optional removal of a trailing Z; the
    assignment happens before the parse, so it stays when the parse fails. *)
Definition expiry_stripped (e : string) : string :=
  if endswith e "Z" then drop_last e else e.

Definition __init__ (mission_data : event_data) : t :=
  let e := get (ev_Expiry mission_data) "" in
  let nonempty := negb (String.eqb e "") in
  {| mission_id := get (ev_MissionID mission_data) 0;
     name := get (ev_Name mission_data) "";
     localised_name := get (ev_LocalisedName mission_data) "";
     faction := get (ev_Faction mission_data) "";
     target_faction := get (ev_TargetFaction mission_data) "";
     initial_kill_count := get (ev_KillCount mission_data) 0;
     current_kill_count := get (ev_KillCount mission_data) 0;
     reward := get (ev_Reward mission_data) 0;
     expiry := if nonempty then expiry_stripped e else e;
     wing := get (ev_Wing mission_data) false;
     destination_system := get (ev_DestinationSystem mission_data) "";
     destination_station := get (ev_DestinationStation mission_data) "";
     timestamp := get (ev_timestamp mission_data) "";
     expiry_datetime :=
       if nonempty then fromisoformat (expiry_stripped e) else None |}.

Definition update_kill_count (new_kill_count : Z) (self : t) : t :=
  {| mission_id := mission_id self;
     name := name self;
     localised_name := localised_name self;
     faction := faction self;
     target_faction := target_faction self;
     initial_kill_count := initial_kill_count self;
     current_kill_count := new_kill_count;
     reward := reward self;
     expiry := expiry self;
     wing := wing self;
     destination_system := destination_system self;
     destination_station := destination_station self;
     timestamp := timestamp self;
     expiry_datetime := expiry_datetime self |}.

(** The dictionary built by [to_dict]: thirteen entries, no parsed expiry. *)
Record as_dict : Type := mk_dict {
  d_mission_id : Z;
  d_name : string;
  d_localised_name : string;
  d_faction : string;
  d_target_faction : string;
  d_initial_kill_count : Z;
  d_current_kill_count : Z;
  d_reward : Z;
  d_expiry : string;
  d_wing : bool;
  d_destination_system : string;
  d_destination_station : string;
  d_timestamp : string
}.

Definition to_dict (self : t) : as_dict :=
  {| d_mission_id := mission_id self;
     d_name := name self;
     d_localised_name := localised_name self;
     d_faction := faction self;
     d_target_faction := target_faction self;
     d_initial_kill_count := initial_kill_count self;
     d_current_kill_count := current_kill_count self;
     d_reward := reward self;
     d_expiry := expiry self;
     d_wing := wing self;
     d_destination_system := destination_system self;
     d_destination_station := destination_station self;
     d_timestamp := timestamp self |}.

End WithDateTime.
End MissionData.

(** ** Arithmetic of [/] *)

(** [a / b] on two ints: true division, for quotients within the range of
    floats ([Binary64.int_truediv] has the range). *)
Definition int_truediv (a b : Z) : result Q :=
  if b =? 0 then Raise ZeroDivisionError else Ok (inject_Z a / inject_Z b)%Q.

(** [x / b] with a float [x] and an int [b] within the range of floats
    ([Binary64.float_int_truediv] has the range). *)
Definition float_int_truediv (x : Q) (b : Z) : result Q :=
  if b =? 0 then Raise ZeroDivisionError else Ok (x / inject_Z b)%Q.

(** ** class FactionMissions *)

Module FactionMissions.
Section WithDateTime.
Context {DT : DateTimeLib}.

Record t : Type := mk {
  faction_name : string;
  missions : dict MissionData.t;   (* key: localised_name *)
  total_initial_kills : Z;
  total_current_kills : Z;
  total_reward : Z
}.

Definition __init__ (faction_name : string) : t :=
  {| faction_name := faction_name;
     missions := [];
     total_initial_kills := 0;
     total_current_kills := 0;
     total_reward := 0 |}.

Definition set_missions (ms : dict MissionData.t) (self : t) : t :=
  {| faction_name := faction_name self;
     missions := ms;
     total_initial_kills := total_initial_kills self;
     total_current_kills := total_current_kills self;
     total_reward := total_reward self |}.

Definition add_total_initial_kills (n : Z) (self : t) : t :=
  {| faction_name := faction_name self;
     missions := missions self;
     total_initial_kills := total_initial_kills self + n;
     total_current_kills := total_current_kills self;
     total_reward := total_reward self |}.

Definition add_total_current_kills (n : Z) (self : t) : t :=
  {| faction_name := faction_name self;
     missions := missions self;
     total_initial_kills := total_initial_kills self;
     total_current_kills := total_current_kills self + n;
     total_reward := total_reward self |}.

Definition add_total_reward (n : Z) (self : t) : t :=
  {| faction_name := faction_name self;
     missions := missions self;
     total_initial_kills := total_initial_kills self;
     total_current_kills := total_current_kills self;
     total_reward := total_reward self + n |}.

(** [self.missions[key]] *)
Definition missions_getitem (key : string) : M t MissionData.t :=
  fun self => (dict_getitem key (missions self), self).

(** [del self.missions[key]] *)
Definition missions_delitem (key : string) : M t unit :=
  fun self =>
    match dict_delitem key (missions self) with
    | Ok ms => (Ok tt, set_missions ms self)
    | Raise e => (Raise e, self)
    end.

(** The record object met under [key] is the one the dict holds: after a
    method mutated it, the dict holds its new state at the same place. *)
Definition missions_store (key : string) (m : MissionData.t) : M t unit :=
  modify (fun self => set_missions (dict_store key m (missions self)) self).

Definition add_mission (mission_data : MissionData.t) : M t unit :=
  let key := MissionData.localised_name mission_data in
  present <- gets (fun self => dict_contains key (missions self)) ;;
  if (present : bool) then
    (* Update existing mission *)
    existing <- missions_getitem key ;;
    missions_store key
      (MissionData.update_kill_count
         (MissionData.current_kill_count mission_data) existing)
  else
    (* Add new mission *)
    modify (fun self => set_missions (dict_setitem key mission_data (missions self)) self) ;;
    modify (add_total_initial_kills (MissionData.initial_kill_count mission_data)) ;;
    modify (add_total_current_kills (MissionData.current_kill_count mission_data)) ;;
    modify (add_total_reward (MissionData.reward mission_data)).

(** The loop of [update_mission_kills] over [self.missions.values()]; the
    key travels with each record so that its mutation lands in the dict. *)
Fixpoint update_mission_kills_loop (mission_id new_kill_count : Z)
    (records : list (string * MissionData.t)) : M t bool :=
  match records with
  | [] => ret false
  | (key, mission) :: rest =>
      if MissionData.mission_id mission =? mission_id then
        let old_kill_count := MissionData.current_kill_count mission in
        missions_store key (MissionData.update_kill_count new_kill_count mission) ;;
        modify (add_total_current_kills (new_kill_count - old_kill_count)) ;;
        ret true
      else update_mission_kills_loop mission_id new_kill_count rest
  end.

Definition update_mission_kills (mission_id new_kill_count : Z) : M t bool :=
  records <- gets missions ;;
  update_mission_kills_loop mission_id new_kill_count records.

(** The loop of [remove_mission] over [list(self.missions.items())]. *)
Fixpoint remove_mission_loop (mission_id : Z)
    (items : list (string * MissionData.t)) : M t bool :=
  match items with
  | [] => ret false
  | (key, mission) :: rest =>
      if MissionData.mission_id mission =? mission_id then
        modify (add_total_initial_kills (- MissionData.initial_kill_count mission)) ;;
        modify (add_total_current_kills (- MissionData.current_kill_count mission)) ;;
        modify (add_total_reward (- MissionData.reward mission)) ;;
        missions_delitem key ;;
        ret true
      else remove_mission_loop mission_id rest
  end.

Definition remove_mission (mission_id : Z) : M t bool :=
  items <- gets missions ;;
  remove_mission_loop mission_id items.

Definition get_progress_percentage (self : t) : result Q :=
  if total_initial_kills self =? 0 then Ok 0%Q
  else
    q <~ int_truediv (total_current_kills self) (total_initial_kills self) ;;
    Ok (q * 100)%Q.

(** The dictionary built by [to_dict]. *)
Record as_dict : Type := mk_dict {
  d_faction_name : string;
  d_missions : dict MissionData.as_dict;
  d_total_initial_kills : Z;
  d_total_current_kills : Z;
  d_total_reward : Z;
  d_progress_percentage : Q
}.

Definition to_dict (self : t) : result as_dict :=
  p <~ get_progress_percentage self ;;
  Ok {| d_faction_name := faction_name self;
        d_missions := map (fun kv => (fst kv, MissionData.to_dict (snd kv))) (missions self);
        d_total_initial_kills := total_initial_kills self;
        d_total_current_kills := total_current_kills self;
        d_total_reward := total_reward self;
        d_progress_percentage := p |}.

End WithDateTime.
End FactionMissions.

(** ** class KillRatioCalculator *)

Module KillRatioCalculator.
Section WithDateTime.
Context {DT : DateTimeLib}.

(** A mission as the calculator meets it: an object with the attribute
    [current_kill_count], or a plain dict read with
    [.get('current_kill_count', 0)]. *)
Inductive mission_view : Type :=
| MissionObject (m : MissionData.t)
| MissionEntry (current_kill_count : option Z).

(** An issuing faction as the calculator meets it: a [FactionMissions] object,
    a dict with a ['missions'] entry, or a dict of missions. *)
Inductive faction_view : Type :=
| LedgerObject (fm : FactionMissions.t)
| LedgerSummary (missions : dict mission_view)
| LedgerMissions (missions : dict mission_view).

Definition remaining_of (m : mission_view) : Z :=
  match m with
  | MissionObject o => MissionData.current_kill_count o
  | MissionEntry c => get c 0
  end.

Definition missions_of (faction_missions : faction_view) : list mission_view :=
  match faction_missions with
  | LedgerObject fm => map MissionObject (dict_values (FactionMissions.missions fm))
  | LedgerSummary ms => dict_values ms
  | LedgerMissions ms => dict_values ms
  end.

(** [sorted(missions, key=..., reverse=True)]: stable, largest key first. *)
Fixpoint insert_desc (x : mission_view) (l : list mission_view) : list mission_view :=
  match l with
  | [] => [x]
  | y :: l' =>
      if remaining_of y <=? remaining_of x then x :: l
      else y :: insert_desc x l'
  end.

Definition sorted_desc (l : list mission_view) : list mission_view :=
  fold_right insert_desc [] l.

Definition _calculate_faction_remaining_kills (faction_missions : faction_view) : Z :=
  let missions := missions_of faction_missions in
  let sorted_missions := sorted_desc missions in
  fold_left (fun total_remaining mission => total_remaining + remaining_of mission)
            sorted_missions 0.

(** [sum(xs)] and [max(xs)] on ints; [max] of no value raises. *)
Definition py_sum (xs : list Z) : Z := fold_left Z.add xs 0.

Definition py_max (xs : list Z) : result Z :=
  match xs with
  | [] => Raise ValueError
  | x :: xs' => Ok (fold_left (fun m y => if m <? y then y else m) xs' x)
  end.

(** [max(a, b)] and [min(a, b)] on floats: the first argument wins a tie. *)
Definition float_max (a b : Q) : Q := if Qle_bool b a then a else b.
Definition float_min (a b : Q) : Q := if Qle_bool a b then a else b.

Definition _compute_kill_ratio (faction_remaining_kills : dict Z) : result Q :=
  let total_factions := Z.of_nat (List.length faction_remaining_kills) in
  if total_factions =? 0 then Ok 0%Q
  else if total_factions =? 1 then Ok 1%Q
  else
    let total_remaining := py_sum (dict_values faction_remaining_kills) in
    if total_remaining =? 0 then Ok 0%Q
    else
      max_remaining <~ py_max (dict_values faction_remaining_kills) ;;
      avg_remaining <~ int_truediv total_remaining total_factions ;;
      distribution_factor <~
        (if 0 <? max_remaining then float_int_truediv avg_remaining max_remaining
         else Ok 1%Q) ;;
      base_ratio <~
        (if 0 <? total_remaining then int_truediv max_remaining total_remaining
         else Ok 0%Q) ;;
      let ratio := (base_ratio * distribution_factor)%Q in
      Ok (float_max 0 (float_min 1 ratio)).

Definition _calculate_target_faction_ratio (target_faction : string)
    (factions_data : dict faction_view) : result Q :=
  if Z.of_nat (List.length factions_data) =? 1 then Ok 1%Q
  else
    let faction_remaining_kills :=
      fold_left
        (fun acc kv =>
           dict_setitem (fst kv) (_calculate_faction_remaining_kills (snd kv)) acc)
        factions_data [] in
    _compute_kill_ratio faction_remaining_kills.

(** The loop of [calculate_ratios], [ratios] being the dict built so far. *)
Fixpoint calculate_ratios_loop (items : list (string * dict faction_view))
    (ratios : dict Q) : result (dict Q) :=
  match items with
  | [] => Ok ratios
  | (target_faction, factions_data) :: rest =>
      ratio <~ _calculate_target_faction_ratio target_faction factions_data ;;
      calculate_ratios_loop rest (dict_setitem target_faction ratio ratios)
  end.

Definition calculate_ratios (mission_stack : dict (dict faction_view)) : result (dict Q) :=
  calculate_ratios_loop mission_stack [].

(** The dictionaries built by [calculate_detailed_breakdown]. *)
Record faction_detail : Type := mk_faction_detail {
  remaining_kills : Z;
  mission_count : Z
}.

Record target_breakdown : Type := mk_target_breakdown {
  ratio : Q;
  faction_details : dict faction_detail;
  total_remaining_kills : Z;
  faction_count : Z
}.

(** [len(faction_missions.missions) if hasattr(faction_missions, 'missions')
     else len(faction_missions.get('missions', {}))]: a dict of missions has
    no ['missions'] entry and counts for nothing. *)
Definition count_missions (faction_missions : faction_view) : Z :=
  match faction_missions with
  | LedgerObject fm => Z.of_nat (List.length (FactionMissions.missions fm))
  | LedgerSummary ms => Z.of_nat (List.length ms)
  | LedgerMissions _ => 0
  end.

(** The inner loop of [calculate_detailed_breakdown]: the details and the
    total built so far. *)
Fixpoint breakdown_factions (items : list (string * faction_view))
    (faction_details : dict faction_detail) (total_remaining : Z)
  : dict faction_detail * Z :=
  match items with
  | [] => (faction_details, total_remaining)
  | (faction_name, faction_missions) :: rest =>
      let faction_remaining := _calculate_faction_remaining_kills faction_missions in
      breakdown_factions rest
        (dict_setitem faction_name
           {| remaining_kills := faction_remaining;
              mission_count := count_missions faction_missions |}
           faction_details)
        (total_remaining + faction_remaining)
  end.

Fixpoint breakdown_loop (items : list (string * dict faction_view))
    (breakdown : dict target_breakdown) : result (dict target_breakdown) :=
  match items with
  | [] => Ok breakdown
  | (target_faction, factions_data) :: rest =>
      let (faction_details, total_remaining) := breakdown_factions factions_data [] 0 in
      ratio <~ _calculate_target_faction_ratio target_faction factions_data ;;
      breakdown_loop rest
        (dict_setitem target_faction
           {| ratio := ratio;
              faction_details := faction_details;
              total_remaining_kills := total_remaining;
              faction_count := Z.of_nat (List.length factions_data) |}
           breakdown)
  end.

Definition calculate_detailed_breakdown (mission_stack : dict (dict faction_view))
  : result (dict target_breakdown) :=
  breakdown_loop mission_stack [].

End WithDateTime.
End KillRatioCalculator.

(** ** class MissionStack *)

Module MissionStack.
Section WithDateTime.
Context {DT : DateTimeLib}.

(** Structure: target_faction -> issuing_faction -> FactionMissions *)
Record t : Type := mk {
  missions : dict (dict FactionMissions.t)
}.

Definition __init__ : t := {| missions := [] |}.

(** [self.missions[target_faction]] *)
Definition missions_getitem (target_faction : string) : M t (dict FactionMissions.t) :=
  fun self => (dict_getitem target_faction (missions self), self).

(** [self.missions[target_faction] = bucket] *)
Definition missions_setitem (target_faction : string)
    (bucket : dict FactionMissions.t) : M t unit :=
  modify (fun self => mk (dict_setitem target_faction bucket (missions self))).

(** [del self.missions[target_faction]] *)
Definition missions_delitem (target_faction : string) : M t unit :=
  fun self =>
    match dict_delitem target_faction (missions self) with
    | Ok ms => (Ok tt, mk ms)
    | Raise e => (Raise e, self)
    end.

(** The bucket object held under [target_faction] has the new state [bucket]. *)
Definition bucket_store (target_faction : string)
    (bucket : dict FactionMissions.t) : M t unit :=
  modify (fun self => mk (dict_store target_faction bucket (missions self))).

(** The ledger object held under [target_faction][faction_name] has the new
    state [fm]. *)
Definition ledger_store (target_faction faction_name : string)
    (fm : FactionMissions.t) (self : t) : t :=
  match dict_find target_faction (missions self) with
  | Some bucket =>
      mk (dict_store target_faction (dict_store faction_name fm bucket) (missions self))
  | None => self
  end.

(** A method call on the ledger object [faction_missions], which the registry
    holds under [target_faction][faction_name]: the registry sees the state
    the method leaves the object in, also when the method raises. The call
    yields the method's result and the object as it is after the call. *)
Definition ledger_call {A} (target_faction faction_name : string)
    (faction_missions : FactionMissions.t) (method : M FactionMissions.t A)
  : M t (A * FactionMissions.t) :=
  fun self =>
    let (r, fm') := method faction_missions in
    (match r with Ok a => Ok (a, fm') | Raise e => Raise e end,
     ledger_store target_faction faction_name fm' self).

Definition _handle_mission_accepted (event_data : event_data) : M t bool :=
  (* Only process massacre missions *)
  let name := get (ev_Name event_data) "" in
  if negb (str_in "Mission_Massacre" name) then ret false
  else
    let mission_data := MissionData.__init__ event_data in
    let target_faction := MissionData.target_faction mission_data in
    let issuing_faction := MissionData.faction mission_data in
    (* Initialize target faction if needed *)
    known_target <- gets (fun self => dict_contains target_faction (missions self)) ;;
    (if (known_target : bool) then ret tt
     else missions_setitem target_faction []) ;;
    (* Initialize issuing faction if needed *)
    bucket <- missions_getitem target_faction ;;
    (if dict_contains issuing_faction bucket then ret tt
     else
       bucket <- missions_getitem target_faction ;;
       bucket_store target_faction
         (dict_setitem issuing_faction (FactionMissions.__init__ issuing_faction) bucket)) ;;
    (* Add the mission *)
    bucket <- missions_getitem target_faction ;;
    faction_missions <- lift (dict_getitem issuing_faction bucket) ;;
    ledger_call target_faction issuing_faction faction_missions
      (FactionMissions.add_mission mission_data) ;;
    ret true.

(** What follows a successful [remove_mission] in [_remove_mission_by_id]. *)
Definition clean_up (target_faction faction_name : string)
    (faction_missions : FactionMissions.t) : M t bool :=
  (* Clean up empty factions *)
  (if dict_is_empty (FactionMissions.missions faction_missions) then
     bucket <- missions_getitem target_faction ;;
     bucket' <- lift (dict_delitem faction_name bucket) ;;
     bucket_store target_faction bucket'
   else ret tt) ;;
  (* Clean up empty target factions *)
  bucket <- missions_getitem target_faction ;;
  (if dict_is_empty bucket then missions_delitem target_faction else ret tt) ;;
  ret true.

(** The inner loop of [_remove_mission_by_id], over [list(factions.items())];
    [None] when the loop ends without a [return]. *)
Fixpoint remove_in_factions (mission_id : Z) (target_faction : string)
    (items : list (string * FactionMissions.t)) : M t (option bool) :=
  match items with
  | [] => ret None
  | (faction_name, faction_missions) :: rest =>
      call <- ledger_call target_faction faction_name faction_missions
                (FactionMissions.remove_mission mission_id) ;;
      if fst call then
        r <- clean_up target_faction faction_name (snd call) ;;
        ret (Some r)
      else remove_in_factions mission_id target_faction rest
  end.

(** The outer loop, over [list(self.missions.items())]. *)
Fixpoint remove_in_targets (mission_id : Z)
    (items : list (string * dict FactionMissions.t)) : M t bool :=
  match items with
  | [] => ret false
  | (target_faction, factions) :: rest =>
      r <- remove_in_factions mission_id target_faction factions ;;
      match r with
      | Some b => ret b
      | None => remove_in_targets mission_id rest
      end
  end.

Definition _remove_mission_by_id (mission_id : Z) (reason : string) : M t bool :=
  items <- gets missions ;;
  remove_in_targets mission_id items.

Definition _handle_mission_completed (event_data : event_data) : M t bool :=
  let mission_id := get (ev_MissionID event_data) 0 in
  _remove_mission_by_id mission_id "completed".

Definition _handle_mission_failed (event_data : event_data) : M t bool :=
  let mission_id := get (ev_MissionID event_data) 0 in
  _remove_mission_by_id mission_id "failed".

Definition _handle_mission_abandoned (event_data : event_data) : M t bool :=
  let mission_id := get (ev_MissionID event_data) 0 in
  _remove_mission_by_id mission_id "abandoned".

(** The body of the [try] block of [process_event]. *)
Definition dispatch (event_data : event_data) : M t bool :=
  let event_type := get (ev_event event_data) "" in
  if String.eqb event_type "MissionAccepted" then _handle_mission_accepted event_data
  else if String.eqb event_type "MissionCompleted" then _handle_mission_completed event_data
  else if String.eqb event_type "MissionFailed" then _handle_mission_failed event_data
  else if String.eqb event_type "MissionAbandoned" then _handle_mission_abandoned event_data
  else ret false.

Definition process_event (event_data : event_data) : M t bool :=
  try_except (dispatch event_data) false.

(** The inner loop of [update_mission_kills], over [factions.items()]. *)
Fixpoint update_in_factions (mission_id new_kill_count : Z) (target_faction : string)
    (items : list (string * FactionMissions.t)) : M t bool :=
  match items with
  | [] => ret false
  | (faction_name, faction_missions) :: rest =>
      call <- ledger_call target_faction faction_name faction_missions
                (FactionMissions.update_mission_kills mission_id new_kill_count) ;;
      if fst call then ret true
      else update_in_factions mission_id new_kill_count target_faction rest
  end.

Fixpoint update_in_targets (mission_id new_kill_count : Z)
    (items : list (string * dict FactionMissions.t)) : M t bool :=
  match items with
  | [] => ret false
  | (target_faction, factions) :: rest =>
      r <- update_in_factions mission_id new_kill_count target_faction factions ;;
      if (r : bool) then ret true
      else update_in_targets mission_id new_kill_count rest
  end.

Definition update_mission_kills (mission_id new_kill_count : Z) : M t bool :=
  items <- gets missions ;;
  update_in_targets mission_id new_kill_count items.

(** The dictionaries built by [get_summary]. *)
Record target_summary_t : Type := mk_target_summary {
  ts_factions : dict FactionMissions.as_dict;
  ts_total_initial_kills : Z;
  ts_total_current_kills : Z;
  ts_total_reward : Z;
  ts_total_missions : Z
}.

Record summary_t : Type := mk_summary {
  s_target_factions : dict target_summary_t;
  s_total_initial_kills : Z;
  s_total_current_kills : Z;
  s_total_reward : Z;
  s_total_missions : Z
}.

Fixpoint summarize_factions (items : list (string * FactionMissions.t))
    (target_summary : target_summary_t) : result target_summary_t :=
  match items with
  | [] => Ok target_summary
  | (faction_name, faction_missions) :: rest =>
      faction_data <~ FactionMissions.to_dict faction_missions ;;
      summarize_factions rest
        {| ts_factions :=
             dict_setitem faction_name faction_data (ts_factions target_summary);
           ts_total_initial_kills :=
             ts_total_initial_kills target_summary
             + FactionMissions.d_total_initial_kills faction_data;
           ts_total_current_kills :=
             ts_total_current_kills target_summary
             + FactionMissions.d_total_current_kills faction_data;
           ts_total_reward :=
             ts_total_reward target_summary
             + FactionMissions.d_total_reward faction_data;
           ts_total_missions :=
             ts_total_missions target_summary
             + Z.of_nat (List.length (FactionMissions.d_missions faction_data)) |}
  end.

Fixpoint summarize_targets (items : list (string * dict FactionMissions.t))
    (summary : summary_t) : result summary_t :=
  match items with
  | [] => Ok summary
  | (target_faction, factions) :: rest =>
      target_summary <~
        summarize_factions factions
          {| ts_factions := [];
             ts_total_initial_kills := 0;
             ts_total_current_kills := 0;
             ts_total_reward := 0;
             ts_total_missions := 0 |} ;;
      summarize_targets rest
        {| s_target_factions :=
             dict_setitem target_faction target_summary (s_target_factions summary);
           s_total_initial_kills :=
             s_total_initial_kills summary + ts_total_initial_kills target_summary;
           s_total_current_kills :=
             s_total_current_kills summary + ts_total_current_kills target_summary;
           s_total_reward := s_total_reward summary + ts_total_reward target_summary;
           s_total_missions := s_total_missions summary + ts_total_missions target_summary |}
  end.

Definition get_summary (self : t) : result summary_t :=
  summarize_targets (missions self)
    {| s_target_factions := [];
       s_total_initial_kills := 0;
       s_total_current_kills := 0;
       s_total_reward := 0;
       s_total_missions := 0 |}.

Definition get_target_factions (self : t) : list string :=
  dict_keys (missions self).

Definition get_issuing_factions (target_faction : string) (self : t) : list string :=
  match dict_find target_faction (missions self) with
  | Some bucket => dict_keys bucket
  | None => []
  end.

Definition clear : M t unit :=
  modify (fun _ => mk []).

(** The registry as [KillRatioCalculator] receives it. *)
Definition registry_view (self : t) : dict (dict KillRatioCalculator.faction_view) :=
  map (fun tb =>
         (fst tb,
          map (fun ff => (fst ff, KillRatioCalculator.LedgerObject (snd ff))) (snd tb)))
      (missions self).

Definition get_kill_ratios (self : t) : result (dict Q) :=
  KillRatioCalculator.calculate_ratios (registry_view self).

Definition get_detailed_kill_breakdown (self : t)
  : result (dict KillRatioCalculator.target_breakdown) :=
  KillRatioCalculator.calculate_detailed_breakdown (registry_view self).

End WithDateTime.
End MissionStack.

(** * Specification-level definitions *)

(** Pairwise distinct keys, as a check that computes. *)
Fixpoint distinct (ks : list string) : bool :=
  match ks with
  | [] => true
  | k :: ks' => negb (existsb (String.eqb k) ks') && distinct ks'
  end.

Definition dict_ok {V} (d : dict V) : bool := distinct (dict_keys d).

Definition zsum (xs : list Z) : Z := fold_right Z.add 0 xs.

Section SpecDefs.
Context {DT : DateTimeLib}.

(** A registry is a dict of dicts of ledgers, each ledger holding a dict. *)
Definition ledger_ok (fm : FactionMissions.t) : bool :=
  dict_ok (FactionMissions.missions fm).

Definition bucket_ok (bucket : dict FactionMissions.t) : bool :=
  dict_ok bucket && forallb (fun ff => ledger_ok (snd ff)) bucket.

Definition registry_ok (st : MissionStack.t) : bool :=
  dict_ok (MissionStack.missions st)
  && forallb (fun tb => bucket_ok (snd tb)) (MissionStack.missions st).

(** *** Ledger aggregates (P4) *)

Definition sum_initial (records : list MissionData.t) : Z :=
  zsum (map MissionData.initial_kill_count records).
Definition sum_current (records : list MissionData.t) : Z :=
  zsum (map MissionData.current_kill_count records).
Definition sum_reward (records : list MissionData.t) : Z :=
  zsum (map MissionData.reward records).

(** Adding a sequence of records to a ledger, one [add_mission] each. *)
Fixpoint add_all (records : list MissionData.t) : M FactionMissions.t unit :=
  match records with
  | [] => ret tt
  | r :: rest => FactionMissions.add_mission r ;; add_all rest
  end.

(** *** Removal by mission id (P5) *)

Definition has_id (mission_id : Z) (m : MissionData.t) : bool :=
  MissionData.mission_id m =? mission_id.

(** The first record of a ledger with the given id. *)
Definition first_record (mission_id : Z) (fm : FactionMissions.t)
  : option MissionData.t :=
  find (has_id mission_id) (dict_values (FactionMissions.missions fm)).

(** The first ledger of a bucket that owns a record with the given id. *)
Fixpoint first_ledger (mission_id : Z) (bucket : dict FactionMissions.t)
  : option (string * FactionMissions.t * MissionData.t) :=
  match bucket with
  | [] => None
  | (f, fm) :: rest =>
      match first_record mission_id fm with
      | Some r => Some (f, fm, r)
      | None => first_ledger mission_id rest
      end
  end.

(** Where the first record with the given id lives, in the order of the
    registry: bucket by bucket, ledger by ledger, record by record. *)
Record location : Type := mk_location {
  loc_target : string;
  loc_bucket : dict FactionMissions.t;
  loc_faction : string;
  loc_ledger : FactionMissions.t;
  loc_record : MissionData.t
}.

Fixpoint first_bucket (mission_id : Z) (reg : dict (dict FactionMissions.t))
  : option location :=
  match reg with
  | [] => None
  | (t, bucket) :: rest =>
      match first_ledger mission_id bucket with
      | Some (f, fm, r) => Some (mk_location t bucket f fm r)
      | None => first_bucket mission_id rest
      end
  end.

Definition first_match (mission_id : Z) (st : MissionStack.t) : option location :=
  first_bucket mission_id (MissionStack.missions st).

(** A list without its first element that satisfies [p]. *)
Fixpoint remove_first {A} (p : A -> bool) (l : list A) : list A :=
  match l with
  | [] => []
  | x :: l' => if p x then l' else x :: remove_first p l'
  end.

(** The ledger after the removal of its first record with the given id, the
    record being [r]: that record is gone and the three aggregates are
    decremented by its fields. *)
Definition ledger_without (mission_id : Z) (r : MissionData.t)
    (fm : FactionMissions.t) : FactionMissions.t :=
  {| FactionMissions.faction_name := FactionMissions.faction_name fm;
     FactionMissions.missions :=
       remove_first (fun kv => has_id mission_id (snd kv)) (FactionMissions.missions fm);
     FactionMissions.total_initial_kills :=
       FactionMissions.total_initial_kills fm - MissionData.initial_kill_count r;
     FactionMissions.total_current_kills :=
       FactionMissions.total_current_kills fm - MissionData.current_kill_count r;
     FactionMissions.total_reward :=
       FactionMissions.total_reward fm - MissionData.reward r |}.

(** The state a ledger is left in by the removal of the record held under
    [key], once its fields were subtracted. *)
Definition ledger_minus (key : string) (r : MissionData.t)
    (fm : FactionMissions.t) : FactionMissions.t :=
  {| FactionMissions.faction_name := FactionMissions.faction_name fm;
     FactionMissions.missions := dict_remove key (FactionMissions.missions fm);
     FactionMissions.total_initial_kills :=
       FactionMissions.total_initial_kills fm + - MissionData.initial_kill_count r;
     FactionMissions.total_current_kills :=
       FactionMissions.total_current_kills fm + - MissionData.current_kill_count r;
     FactionMissions.total_reward :=
       FactionMissions.total_reward fm + - MissionData.reward r |}.

(** The registry after the removal of the record at [loc], in the words of
    P5: the record leaves its ledger; a ledger left without records leaves its
    bucket; a bucket left without ledgers leaves the registry. *)
Definition remove_at (mission_id : Z) (loc : location) (st : MissionStack.t)
  : MissionStack.t :=
  let ledger' := ledger_without mission_id (loc_record loc) (loc_ledger loc) in
  let bucket' :=
    if dict_is_empty (FactionMissions.missions ledger')
    then dict_remove (loc_faction loc) (loc_bucket loc)
    else dict_store (loc_faction loc) ledger' (loc_bucket loc) in
  MissionStack.mk
    (if dict_is_empty bucket'
     then dict_remove (loc_target loc) (MissionStack.missions st)
     else dict_store (loc_target loc) bucket' (MissionStack.missions st)).

Definition removal_spec (mission_id : Z) (st : MissionStack.t) : MissionStack.t :=
  match first_match mission_id st with
  | None => st
  | Some loc => remove_at mission_id loc st
  end.

(** Every record of the registry, in the order of the scan. *)
Definition bucket_records (bucket : dict FactionMissions.t) : list MissionData.t :=
  flat_map (fun ff => dict_values (FactionMissions.missions (snd ff))) bucket.

Definition all_records (st : MissionStack.t) : list MissionData.t :=
  flat_map (fun tb => bucket_records (snd tb)) (MissionStack.missions st).

(** *** The registry after an accepted massacre mission *)

Definition accept_spec (mission_data : MissionData.t) (st : MissionStack.t)
  : MissionStack.t :=
  let target_faction := MissionData.target_faction mission_data in
  let issuing_faction := MissionData.faction mission_data in
  let bucket := get (dict_find target_faction (MissionStack.missions st)) [] in
  let ledger :=
    get (dict_find issuing_faction bucket) (FactionMissions.__init__ issuing_faction) in
  let ledger' := snd (FactionMissions.add_mission mission_data ledger) in
  MissionStack.mk
    (dict_setitem target_faction (dict_setitem issuing_faction ledger' bucket)
       (MissionStack.missions st)).

(** *** What [process] does, by the table of section 4.2 *)

Definition is_removal_kind (event_type : string) : bool :=
  String.eqb event_type "MissionCompleted"
  || String.eqb event_type "MissionFailed"
  || String.eqb event_type "MissionAbandoned".

Definition process_spec (event : event_data) (st : MissionStack.t)
  : bool * MissionStack.t :=
  let event_type := get (ev_event event) "" in
  if String.eqb event_type "MissionAccepted" then
    if str_in "Mission_Massacre" (get (ev_Name event) "")
    then (true, accept_spec (MissionData.__init__ event) st)
    else (false, st)
  else if is_removal_kind event_type then
    let mission_id := get (ev_MissionID event) 0 in
    (match first_match mission_id st with Some _ => true | None => false end,
     removal_spec mission_id st)
  else (false, st).

(** *** No empty ledger, no empty bucket *)

Definition no_empty (st : MissionStack.t) : bool :=
  forallb
    (fun tb =>
       negb (dict_is_empty (snd tb))
       && forallb
            (fun ff => negb (dict_is_empty (FactionMissions.missions (snd ff))))
            (snd tb))
    (MissionStack.missions st).

(** The calls a client makes on a [MissionStack]. *)
Inductive call : Type :=
| Process (event : event_data)
| Clear.

Definition step (c : call) (st : MissionStack.t) : MissionStack.t :=
  match c with
  | Process event => snd (MissionStack.process_event event st)
  | Clear => snd (MissionStack.clear st)
  end.

(** The registry after a sequence of calls, the first call first. *)
Definition run (calls : list call) (st : MissionStack.t) : MissionStack.t :=
  fold_left (fun st c => step c st) calls st.

(** *** Kill ratio (section 4.3) *)

(** remaining[f]: the sum of the remaining kills of the records of [f]. *)
Definition remaining (f : KillRatioCalculator.faction_view) : Z :=
  zsum (map KillRatioCalculator.remaining_of (KillRatioCalculator.missions_of f)).

Definition remaining_per_faction (factions_data : dict KillRatioCalculator.faction_view)
  : list Z :=
  map (fun ff => remaining (snd ff)) factions_data.

Definition total_remaining (factions_data : dict KillRatioCalculator.faction_view) : Z :=
  zsum (remaining_per_faction factions_data).

(** maxF: the largest remaining[f]; 0 when there is no faction. *)
Definition max_remaining (factions_data : dict KillRatioCalculator.faction_view) : Z :=
  match remaining_per_faction factions_data with
  | [] => 0
  | x :: xs => fold_right Z.max x xs
  end.

(** *** The end-to-end scenario *)

(** [e] is the acceptance of a massacre mission with the given target,
    issuer, quota and reward; its other fields are free. *)
Definition massacre_accepted (e : event_data) (target issuer : string)
    (kills reward : Z) : Prop :=
  ev_event e = Some "MissionAccepted"
  /\ str_in "Mission_Massacre" (get (ev_Name e) "") = true
  /\ ev_TargetFaction e = Some target
  /\ ev_Faction e = Some issuer
  /\ ev_KillCount e = Some kills
  /\ ev_Reward e = Some reward.

End SpecDefs.

(** A parser that rejects every string, and sample data, for the concrete
    instances of the theorems below. *)
Definition no_parser : DateTimeLib :=
  {| datetime := unit; fromisoformat := fun _ => None |}.

Definition sample_accepted (mission_id : Z) (target issuer localised : string)
    (kills reward : Z) : event_data :=
  {| ev_event := Some "MissionAccepted";
     ev_MissionID := Some mission_id;
     ev_Name := Some "Mission_Massacre_Wing";
     ev_LocalisedName := Some localised;
     ev_Faction := Some issuer;
     ev_TargetFaction := Some target;
     ev_KillCount := Some kills;
     ev_Reward := Some reward;
     ev_Expiry := Some "2025-03-01T12:00:00Z";
     ev_Wing := Some true;
     ev_DestinationSystem := None;
     ev_DestinationStation := None;
     ev_timestamp := Some "2025-02-22T12:00:00Z" |}.

Definition sample_completed (mission_id : Z) : event_data :=
  {| ev_event := Some "MissionCompleted";
     ev_MissionID := Some mission_id;
     ev_Name := None;
     ev_LocalisedName := None;
     ev_Faction := None;
     ev_TargetFaction := None;
     ev_KillCount := None;
     ev_Reward := None;
     ev_Expiry := None;
     ev_Wing := None;
     ev_DestinationSystem := None;
     ev_DestinationStation := None;
     ev_timestamp := None |}.

(** An event of a kind the registry does not handle. *)
Definition sample_bounty : event_data :=
  {| ev_event := Some "Bounty";
     ev_MissionID := None;
     ev_Name := None;
     ev_LocalisedName := None;
     ev_Faction := Some "Military Gamers";
     ev_TargetFaction := None;
     ev_KillCount := None;
     ev_Reward := Some 1000;
     ev_Expiry := None;
     ev_Wing := None;
     ev_DestinationSystem := None;
     ev_DestinationStation := None;
     ev_timestamp := None |}.

(** An accepted mission that is not a massacre mission. *)
Definition sample_courier : event_data :=
  {| ev_event := Some "MissionAccepted";
     ev_MissionID := Some 9;
     ev_Name := Some "Mission_Courier";
     ev_LocalisedName := Some "Courier job";
     ev_Faction := Some "Military Gamers";
     ev_TargetFaction := None;
     ev_KillCount := None;
     ev_Reward := Some 5000;
     ev_Expiry := None;
     ev_Wing := None;
     ev_DestinationSystem := None;
     ev_DestinationStation := None;
     ev_timestamp := None |}.

(** The three missions of the end-to-end scenario. *)
Definition scenario_1 : event_data :=
  sample_accepted 1 "Mizete Jet Society" "Military Gamers" "Kill Mizete pirates" 30 40561668.
Definition scenario_2 : event_data :=
  sample_accepted 2 "Mizete Jet Society" "Gatorma Labour" "Kill Mizete pirates" 45 16295619.
Definition scenario_3 : event_data :=
  sample_accepted 3 "Brothers of Nijoten" "Military Gamers" "Kill Nijoten pirates" 25 30106172.

Definition scenario_registry : MissionStack.t (DT := no_parser) :=
  run [Process scenario_1; Process scenario_2; Process scenario_3] MissionStack.__init__.

(** The data of [test_kill_ratio_calculation] in [kill_ratio.py]. *)
Definition example_target_faction : dict (KillRatioCalculator.faction_view (DT := no_parser)) :=
  [("Faction1",
    KillRatioCalculator.LedgerSummary
      [("Mission1", KillRatioCalculator.MissionEntry (Some 40));
       ("Mission2", KillRatioCalculator.MissionEntry (Some 35));
       ("Mission3", KillRatioCalculator.MissionEntry (Some 15))]);
   ("Faction2",
    KillRatioCalculator.LedgerSummary
      [("Mission1", KillRatioCalculator.MissionEntry (Some 25));
       ("Mission2", KillRatioCalculator.MissionEntry (Some 15))]);
   ("Faction3",
    KillRatioCalculator.LedgerSummary
      [("Mission1", KillRatioCalculator.MissionEntry (Some 2))])].

(** * Definitions for the further properties *)

(** The first element that satisfies [p], replaced by its image under [f]. *)
Fixpoint update_first {A} (p : A -> bool) (f : A -> A) (l : list A) : list A :=
  match l with
  | [] => []
  | x :: l' => if p x then f x :: l' else x :: update_first p f l'
  end.

(** The sum of a measure over the values of a dict. *)
Definition dict_sum {V} (m : V -> Z) (d : dict V) : Z :=
  zsum (map (fun kv => m (snd kv)) d).

Section MoreDefs.
Context {DT : DateTimeLib}.

(** The three aggregates of a ledger are the sums over its records. *)
Definition ledger_consistent (fm : FactionMissions.t) : Prop :=
  FactionMissions.total_initial_kills fm
  = sum_initial (dict_values (FactionMissions.missions fm))
  /\ FactionMissions.total_current_kills fm
     = sum_current (dict_values (FactionMissions.missions fm))
  /\ FactionMissions.total_reward fm
     = sum_reward (dict_values (FactionMissions.missions fm)).

Definition record_count (fm : FactionMissions.t) : Z :=
  Z.of_nat (List.length (FactionMissions.missions fm)).

(** The sum of a measure of the ledgers over the whole registry. *)
Definition registry_sum (m : FactionMissions.t -> Z) (st : MissionStack.t) : Z :=
  dict_sum (dict_sum m) (MissionStack.missions st).

(** Every ledger of the registry, in the order of the scan. *)
Definition all_ledgers (st : MissionStack.t) : list FactionMissions.t :=
  flat_map (fun tb => dict_values (snd tb)) (MissionStack.missions st).

(** [self.missions[target_faction][faction_name]], if there is one. *)
Definition lookup_ledger (target_faction faction_name : string) (st : MissionStack.t)
  : option FactionMissions.t :=
  match dict_find target_faction (MissionStack.missions st) with
  | Some bucket => dict_find faction_name bucket
  | None => None
  end.

(** The ledger after its first record with the given id, [r], had its
    current_kill_count set to [new_kill_count]. *)
Definition ledger_updated (mission_id new_kill_count : Z) (r : MissionData.t)
    (fm : FactionMissions.t) : FactionMissions.t :=
  {| FactionMissions.faction_name := FactionMissions.faction_name fm;
     FactionMissions.missions :=
       update_first (fun kv => has_id mission_id (snd kv))
         (fun kv => (fst kv, MissionData.update_kill_count new_kill_count (snd kv)))
         (FactionMissions.missions fm);
     FactionMissions.total_initial_kills := FactionMissions.total_initial_kills fm;
     FactionMissions.total_current_kills :=
       FactionMissions.total_current_kills fm
       + (new_kill_count - MissionData.current_kill_count r);
     FactionMissions.total_reward := FactionMissions.total_reward fm |}.

(** The registry after the kill count of the record at [loc] was updated. *)
Definition update_at (mission_id new_kill_count : Z) (loc : location)
    (st : MissionStack.t) : MissionStack.t :=
  MissionStack.mk
    (dict_store (loc_target loc)
       (dict_store (loc_faction loc)
          (ledger_updated mission_id new_kill_count (loc_record loc) (loc_ledger loc))
          (loc_bucket loc))
       (MissionStack.missions st)).

(** The ratio of a target faction as a number, 0 standing for a raise. *)
Definition ratio_of (target_faction : string)
    (factions_data : dict KillRatioCalculator.faction_view) : Q :=
  match KillRatioCalculator._calculate_target_faction_ratio target_faction factions_data with
  | Ok r => r
  | Raise _ => 0%Q
  end.

(** The ids of the records of the registry, in the order of the scan. *)
Definition all_ids (st : MissionStack.t) : list Z :=
  map MissionData.mission_id (all_records st).

(** [self.missions[target_faction][faction_name].missions[key]], if there is
    one. *)
Definition lookup_record (target_faction faction_name key : string) (st : MissionStack.t)
  : option MissionData.t :=
  match lookup_ledger target_faction faction_name st with
  | Some fm => dict_find key (FactionMissions.missions fm)
  | None => None
  end.

(** Every ledger of the registry has aggregates that are the sums over its
    records. *)
Definition registry_consistent (st : MissionStack.t) : Prop :=
  forall fm, In fm (all_ledgers st) -> ledger_consistent fm.

(** [event] is the acceptance of a massacre mission. *)
Definition is_massacre_accept (event : event_data) : bool :=
  String.eqb (get (ev_event event) "") "MissionAccepted"
  && str_in "Mission_Massacre" (get (ev_Name event) "").

(** The ledger an accepted mission goes to already holds a record under the
    mission's localised name. *)
Definition key_taken (event : event_data) (st : MissionStack.t) : bool :=
  match lookup_ledger (get (ev_TargetFaction event) "") (get (ev_Faction event) "") st with
  | Some fm =>
      dict_contains (get (ev_LocalisedName event) "") (FactionMissions.missions fm)
  | None => false
  end.

(** The dictionary that [FactionMissions.to_dict] builds, 0 standing for a
    raise of [get_progress_percentage]. *)
Definition ledger_dict (fm : FactionMissions.t) : FactionMissions.as_dict :=
  {| FactionMissions.d_faction_name := FactionMissions.faction_name fm;
     FactionMissions.d_missions :=
       map (fun kv => (fst kv, MissionData.to_dict (snd kv))) (FactionMissions.missions fm);
     FactionMissions.d_total_initial_kills := FactionMissions.total_initial_kills fm;
     FactionMissions.d_total_current_kills := FactionMissions.total_current_kills fm;
     FactionMissions.d_total_reward := FactionMissions.total_reward fm;
     FactionMissions.d_progress_percentage :=
       match FactionMissions.get_progress_percentage fm with
       | Ok p => p
       | Raise _ => 0%Q
       end |}.

(** The target_summary that the inner loop of [get_summary] builds for a
    bucket, starting from the empty one. *)
Definition bucket_summary (bucket : dict FactionMissions.t) : MissionStack.target_summary_t :=
  {| MissionStack.ts_factions :=
       fold_left (fun acc ff => dict_setitem (fst ff) (ledger_dict (snd ff)) acc) bucket [];
     MissionStack.ts_total_initial_kills :=
       dict_sum FactionMissions.total_initial_kills bucket;
     MissionStack.ts_total_current_kills :=
       dict_sum FactionMissions.total_current_kills bucket;
     MissionStack.ts_total_reward := dict_sum FactionMissions.total_reward bucket;
     MissionStack.ts_total_missions := dict_sum record_count bucket |}.

(** Two events give [MissionStack] the same thing to read: every
    [.get(key, default)] that [process_event] makes has the same result. *)
Definition same_reads (e1 e2 : event_data) : Prop :=
  get (ev_event e1) "" = get (ev_event e2) ""
  /\ get (ev_MissionID e1) 0 = get (ev_MissionID e2) 0
  /\ get (ev_Name e1) "" = get (ev_Name e2) ""
  /\ get (ev_LocalisedName e1) "" = get (ev_LocalisedName e2) ""
  /\ get (ev_Faction e1) "" = get (ev_Faction e2) ""
  /\ get (ev_TargetFaction e1) "" = get (ev_TargetFaction e2) ""
  /\ get (ev_KillCount e1) 0 = get (ev_KillCount e2) 0
  /\ get (ev_Reward e1) 0 = get (ev_Reward e2) 0
  /\ get (ev_Expiry e1) "" = get (ev_Expiry e2) ""
  /\ get (ev_Wing e1) false = get (ev_Wing e2) false
  /\ get (ev_DestinationSystem e1) "" = get (ev_DestinationSystem e2) ""
  /\ get (ev_DestinationStation e1) "" = get (ev_DestinationStation e2) ""
  /\ get (ev_timestamp e1) "" = get (ev_timestamp e2) "".

(** Every record is held under its own localised name, in the ledger of its
    issuing faction, in the bucket of its target faction, and every ledger
    carries the name of the faction it is held under. *)
Definition records_filed (st : MissionStack.t) : Prop :=
  (forall t f k r,
     lookup_record t f k st = Some r ->
     MissionData.target_faction r = t
     /\ MissionData.faction r = f
     /\ MissionData.localised_name r = k)
  /\ (forall t f fm,
        lookup_ledger t f st = Some fm -> FactionMissions.faction_name fm = f).

End MoreDefs.

(** ** events.py: the journal events and their classes

    A journal line is a JSON object, [Dict[str, Any]]. It is modelled as the
    thirteen fields that [MissionStack] reads ([journal]), the seven other
    fields that the event classes read, each typed as the journal schema
    types it, and the names of its remaining keys, whose values are not
    modelled (the value of the key ['datetime'] of [to_dict] is one of
    them). The elements of the arrays of a Missions event are of a type
    [mission_entry] that nothing reads. The clock [datetime.now()] is a
    value [now]. *)

Module Events.

(** What a call [cls(...)] gives: the object built, or the TypeError that
    Python raises when [**kwargs] holds the name of a parameter. *)
Inductive outcome (A : Type) : Type :=
| Built (a : A)
| TypeError.
Arguments Built {A} a.
Arguments TypeError {A}.

(** [s.startswith(prefix)] *)
Definition startswith (s prefix : string) : bool := String.prefix prefix s.

Definition present {A} (o : option A) : bool :=
  match o with Some _ => true | None => false end.

(** The value of [key] in [{k: v for k, v in d.items() if k not in excluded}]. *)
Definition keep {A} (excluded : list string) (key : string) (o : option A) : option A :=
  if existsb (String.eqb key) excluded then None else o.

(** The value of a key after [data.update(extra)]. *)
Definition over {A} (extra data : option A) : option A :=
  match extra with Some a => Some a | None => data end.

Section WithDateTime.
Context {DT : DateTimeLib}.
Variable mission_entry : Type.
Variable now : datetime.

Record json : Type := mk_json {
  journal : event_data;
  j_TargetType : option string;
  j_TargetType_Localised : option string;
  j_Influence : option string;
  j_Reputation : option string;
  j_Active : option (list mission_entry);
  j_Failed : option (list mission_entry);
  j_Complete : option (list mission_entry);
  other_keys : list string
}.

(** [key in json_data] *)
Definition has_key (key : string) (json_data : json) : bool :=
  (String.eqb key "event" && present (ev_event (journal json_data)))
  || (String.eqb key "MissionID" && present (ev_MissionID (journal json_data)))
  || (String.eqb key "Name" && present (ev_Name (journal json_data)))
  || (String.eqb key "LocalisedName" && present (ev_LocalisedName (journal json_data)))
  || (String.eqb key "Faction" && present (ev_Faction (journal json_data)))
  || (String.eqb key "TargetFaction" && present (ev_TargetFaction (journal json_data)))
  || (String.eqb key "KillCount" && present (ev_KillCount (journal json_data)))
  || (String.eqb key "Reward" && present (ev_Reward (journal json_data)))
  || (String.eqb key "Expiry" && present (ev_Expiry (journal json_data)))
  || (String.eqb key "Wing" && present (ev_Wing (journal json_data)))
  || (String.eqb key "DestinationSystem" && present (ev_DestinationSystem (journal json_data)))
  || (String.eqb key "DestinationStation" && present (ev_DestinationStation (journal json_data)))
  || (String.eqb key "timestamp" && present (ev_timestamp (journal json_data)))
  || (String.eqb key "TargetType" && present (j_TargetType json_data))
  || (String.eqb key "TargetType_Localised" && present (j_TargetType_Localised json_data))
  || (String.eqb key "Influence" && present (j_Influence json_data))
  || (String.eqb key "Reputation" && present (j_Reputation json_data))
  || (String.eqb key "Active" && present (j_Active json_data))
  || (String.eqb key "Failed" && present (j_Failed json_data))
  || (String.eqb key "Complete" && present (j_Complete json_data))
  || existsb (String.eqb key) (other_keys json_data).

(** [{k: v for k, v in json_data.items() if k not in excluded}] *)
Definition without (excluded : list string) (json_data : json) : json :=
  {| journal :=
       {| ev_event := keep excluded "event" (ev_event (journal json_data));
          ev_MissionID := keep excluded "MissionID" (ev_MissionID (journal json_data));
          ev_Name := keep excluded "Name" (ev_Name (journal json_data));
          ev_LocalisedName := keep excluded "LocalisedName" (ev_LocalisedName (journal json_data));
          ev_Faction := keep excluded "Faction" (ev_Faction (journal json_data));
          ev_TargetFaction := keep excluded "TargetFaction" (ev_TargetFaction (journal json_data));
          ev_KillCount := keep excluded "KillCount" (ev_KillCount (journal json_data));
          ev_Reward := keep excluded "Reward" (ev_Reward (journal json_data));
          ev_Expiry := keep excluded "Expiry" (ev_Expiry (journal json_data));
          ev_Wing := keep excluded "Wing" (ev_Wing (journal json_data));
          ev_DestinationSystem := keep excluded "DestinationSystem" (ev_DestinationSystem (journal json_data));
          ev_DestinationStation := keep excluded "DestinationStation" (ev_DestinationStation (journal json_data));
          ev_timestamp := keep excluded "timestamp" (ev_timestamp (journal json_data)) |};
     j_TargetType := keep excluded "TargetType" (j_TargetType json_data);
     j_TargetType_Localised := keep excluded "TargetType_Localised" (j_TargetType_Localised json_data);
     j_Influence := keep excluded "Influence" (j_Influence json_data);
     j_Reputation := keep excluded "Reputation" (j_Reputation json_data);
     j_Active := keep excluded "Active" (j_Active json_data);
     j_Failed := keep excluded "Failed" (j_Failed json_data);
     j_Complete := keep excluded "Complete" (j_Complete json_data);
     other_keys := filter (fun k => negb (existsb (String.eqb k) excluded)) (other_keys json_data) |}.

(** [data.update(extra)] *)
Definition update (data extra : json) : json :=
  {| journal :=
       {| ev_event := over (ev_event (journal extra)) (ev_event (journal data));
          ev_MissionID := over (ev_MissionID (journal extra)) (ev_MissionID (journal data));
          ev_Name := over (ev_Name (journal extra)) (ev_Name (journal data));
          ev_LocalisedName := over (ev_LocalisedName (journal extra)) (ev_LocalisedName (journal data));
          ev_Faction := over (ev_Faction (journal extra)) (ev_Faction (journal data));
          ev_TargetFaction := over (ev_TargetFaction (journal extra)) (ev_TargetFaction (journal data));
          ev_KillCount := over (ev_KillCount (journal extra)) (ev_KillCount (journal data));
          ev_Reward := over (ev_Reward (journal extra)) (ev_Reward (journal data));
          ev_Expiry := over (ev_Expiry (journal extra)) (ev_Expiry (journal data));
          ev_Wing := over (ev_Wing (journal extra)) (ev_Wing (journal data));
          ev_DestinationSystem := over (ev_DestinationSystem (journal extra)) (ev_DestinationSystem (journal data));
          ev_DestinationStation := over (ev_DestinationStation (journal extra)) (ev_DestinationStation (journal data));
          ev_timestamp := over (ev_timestamp (journal extra)) (ev_timestamp (journal data)) |};
     j_TargetType := over (j_TargetType extra) (j_TargetType data);
     j_TargetType_Localised := over (j_TargetType_Localised extra) (j_TargetType_Localised data);
     j_Influence := over (j_Influence extra) (j_Influence data);
     j_Reputation := over (j_Reputation extra) (j_Reputation data);
     j_Active := over (j_Active extra) (j_Active data);
     j_Failed := over (j_Failed extra) (j_Failed data);
     j_Complete := over (j_Complete extra) (j_Complete data);
     other_keys := other_keys data
       ++ filter (fun k => negb (existsb (String.eqb k) (other_keys data)))
            (other_keys extra) |}.

(** A call with the keyword arguments [params] and [**kwargs] raises
    TypeError when [kwargs] holds one of [params], or [self]. *)
Definition collides (params : list string) (kwargs : json) : bool :=
  existsb (fun p => has_key p kwargs) ("self" :: params).

(** *** class MissionEvent *)

Definition _parse_timestamp (timestamp_str : string) : datetime :=
  match fromisoformat (MissionData.expiry_stripped timestamp_str) with
  | Some d => d
  | None => now
  end.

(** [MissionEvent.to_dict]: the keys timestamp, event and datetime. *)
Definition base_to_dict (timestamp event : string) : json :=
  {| journal :=
       {| ev_event := Some (event);
          ev_MissionID := None;
          ev_Name := None;
          ev_LocalisedName := None;
          ev_Faction := None;
          ev_TargetFaction := None;
          ev_KillCount := None;
          ev_Reward := None;
          ev_Expiry := None;
          ev_Wing := None;
          ev_DestinationSystem := None;
          ev_DestinationStation := None;
          ev_timestamp := Some (timestamp) |};
     j_TargetType := None;
     j_TargetType_Localised := None;
     j_Influence := None;
     j_Reputation := None;
     j_Active := None;
     j_Failed := None;
     j_Complete := None;
     other_keys := ["datetime"] |}.

(** *** class MissionsEvent *)

Record MissionsEvent : Type := mk_missions {
  ms_timestamp : string;
  ms_event : string;
  ms_datetime : datetime;
  ms_active : list mission_entry;
  ms_failed : list mission_entry;
  ms_complete : list mission_entry
}.

(** [x or []] on a list. *)
Definition or_empty (x : list mission_entry) : list mission_entry :=
  match x with [] => [] | _ => x end.

Definition MissionsEvent_init (timestamp : string)
    (active failed complete : list mission_entry) : MissionsEvent :=
  {| ms_timestamp := timestamp;
     ms_event := "Missions";
     ms_datetime := _parse_timestamp timestamp;
     ms_active := or_empty active;
     ms_failed := or_empty failed;
     ms_complete := or_empty complete |}.

Definition MissionsEvent_from_json (json_data : json) : MissionsEvent :=
  MissionsEvent_init
    (get (ev_timestamp (journal json_data)) "")
    (get (j_Active json_data) [])
    (get (j_Failed json_data) [])
    (get (j_Complete json_data) []).

Definition MissionsEvent_to_dict (self : MissionsEvent) : json :=
  update (base_to_dict (ms_timestamp self) (ms_event self))
    {| journal :=
         {| ev_event := None;
            ev_MissionID := None;
            ev_Name := None;
            ev_LocalisedName := None;
            ev_Faction := None;
            ev_TargetFaction := None;
            ev_KillCount := None;
            ev_Reward := None;
            ev_Expiry := None;
            ev_Wing := None;
            ev_DestinationSystem := None;
            ev_DestinationStation := None;
            ev_timestamp := None |};
       j_TargetType := None;
       j_TargetType_Localised := None;
       j_Influence := None;
       j_Reputation := None;
       j_Active := Some (ms_active self);
       j_Failed := Some (ms_failed self);
       j_Complete := Some (ms_complete self);
       other_keys := [] |}.

(** *** class MissionAcceptedEvent *)

Record MissionAcceptedEvent : Type := mk_accepted {
  ac_timestamp : string;
  ac_event : string;
  ac_datetime : datetime;
  ac_faction : string;
  ac_name : string;
  ac_localised_name : string;
  ac_target_type : string;
  ac_target_type_localised : string;
  ac_target_faction : string;
  ac_kill_count : Z;
  ac_destination_system : string;
  ac_destination_station : string;
  ac_expiry : string;
  ac_expiry_datetime : option datetime;
  ac_wing : bool;
  ac_influence : string;
  ac_reputation : string;
  ac_reward : Z;
  ac_mission_id : Z;
  ac_extra_data : json
}.

Definition MissionAcceptedEvent_init (timestamp faction name localised_name
    target_type target_type_localised target_faction : string) (kill_count : Z)
    (destination_system destination_station expiry : string) (wing : bool)
    (influence reputation : string) (reward mission_id : Z) (kwargs : json)
  : MissionAcceptedEvent :=
  {| ac_timestamp := timestamp;
     ac_event := "MissionAccepted";
     ac_datetime := _parse_timestamp timestamp;
     ac_faction := faction;
     ac_name := name;
     ac_localised_name := localised_name;
     ac_target_type := target_type;
     ac_target_type_localised := target_type_localised;
     ac_target_faction := target_faction;
     ac_kill_count := kill_count;
     ac_destination_system := destination_system;
     ac_destination_station := destination_station;
     ac_expiry := expiry;
     ac_expiry_datetime :=
       if String.eqb expiry "" then None else Some (_parse_timestamp expiry);
     ac_wing := wing;
     ac_influence := influence;
     ac_reputation := reputation;
     ac_reward := reward;
     ac_mission_id := mission_id;
     ac_extra_data := kwargs |}.

Definition MissionAcceptedEvent_from_json (json_data : json)
  : outcome MissionAcceptedEvent :=
  let kwargs :=
    without ["timestamp"; "event"; "Faction"; "Name"; "LocalisedName";
             "TargetType"; "TargetType_Localised"; "TargetFaction";
             "KillCount"; "DestinationSystem"; "DestinationStation";
             "Expiry"; "Wing"; "Influence"; "Reputation"; "Reward"; "MissionID"]
      json_data in
  if collides ["timestamp"; "faction"; "name"; "localised_name"; "target_type";
               "target_type_localised"; "target_faction"; "kill_count";
               "destination_system"; "destination_station"; "expiry"; "wing";
               "influence"; "reputation"; "reward"; "mission_id"] kwargs
  then TypeError
  else
    Built (MissionAcceptedEvent_init
             (get (ev_timestamp (journal json_data)) "")
             (get (ev_Faction (journal json_data)) "")
             (get (ev_Name (journal json_data)) "")
             (get (ev_LocalisedName (journal json_data)) "")
             (get (j_TargetType json_data) "")
             (get (j_TargetType_Localised json_data) "")
             (get (ev_TargetFaction (journal json_data)) "")
             (get (ev_KillCount (journal json_data)) 0)
             (get (ev_DestinationSystem (journal json_data)) "")
             (get (ev_DestinationStation (journal json_data)) "")
             (get (ev_Expiry (journal json_data)) "")
             (get (ev_Wing (journal json_data)) false)
             (get (j_Influence json_data) "")
             (get (j_Reputation json_data) "")
             (get (ev_Reward (journal json_data)) 0)
             (get (ev_MissionID (journal json_data)) 0)
             kwargs).

Definition MissionAcceptedEvent_to_dict (self : MissionAcceptedEvent) : json :=
  update
    (update (base_to_dict (ac_timestamp self) (ac_event self))
       {| journal :=
            {| ev_event := None;
               ev_MissionID := Some (ac_mission_id self);
               ev_Name := Some (ac_name self);
               ev_LocalisedName := Some (ac_localised_name self);
               ev_Faction := Some (ac_faction self);
               ev_TargetFaction := Some (ac_target_faction self);
               ev_KillCount := Some (ac_kill_count self);
               ev_Reward := Some (ac_reward self);
               ev_Expiry := Some (ac_expiry self);
               ev_Wing := Some (ac_wing self);
               ev_DestinationSystem := Some (ac_destination_system self);
               ev_DestinationStation := Some (ac_destination_station self);
               ev_timestamp := None |};
          j_TargetType := Some (ac_target_type self);
          j_TargetType_Localised := Some (ac_target_type_localised self);
          j_Influence := Some (ac_influence self);
          j_Reputation := Some (ac_reputation self);
          j_Active := None;
          j_Failed := None;
          j_Complete := None;
          other_keys := [] |})
    (ac_extra_data self).

(** *** class MissionCompletedEvent *)

Record MissionCompletedEvent : Type := mk_completed {
  co_timestamp : string;
  co_event : string;
  co_datetime : datetime;
  co_faction : string;
  co_name : string;
  co_mission_id : Z;
  co_reward : Z;
  co_extra_data : json
}.

Definition MissionCompletedEvent_init (timestamp faction name : string)
    (mission_id reward : Z) (kwargs : json) : MissionCompletedEvent :=
  {| co_timestamp := timestamp;
     co_event := "MissionCompleted";
     co_datetime := _parse_timestamp timestamp;
     co_faction := faction;
     co_name := name;
     co_mission_id := mission_id;
     co_reward := reward;
     co_extra_data := kwargs |}.

Definition MissionCompletedEvent_from_json (json_data : json)
  : outcome MissionCompletedEvent :=
  let kwargs :=
    without ["timestamp"; "event"; "Faction"; "Name"; "MissionID"; "Reward"] json_data in
  if collides ["timestamp"; "faction"; "name"; "mission_id"; "reward"] kwargs
  then TypeError
  else
    Built (MissionCompletedEvent_init
             (get (ev_timestamp (journal json_data)) "")
             (get (ev_Faction (journal json_data)) "")
             (get (ev_Name (journal json_data)) "")
             (get (ev_MissionID (journal json_data)) 0)
             (get (ev_Reward (journal json_data)) 0)
             kwargs).

Definition MissionCompletedEvent_to_dict (self : MissionCompletedEvent) : json :=
  update
    (update (base_to_dict (co_timestamp self) (co_event self))
       {| journal :=
            {| ev_event := None;
               ev_MissionID := Some (co_mission_id self);
               ev_Name := Some (co_name self);
               ev_LocalisedName := None;
               ev_Faction := Some (co_faction self);
               ev_TargetFaction := None;
               ev_KillCount := None;
               ev_Reward := Some (co_reward self);
               ev_Expiry := None;
               ev_Wing := None;
               ev_DestinationSystem := None;
               ev_DestinationStation := None;
               ev_timestamp := None |};
          j_TargetType := None;
          j_TargetType_Localised := None;
          j_Influence := None;
          j_Reputation := None;
          j_Active := None;
          j_Failed := None;
          j_Complete := None;
          other_keys := [] |})
    (co_extra_data self).

(** *** class MissionFailedEvent *)

Record MissionFailedEvent : Type := mk_failed {
  fa_timestamp : string;
  fa_event : string;
  fa_datetime : datetime;
  fa_name : string;
  fa_mission_id : Z;
  fa_extra_data : json
}.

Definition MissionFailedEvent_init (timestamp name : string) (mission_id : Z)
    (kwargs : json) : MissionFailedEvent :=
  {| fa_timestamp := timestamp;
     fa_event := "MissionFailed";
     fa_datetime := _parse_timestamp timestamp;
     fa_name := name;
     fa_mission_id := mission_id;
     fa_extra_data := kwargs |}.

Definition MissionFailedEvent_from_json (json_data : json) : outcome MissionFailedEvent :=
  let kwargs := without ["timestamp"; "event"; "Name"; "MissionID"] json_data in
  if collides ["timestamp"; "name"; "mission_id"] kwargs
  then TypeError
  else
    Built (MissionFailedEvent_init
             (get (ev_timestamp (journal json_data)) "")
             (get (ev_Name (journal json_data)) "")
             (get (ev_MissionID (journal json_data)) 0)
             kwargs).

Definition MissionFailedEvent_to_dict (self : MissionFailedEvent) : json :=
  update
    (update (base_to_dict (fa_timestamp self) (fa_event self))
       {| journal :=
            {| ev_event := None;
               ev_MissionID := Some (fa_mission_id self);
               ev_Name := Some (fa_name self);
               ev_LocalisedName := None;
               ev_Faction := None;
               ev_TargetFaction := None;
               ev_KillCount := None;
               ev_Reward := None;
               ev_Expiry := None;
               ev_Wing := None;
               ev_DestinationSystem := None;
               ev_DestinationStation := None;
               ev_timestamp := None |};
          j_TargetType := None;
          j_TargetType_Localised := None;
          j_Influence := None;
          j_Reputation := None;
          j_Active := None;
          j_Failed := None;
          j_Complete := None;
          other_keys := [] |})
    (fa_extra_data self).

(** *** class MissionAbandonedEvent *)

Record MissionAbandonedEvent : Type := mk_abandoned {
  ab_timestamp : string;
  ab_event : string;
  ab_datetime : datetime;
  ab_name : string;
  ab_mission_id : Z;
  ab_extra_data : json
}.

Definition MissionAbandonedEvent_init (timestamp name : string) (mission_id : Z)
    (kwargs : json) : MissionAbandonedEvent :=
  {| ab_timestamp := timestamp;
     ab_event := "MissionAbandoned";
     ab_datetime := _parse_timestamp timestamp;
     ab_name := name;
     ab_mission_id := mission_id;
     ab_extra_data := kwargs |}.

Definition MissionAbandonedEvent_from_json (json_data : json)
  : outcome MissionAbandonedEvent :=
  let kwargs := without ["timestamp"; "event"; "Name"; "MissionID"] json_data in
  if collides ["timestamp"; "name"; "mission_id"] kwargs
  then TypeError
  else
    Built (MissionAbandonedEvent_init
             (get (ev_timestamp (journal json_data)) "")
             (get (ev_Name (journal json_data)) "")
             (get (ev_MissionID (journal json_data)) 0)
             kwargs).

Definition MissionAbandonedEvent_to_dict (self : MissionAbandonedEvent) : json :=
  update
    (update (base_to_dict (ab_timestamp self) (ab_event self))
       {| journal :=
            {| ev_event := None;
               ev_MissionID := Some (ab_mission_id self);
               ev_Name := Some (ab_name self);
               ev_LocalisedName := None;
               ev_Faction := None;
               ev_TargetFaction := None;
               ev_KillCount := None;
               ev_Reward := None;
               ev_Expiry := None;
               ev_Wing := None;
               ev_DestinationSystem := None;
               ev_DestinationStation := None;
               ev_timestamp := None |};
          j_TargetType := None;
          j_TargetType_Localised := None;
          j_Influence := None;
          j_Reputation := None;
          j_Active := None;
          j_Failed := None;
          j_Complete := None;
          other_keys := [] |})
    (ab_extra_data self).

(** *** The factory and the utility functions *)

(** An object of one of the five classes. *)
Inductive MissionEvent : Type :=
| Missions (o : MissionsEvent)
| Accepted (o : MissionAcceptedEvent)
| Completed (o : MissionCompletedEvent)
| Failed (o : MissionFailedEvent)
| Abandoned (o : MissionAbandonedEvent).

Definition outcome_map {A B} (f : A -> B) (r : outcome A) : outcome B :=
  match r with Built a => Built (f a) | TypeError => TypeError end.

(** [MissionEvent.from_json]: [None] is the factory's [return None]. *)
Definition from_json (json_data : json) : outcome (option MissionEvent) :=
  let event_type := get (ev_event (journal json_data)) "" in
  if String.eqb event_type "Missions" then
    Built (Some (Missions (MissionsEvent_from_json json_data)))
  else if String.eqb event_type "MissionAccepted" then
    outcome_map (fun o => Some (Accepted o)) (MissionAcceptedEvent_from_json json_data)
  else if String.eqb event_type "MissionCompleted" then
    outcome_map (fun o => Some (Completed o)) (MissionCompletedEvent_from_json json_data)
  else if String.eqb event_type "MissionFailed" then
    outcome_map (fun o => Some (Failed o)) (MissionFailedEvent_from_json json_data)
  else if String.eqb event_type "MissionAbandoned" then
    outcome_map (fun o => Some (Abandoned o)) (MissionAbandonedEvent_from_json json_data)
  else Built None.

(** [mission_event.to_dict()], by the class of the object. *)
Definition to_dict (mission_event : MissionEvent) : json :=
  match mission_event with
  | Missions o => MissionsEvent_to_dict o
  | Accepted o => MissionAcceptedEvent_to_dict o
  | Completed o => MissionCompletedEvent_to_dict o
  | Failed o => MissionFailedEvent_to_dict o
  | Abandoned o => MissionAbandonedEvent_to_dict o
  end.

Definition parse_mission_event (json_data : json) : outcome (option MissionEvent) :=
  from_json json_data.

Definition is_mission_event (json_data : json) : bool :=
  let event_type := get (ev_event (journal json_data)) "" in
  startswith event_type "Mission" || String.eqb event_type "Missions".

End WithDateTime.
End Events.

(** ** The range of binary64

    [int_truediv] and [float_int_truediv] divide without a range. Python's
    [/] raises OverflowError when the quotient of two ints rounds to a float
    beyond the largest binary64, and when the int operand of a float
    division does not convert to a float. Both happen from
    [2^1024 - 2^970] on, the least magnitude that rounds to infinity. The
    functions of the program that divide are given here with that check;
    where they return, their values are those of the functions above, exact
    rationals still. A product of two floats beyond the range is infinite in
    Python and raises nothing. *)

Module Binary64.
Section WithDateTime.
Context {DT : DateTimeLib}.

Definition overflow_threshold : Z := 2 ^ 1024 - 2 ^ 970.

(** [a / b] on two ints. *)
Definition int_truediv (a b : Z) : result Q :=
  if b =? 0 then Raise ZeroDivisionError
  else if overflow_threshold * Z.abs b <=? Z.abs a then Raise OverflowError
  else Ok (inject_Z a / inject_Z b)%Q.

(** [x / b] with a float [x] and an int [b]: [b] is converted first. *)
Definition float_int_truediv (x : Q) (b : Z) : result Q :=
  if overflow_threshold <=? Z.abs b then Raise OverflowError
  else if b =? 0 then Raise ZeroDivisionError
  else Ok (x / inject_Z b)%Q.

(** *** class FactionMissions *)

Definition get_progress_percentage (self : FactionMissions.t) : result Q :=
  if FactionMissions.total_initial_kills self =? 0 then Ok 0%Q
  else
    q <~ int_truediv (FactionMissions.total_current_kills self)
           (FactionMissions.total_initial_kills self) ;;
    Ok (q * 100)%Q.

Definition to_dict (self : FactionMissions.t) : result FactionMissions.as_dict :=
  p <~ get_progress_percentage self ;;
  Ok {| FactionMissions.d_faction_name := FactionMissions.faction_name self;
        FactionMissions.d_missions :=
          map (fun kv => (fst kv, MissionData.to_dict (snd kv)))
              (FactionMissions.missions self);
        FactionMissions.d_total_initial_kills := FactionMissions.total_initial_kills self;
        FactionMissions.d_total_current_kills := FactionMissions.total_current_kills self;
        FactionMissions.d_total_reward := FactionMissions.total_reward self;
        FactionMissions.d_progress_percentage := p |}.

(** *** class KillRatioCalculator *)

Definition _compute_kill_ratio (faction_remaining_kills : dict Z) : result Q :=
  let total_factions := Z.of_nat (List.length faction_remaining_kills) in
  if total_factions =? 0 then Ok 0%Q
  else if total_factions =? 1 then Ok 1%Q
  else
    let total_remaining :=
      KillRatioCalculator.py_sum (dict_values faction_remaining_kills) in
    if total_remaining =? 0 then Ok 0%Q
    else
      max_remaining <~ KillRatioCalculator.py_max (dict_values faction_remaining_kills) ;;
      avg_remaining <~ int_truediv total_remaining total_factions ;;
      distribution_factor <~
        (if 0 <? max_remaining then float_int_truediv avg_remaining max_remaining
         else Ok 1%Q) ;;
      base_ratio <~
        (if 0 <? total_remaining then int_truediv max_remaining total_remaining
         else Ok 0%Q) ;;
      let ratio := (base_ratio * distribution_factor)%Q in
      Ok (KillRatioCalculator.float_max 0 (KillRatioCalculator.float_min 1 ratio)).

Definition _calculate_target_faction_ratio (target_faction : string)
    (factions_data : dict KillRatioCalculator.faction_view) : result Q :=
  if Z.of_nat (List.length factions_data) =? 1 then Ok 1%Q
  else
    let faction_remaining_kills :=
      fold_left
        (fun acc kv =>
           dict_setitem (fst kv)
             (KillRatioCalculator._calculate_faction_remaining_kills (snd kv)) acc)
        factions_data [] in
    _compute_kill_ratio faction_remaining_kills.

Fixpoint calculate_ratios_loop
    (items : list (string * dict KillRatioCalculator.faction_view))
    (ratios : dict Q) : result (dict Q) :=
  match items with
  | [] => Ok ratios
  | (target_faction, factions_data) :: rest =>
      ratio <~ _calculate_target_faction_ratio target_faction factions_data ;;
      calculate_ratios_loop rest (dict_setitem target_faction ratio ratios)
  end.

Definition calculate_ratios (mission_stack : dict (dict KillRatioCalculator.faction_view))
  : result (dict Q) :=
  calculate_ratios_loop mission_stack [].

Fixpoint breakdown_loop (items : list (string * dict KillRatioCalculator.faction_view))
    (breakdown : dict KillRatioCalculator.target_breakdown)
  : result (dict KillRatioCalculator.target_breakdown) :=
  match items with
  | [] => Ok breakdown
  | (target_faction, factions_data) :: rest =>
      let (faction_details, total_remaining) :=
        KillRatioCalculator.breakdown_factions factions_data [] 0 in
      ratio <~ _calculate_target_faction_ratio target_faction factions_data ;;
      breakdown_loop rest
        (dict_setitem target_faction
           {| KillRatioCalculator.ratio := ratio;
              KillRatioCalculator.faction_details := faction_details;
              KillRatioCalculator.total_remaining_kills := total_remaining;
              KillRatioCalculator.faction_count :=
                Z.of_nat (List.length factions_data) |}
           breakdown)
  end.

Definition calculate_detailed_breakdown
    (mission_stack : dict (dict KillRatioCalculator.faction_view))
  : result (dict KillRatioCalculator.target_breakdown) :=
  breakdown_loop mission_stack [].

(** *** class MissionStack *)

Fixpoint summarize_factions (items : list (string * FactionMissions.t))
    (target_summary : MissionStack.target_summary_t)
  : result MissionStack.target_summary_t :=
  match items with
  | [] => Ok target_summary
  | (faction_name, faction_missions) :: rest =>
      faction_data <~ to_dict faction_missions ;;
      summarize_factions rest
        {| MissionStack.ts_factions :=
             dict_setitem faction_name faction_data
               (MissionStack.ts_factions target_summary);
           MissionStack.ts_total_initial_kills :=
             MissionStack.ts_total_initial_kills target_summary
             + FactionMissions.d_total_initial_kills faction_data;
           MissionStack.ts_total_current_kills :=
             MissionStack.ts_total_current_kills target_summary
             + FactionMissions.d_total_current_kills faction_data;
           MissionStack.ts_total_reward :=
             MissionStack.ts_total_reward target_summary
             + FactionMissions.d_total_reward faction_data;
           MissionStack.ts_total_missions :=
             MissionStack.ts_total_missions target_summary
             + Z.of_nat (List.length (FactionMissions.d_missions faction_data)) |}
  end.

Fixpoint summarize_targets (items : list (string * dict FactionMissions.t))
    (summary : MissionStack.summary_t) : result MissionStack.summary_t :=
  match items with
  | [] => Ok summary
  | (target_faction, factions) :: rest =>
      target_summary <~
        summarize_factions factions
          {| MissionStack.ts_factions := [];
             MissionStack.ts_total_initial_kills := 0;
             MissionStack.ts_total_current_kills := 0;
             MissionStack.ts_total_reward := 0;
             MissionStack.ts_total_missions := 0 |} ;;
      summarize_targets rest
        {| MissionStack.s_target_factions :=
             dict_setitem target_faction target_summary
               (MissionStack.s_target_factions summary);
           MissionStack.s_total_initial_kills :=
             MissionStack.s_total_initial_kills summary
             + MissionStack.ts_total_initial_kills target_summary;
           MissionStack.s_total_current_kills :=
             MissionStack.s_total_current_kills summary
             + MissionStack.ts_total_current_kills target_summary;
           MissionStack.s_total_reward :=
             MissionStack.s_total_reward summary
             + MissionStack.ts_total_reward target_summary;
           MissionStack.s_total_missions :=
             MissionStack.s_total_missions summary
             + MissionStack.ts_total_missions target_summary |}
  end.

Definition get_summary (self : MissionStack.t) : result MissionStack.summary_t :=
  summarize_targets (MissionStack.missions self)
    {| MissionStack.s_target_factions := [];
       MissionStack.s_total_initial_kills := 0;
       MissionStack.s_total_current_kills := 0;
       MissionStack.s_total_reward := 0;
       MissionStack.s_total_missions := 0 |}.

Definition get_kill_ratios (self : MissionStack.t) : result (dict Q) :=
  calculate_ratios (MissionStack.registry_view self).

Definition get_detailed_kill_breakdown (self : MissionStack.t)
  : result (dict KillRatioCalculator.target_breakdown) :=
  calculate_detailed_breakdown (MissionStack.registry_view self).

(** *** What the range adds *)

(** [r] is the result [ideal] of the function without a range, or the
    OverflowError that the range adds. *)
Definition ranged {A} (r ideal : result A) : Prop :=
  r = ideal \/ r = Raise OverflowError.

(** The progress percentage of the ledger is within the range. *)
Definition ledger_in_range (fm : FactionMissions.t) : bool :=
  (FactionMissions.total_initial_kills fm =? 0)
  || (Z.abs (FactionMissions.total_current_kills fm)
      <? overflow_threshold * Z.abs (FactionMissions.total_initial_kills fm)).

Definition registry_in_range (st : MissionStack.t) : bool :=
  forallb (fun tb => forallb (fun ff => ledger_in_range (snd ff)) (snd tb))
    (MissionStack.missions st).

(** The three divisions of [_compute_kill_ratio] are within the range: the
    average, the division by the maximum, whose int is converted first, and
    the base ratio. Nothing is divided for less than two factions or for a
    total of zero. *)
Definition kills_in_range (faction_remaining_kills : dict Z) : bool :=
  let total_factions := Z.of_nat (List.length faction_remaining_kills) in
  let total_remaining :=
    KillRatioCalculator.py_sum (dict_values faction_remaining_kills) in
  match KillRatioCalculator.py_max (dict_values faction_remaining_kills) with
  | Raise _ => true
  | Ok max_remaining =>
      (total_factions <=? 1) || (total_remaining =? 0)
      || ((Z.abs total_remaining <? overflow_threshold * Z.abs total_factions)
          && ((max_remaining <=? 0) || (Z.abs max_remaining <? overflow_threshold))
          && ((total_remaining <=? 0)
              || (Z.abs max_remaining
                  <? overflow_threshold * Z.abs total_remaining)))
  end.

(** The ratio of one target faction is within the range. *)
Definition target_in_range (factions_data : dict KillRatioCalculator.faction_view)
  : bool :=
  (Z.of_nat (List.length factions_data) =? 1)
  || kills_in_range
       (fold_left
          (fun acc kv =>
             dict_setitem (fst kv)
               (KillRatioCalculator._calculate_faction_remaining_kills (snd kv)) acc)
          factions_data []).

(** The ratio of every target faction is within the range. *)
Definition stack_in_range (mission_stack : dict (dict KillRatioCalculator.faction_view))
  : bool :=
  forallb (fun tb => target_in_range (snd tb)) mission_stack.

End WithDateTime.
End Binary64.

(** A ledger beyond the range, reached by events: the second acceptance
    meets the key of the first and replaces the current kill count of its
    record, the aggregates staying; the completion of mission 1 then takes
    that count from total_current_kills. *)
Definition overflow_calls : list call :=
  [Process (sample_accepted 1 "T" "F" "Kill A" 1 100);
   Process (sample_accepted 2 "T" "F" "Kill A" (10 ^ 400) 100);
   Process (sample_accepted 3 "T" "F" "Kill B" 5 100);
   Process (sample_completed 1)].

Definition overflow_registry : MissionStack.t (DT := no_parser) :=
  run overflow_calls MissionStack.__init__.

Definition overflow_ledger : FactionMissions.t (DT := no_parser) :=
  get (lookup_ledger "T" "F" overflow_registry) (FactionMissions.__init__ "F").

(** Two issuing factions whose remaining kills are beyond the range. *)
Definition overflow_target_faction
  : dict (KillRatioCalculator.faction_view (DT := no_parser)) :=
  [("Faction1",
    KillRatioCalculator.LedgerSummary
      [("Mission1", KillRatioCalculator.MissionEntry (Some (10 ^ 400)))]);
   ("Faction2",
    KillRatioCalculator.LedgerSummary
      [("Mission1", KillRatioCalculator.MissionEntry (Some 1))])].

(** Unfolding the monadic operations. *)
Ltac unmonad :=
  unfold bind, ret, gets, modify, lift, try_except, rbind in *; simpl in *.

(** * Facts about the runtime model *)

Unset Implicit Arguments.

Section DictFacts.
Variable V : Type.
Implicit Types (d : dict V) (k : string) (v : V).

Lemma existsb_eqb_In k ks : existsb (String.eqb k) ks = true <-> In k ks.
Proof.
  rewrite existsb_exists. split.
  - intros [x [Hin Heq]]. apply String.eqb_eq in Heq. now subst.
  - intros Hin. exists k. split; [assumption | apply String.eqb_refl].
Qed.

Lemma distinct_NoDup ks : distinct ks = true <-> NoDup ks.
Proof.
  induction ks as [|k ks IH]; simpl.
  - split; [constructor | reflexivity].
  - rewrite andb_true_iff, negb_true_iff, IH. split.
    + intros [Hn Hd]. constructor; [|assumption].
      intro Hin. apply existsb_eqb_In in Hin. congruence.
    + intros Hnd. inversion Hnd as [|? ? Hn Hd]; subst. split; [|assumption].
      destruct (existsb (String.eqb k) ks) eqn:E; [|reflexivity].
      apply existsb_eqb_In in E. contradiction.
Qed.

Lemma dict_ok_wf d : dict_ok d = true <-> dict_wf d.
Proof. apply distinct_NoDup. Qed.

Lemma dict_ok_cons k v d :
  dict_ok ((k, v) :: d) = true <-> ~ In k (dict_keys d) /\ dict_ok d = true.
Proof.
  rewrite !dict_ok_wf. unfold dict_wf. simpl. split.
  - intros H. inversion H; subst. now split.
  - intros [H1 H2]. now constructor.
Qed.

Lemma dict_find_None_keys k d : dict_find k d = None <-> ~ In k (dict_keys d).
Proof.
  induction d as [|[k' v'] d IH]; simpl.
  - tauto.
  - destruct (String.eqb k k') eqn:E.
    + apply String.eqb_eq in E. subst. split; [discriminate | intros H; exfalso; auto].
    + apply String.eqb_neq in E. rewrite IH. split.
      * intros H [H1|H1]; [congruence | auto].
      * intros H H1. apply H. now right.
Qed.

Lemma dict_find_Some_In k v d : dict_find k d = Some v -> In (k, v) d.
Proof.
  induction d as [|[k' v'] d IH]; simpl; [discriminate|].
  destruct (String.eqb k k') eqn:E.
  - apply String.eqb_eq in E. subst. intros [= ->]. now left.
  - intros H. right. auto.
Qed.

Lemma dict_find_Some_keys k v d : dict_find k d = Some v -> In k (dict_keys d).
Proof.
  intros H. apply dict_find_Some_In in H. apply (in_map fst) in H. exact H.
Qed.

Lemma dict_In_find k v d : dict_ok d = true -> In (k, v) d -> dict_find k d = Some v.
Proof.
  induction d as [|[k' v'] d IH]; simpl; [tauto|].
  intros Hok [Heq|Hin].
  - injection Heq as -> ->. now rewrite String.eqb_refl.
  - apply dict_ok_cons in Hok. destruct Hok as [Hn Hok].
    destruct (String.eqb k k') eqn:E.
    + apply String.eqb_eq in E. subst. exfalso. apply Hn.
      apply (in_map fst) in Hin. exact Hin.
    + auto.
Qed.

Lemma dict_contains_find k d :
  dict_contains k d = match dict_find k d with Some _ => true | None => false end.
Proof. reflexivity. Qed.

Lemma dict_find_setitem_same k v d : dict_find k (dict_setitem k v d) = Some v.
Proof.
  induction d as [|[k' v'] d IH]; simpl.
  - now rewrite String.eqb_refl.
  - destruct (String.eqb k k') eqn:E; simpl; rewrite E; [reflexivity | exact IH].
Qed.

Lemma dict_find_setitem_other k k0 v d :
  k0 <> k -> dict_find k0 (dict_setitem k v d) = dict_find k0 d.
Proof.
  intros Hne. induction d as [|[k' v'] d IH]; simpl.
  - apply String.eqb_neq in Hne. now rewrite Hne.
  - destruct (String.eqb k k') eqn:E; simpl.
    + apply String.eqb_eq in E. subst k'.
      apply String.eqb_neq in Hne. now rewrite Hne.
    + now rewrite IH.
Qed.

Lemma dict_find_store_same k v d :
  dict_find k (dict_store k v d) =
  match dict_find k d with Some _ => Some v | None => None end.
Proof.
  induction d as [|[k' v'] d IH]; simpl; [reflexivity|].
  destruct (String.eqb k k') eqn:E; simpl; rewrite E; [reflexivity | exact IH].
Qed.

Lemma dict_find_store_other k k0 v d :
  k0 <> k -> dict_find k0 (dict_store k v d) = dict_find k0 d.
Proof.
  intros Hne. induction d as [|[k' v'] d IH]; simpl; [reflexivity|].
  destruct (String.eqb k k') eqn:E; simpl.
  - apply String.eqb_eq in E. subst k'.
    apply String.eqb_neq in Hne. now rewrite Hne.
  - now rewrite IH.
Qed.

Lemma dict_store_id k v d : dict_find k d = Some v -> dict_store k v d = d.
Proof.
  induction d as [|[k' v'] d IH]; simpl; [reflexivity|].
  destruct (String.eqb k k') eqn:E.
  - intros [= ->]. reflexivity.
  - intros H. now rewrite IH.
Qed.

Lemma dict_store_absent k v d : dict_find k d = None -> dict_store k v d = d.
Proof.
  induction d as [|[k' v'] d IH]; simpl; [reflexivity|].
  destruct (String.eqb k k') eqn:E; [discriminate|].
  intros H. now rewrite IH.
Qed.

Lemma dict_store_store k v v' d :
  dict_store k v (dict_store k v' d) = dict_store k v d.
Proof.
  induction d as [|[k0 v0] d IH]; simpl; [reflexivity|].
  destruct (String.eqb k k0) eqn:E; simpl; rewrite E; [reflexivity | now rewrite IH].
Qed.

Lemma dict_store_setitem k v v' d :
  dict_store k v (dict_setitem k v' d) = dict_setitem k v d.
Proof.
  induction d as [|[k0 v0] d IH]; simpl.
  - now rewrite String.eqb_refl.
  - destruct (String.eqb k k0) eqn:E; simpl; rewrite E; [reflexivity | now rewrite IH].
Qed.

Lemma dict_store_is_setitem k v d :
  dict_find k d <> None -> dict_store k v d = dict_setitem k v d.
Proof.
  induction d as [|[k0 v0] d IH]; simpl; [congruence|].
  destruct (String.eqb k k0) eqn:E; [reflexivity|].
  intros H. now rewrite IH.
Qed.

Lemma dict_keys_store k v d : dict_keys (dict_store k v d) = dict_keys d.
Proof.
  induction d as [|[k0 v0] d IH]; simpl; [reflexivity|].
  destruct (String.eqb k k0); simpl; [reflexivity | now rewrite IH].
Qed.

Lemma dict_keys_setitem_new k v d :
  dict_find k d = None -> dict_setitem k v d = d ++ [(k, v)].
Proof.
  induction d as [|[k0 v0] d IH]; simpl; [reflexivity|].
  destruct (String.eqb k k0); [discriminate|].
  intros H. now rewrite IH.
Qed.

Lemma dict_keys_setitem k v d :
  dict_keys (dict_setitem k v d) =
  match dict_find k d with Some _ => dict_keys d | None => dict_keys d ++ [k] end.
Proof.
  induction d as [|[k0 v0] d IH]; simpl; [reflexivity|].
  destruct (String.eqb k k0) eqn:E; simpl; [reflexivity|].
  rewrite IH. now destruct (dict_find k d).
Qed.

Lemma dict_ok_store k v d : dict_ok (dict_store k v d) = dict_ok d.
Proof. unfold dict_ok. now rewrite dict_keys_store. Qed.

Lemma dict_ok_setitem k v d : dict_ok d = true -> dict_ok (dict_setitem k v d) = true.
Proof.
  unfold dict_ok. rewrite dict_keys_setitem.
  destruct (dict_find k d) eqn:E; [tauto|].
  rewrite !distinct_NoDup. intros H.
  apply dict_find_None_keys in E.
  apply NoDup_rev in H. rewrite <- (rev_involutive (dict_keys d ++ [k])).
  apply NoDup_rev. rewrite rev_app_distr. simpl. constructor; [|assumption].
  now rewrite <- in_rev.
Qed.

Lemma dict_keys_remove_incl k k0 d :
  In k0 (dict_keys (dict_remove k d)) -> In k0 (dict_keys d).
Proof.
  induction d as [|[k1 v1] d IH]; simpl; [tauto|].
  destruct (String.eqb k k1); simpl; [tauto|].
  intros [H|H]; [now left | right; auto].
Qed.

Lemma dict_ok_remove k d : dict_ok d = true -> dict_ok (dict_remove k d) = true.
Proof.
  induction d as [|[k1 v1] d IH]; simpl; [tauto|].
  intros H. apply dict_ok_cons in H. destruct H as [Hn Hok].
  destruct (String.eqb k k1); [assumption|].
  apply dict_ok_cons. split; [|auto].
  intro Hin. apply Hn. eapply dict_keys_remove_incl; eauto.
Qed.

Lemma dict_find_remove_same k d :
  dict_ok d = true -> dict_find k (dict_remove k d) = None.
Proof.
  induction d as [|[k1 v1] d IH]; simpl; [reflexivity|].
  intros H. apply dict_ok_cons in H. destruct H as [Hn Hok].
  destruct (String.eqb k k1) eqn:E; simpl.
  - apply String.eqb_eq in E. subst. now apply dict_find_None_keys.
  - rewrite E. auto.
Qed.

Lemma dict_find_remove_other k k0 d :
  k0 <> k -> dict_find k0 (dict_remove k d) = dict_find k0 d.
Proof.
  intros Hne. induction d as [|[k1 v1] d IH]; simpl; [reflexivity|].
  destruct (String.eqb k k1) eqn:E; simpl.
  - apply String.eqb_eq in E. subst k1.
    apply String.eqb_neq in Hne. now rewrite Hne.
  - now rewrite IH.
Qed.

Lemma dict_store_length k v d : List.length (dict_store k v d) = List.length d.
Proof.
  induction d as [|[k0 v0] d IH]; simpl; [reflexivity|].
  destruct (String.eqb k k0); simpl; [reflexivity | now rewrite IH].
Qed.

Lemma dict_setitem_nonempty k v d : dict_setitem k v d <> [].
Proof.
  destruct d as [|[k0 v0] d]; simpl; [discriminate|].
  destruct (String.eqb k k0); discriminate.
Qed.

End DictFacts.

Lemma dict_remove_store (V : Type) (k : string) (v : V) (d : dict V) :
  dict_remove k (dict_store k v d) = dict_remove k d.
Proof.
  induction d as [|[k0 v0] d IH]; simpl; [reflexivity|].
  destruct (String.eqb k k0) eqn:E; simpl; rewrite E; [reflexivity | now rewrite IH].
Qed.

Lemma dict_contains_store (V : Type) (k k0 : string) (v : V) (d : dict V) :
  dict_contains k0 (dict_store k v d) = dict_contains k0 d.
Proof.
  unfold dict_contains. destruct (String.eqb k0 k) eqn:E.
  - apply String.eqb_eq in E. subst. rewrite dict_find_store_same.
    now destruct (dict_find k d).
  - apply String.eqb_neq in E. now rewrite dict_find_store_other.
Qed.

Section DictMembership.
Variable V : Type.
Implicit Types (d : dict V) (k : string) (v : V) (x : string * V).

Lemma In_dict_setitem k v d x : In x (dict_setitem k v d) -> x = (k, v) \/ In x d.
Proof.
  induction d as [|[k0 v0] d IH]; simpl.
  - intros [H|[]]. now left.
  - destruct (String.eqb k k0) eqn:E; simpl.
    + apply String.eqb_eq in E. subst k0. intros [H|H]; [now left | right; now right].
    + intros [H|H]; [right; now left|]. destruct (IH H); [now left | right; now right].
Qed.

Lemma In_dict_store k v d x : In x (dict_store k v d) -> x = (k, v) \/ In x d.
Proof.
  induction d as [|[k0 v0] d IH]; simpl; [tauto|].
  destruct (String.eqb k k0) eqn:E; simpl.
  - apply String.eqb_eq in E. subst k0. intros [H|H]; [now left | right; now right].
  - intros [H|H]; [right; now left|]. destruct (IH H); [now left | right; now right].
Qed.

Lemma In_dict_remove k d x : In x (dict_remove k d) -> In x d.
Proof.
  induction d as [|[k0 v0] d IH]; simpl; [tauto|].
  destruct (String.eqb k k0); simpl; [now right|].
  intros [H|H]; [now left | right; auto].
Qed.

Lemma dict_is_empty_true d : dict_is_empty d = true <-> d = [].
Proof. destruct d; simpl; split; congruence. Qed.

Lemma dict_is_empty_false d : dict_is_empty d = false <-> d <> [].
Proof. destruct d; simpl; split; congruence. Qed.

Lemma dict_store_nonempty k v d : d <> [] -> dict_store k v d <> [].
Proof.
  destruct d as [|[k0 v0] d]; simpl; [congruence|].
  destruct (String.eqb k k0); discriminate.
Qed.

End DictMembership.

Lemma In_remove_first (A : Type) (p : A -> bool) (l : list A) (x : A) :
  In x (remove_first p l) -> In x l.
Proof.
  induction l as [|y l IH]; simpl; [tauto|].
  destruct (p y); simpl; [now right|].
  intros [H|H]; [now left | right; auto].
Qed.

Lemma remove_first_app_l (A : Type) (p : A -> bool) (l1 l2 : list A) :
  existsb p l1 = true -> remove_first p (l1 ++ l2) = remove_first p l1 ++ l2.
Proof.
  induction l1 as [|y l1 IH]; simpl; [discriminate|].
  destruct (p y); simpl; [reflexivity|]. intros H. now rewrite IH.
Qed.

Lemma remove_first_app_r (A : Type) (p : A -> bool) (l1 l2 : list A) :
  existsb p l1 = false -> remove_first p (l1 ++ l2) = l1 ++ remove_first p l2.
Proof.
  induction l1 as [|y l1 IH]; simpl; [reflexivity|].
  destruct (p y); simpl; [discriminate|]. intros H. now rewrite IH.
Qed.

Lemma remove_first_keys_incl (V : Type) (p : string * V -> bool) (d : dict V) k :
  In k (dict_keys (remove_first p d)) -> In k (dict_keys d).
Proof.
  unfold dict_keys. rewrite !in_map_iff. intros [x [Hx Hin]].
  exists x. split; [assumption | eapply In_remove_first; eauto].
Qed.

Lemma dict_ok_remove_first (V : Type) (p : string * V -> bool) (d : dict V) :
  dict_ok d = true -> dict_ok (remove_first p d) = true.
Proof.
  induction d as [|[k v] d IH]; simpl; [tauto|].
  intros H. apply dict_ok_cons in H. destruct H as [Hn Hok].
  destruct (p (k, v)); [assumption|].
  apply dict_ok_cons. split; [|auto].
  intro Hin. apply Hn. eapply remove_first_keys_incl; eauto.
Qed.

Lemma zsum_app (xs ys : list Z) : zsum (xs ++ ys) = zsum xs + zsum ys.
Proof. induction xs as [|x xs IH]; simpl; [reflexivity | rewrite IH; lia]. Qed.

Lemma fold_left_add_zsum (xs : list Z) (a : Z) : fold_left Z.add xs a = a + zsum xs.
Proof.
  revert a. induction xs as [|x xs IH]; intros a; simpl; [lia | rewrite IH; lia].
Qed.

(** * Facts about [FactionMissions] *)

Section LedgerFacts.
Context {DT : DateTimeLib}.
Implicit Types (fm : FactionMissions.t) (md : MissionData.t).

Lemma add_mission_new md fm :
  dict_find (MissionData.localised_name md) (FactionMissions.missions fm) = None ->
  FactionMissions.add_mission md fm =
  (Ok tt,
   {| FactionMissions.faction_name := FactionMissions.faction_name fm;
      FactionMissions.missions :=
        FactionMissions.missions fm ++ [(MissionData.localised_name md, md)];
      FactionMissions.total_initial_kills :=
        FactionMissions.total_initial_kills fm + MissionData.initial_kill_count md;
      FactionMissions.total_current_kills :=
        FactionMissions.total_current_kills fm + MissionData.current_kill_count md;
      FactionMissions.total_reward :=
        FactionMissions.total_reward fm + MissionData.reward md |}).
Proof.
  intros H. unfold FactionMissions.add_mission, dict_contains. unmonad.
  rewrite H. simpl. now rewrite dict_keys_setitem_new.
Qed.

Lemma add_mission_existing md fm existing :
  dict_find (MissionData.localised_name md) (FactionMissions.missions fm) = Some existing ->
  FactionMissions.add_mission md fm =
  (Ok tt,
   FactionMissions.set_missions
     (dict_store (MissionData.localised_name md)
        (MissionData.update_kill_count (MissionData.current_kill_count md) existing)
        (FactionMissions.missions fm)) fm).
Proof.
  intros H.
  unfold FactionMissions.add_mission, FactionMissions.missions_getitem,
    FactionMissions.missions_store, dict_contains, dict_getitem.
  unmonad. rewrite H. simpl. rewrite H. reflexivity.
Qed.

Lemma add_mission_returns md fm :
  exists fm', FactionMissions.add_mission md fm = (Ok tt, fm').
Proof.
  destruct (dict_find (MissionData.localised_name md) (FactionMissions.missions fm))
    as [existing|] eqn:E.
  - eexists. apply (add_mission_existing _ _ _ E).
  - eexists. apply (add_mission_new _ _ E).
Qed.

Lemma add_mission_nonempty md fm :
  FactionMissions.missions (snd (FactionMissions.add_mission md fm)) <> [].
Proof.
  destruct (dict_find (MissionData.localised_name md) (FactionMissions.missions fm))
    as [existing|] eqn:E.
  - rewrite (add_mission_existing _ _ _ E). simpl.
    destruct (FactionMissions.missions fm) as [|[k v] d]; [discriminate|].
    simpl. destruct (String.eqb _ k); discriminate.
  - rewrite (add_mission_new _ _ E). simpl.
    destruct (FactionMissions.missions fm); discriminate.
Qed.

Lemma add_mission_ok md fm :
  ledger_ok fm = true -> ledger_ok (snd (FactionMissions.add_mission md fm)) = true.
Proof.
  unfold ledger_ok. intros H.
  destruct (dict_find (MissionData.localised_name md) (FactionMissions.missions fm))
    as [existing|] eqn:E.
  - rewrite (add_mission_existing _ _ _ E). simpl. now rewrite dict_ok_store.
  - rewrite (add_mission_new _ _ E). simpl.
    rewrite <- (dict_keys_setitem_new _ _ md _ E). now apply dict_ok_setitem.
Qed.

Lemma remove_mission_loop_eq mission_id items fm :
  (forall k m, In (k, m) items -> dict_find k (FactionMissions.missions fm) <> None) ->
  FactionMissions.remove_mission_loop mission_id items fm =
  match find (fun kv => has_id mission_id (snd kv)) items with
  | None => (Ok false, fm)
  | Some (k, r) => (Ok true, ledger_minus k r fm)
  end.
Proof.
  induction items as [|[k m] items IH]; intros Hin; simpl; [reflexivity|].
  unfold has_id at 1. simpl.
  destruct (MissionData.mission_id m =? mission_id) eqn:E.
  - unfold FactionMissions.missions_delitem, dict_delitem, dict_contains. unmonad.
    specialize (Hin k m (or_introl eq_refl)).
    destruct (dict_find k (FactionMissions.missions fm)); [reflexivity | congruence].
  - apply IH. intros k0 m0 H0. apply (Hin k0 m0). now right.
Qed.

Lemma remove_mission_eq mission_id fm :
  FactionMissions.remove_mission mission_id fm =
  match find (fun kv => has_id mission_id (snd kv)) (FactionMissions.missions fm) with
  | None => (Ok false, fm)
  | Some (k, r) => (Ok true, ledger_minus k r fm)
  end.
Proof.
  unfold FactionMissions.remove_mission. unmonad.
  apply remove_mission_loop_eq. intros k m Hin Hnone.
  apply dict_find_None_keys in Hnone. apply Hnone.
  apply (in_map fst) in Hin. exact Hin.
Qed.

Lemma find_values (mission_id : Z) (d : dict MissionData.t) :
  find (has_id mission_id) (dict_values d) =
  option_map snd (find (fun kv => has_id mission_id (snd kv)) d).
Proof.
  induction d as [|[k m] d IH]; simpl; [reflexivity|].
  destruct (has_id mission_id m); [reflexivity | exact IH].
Qed.

Lemma dict_remove_first (mission_id : Z) (d : dict MissionData.t) k r :
  dict_ok d = true ->
  find (fun kv => has_id mission_id (snd kv)) d = Some (k, r) ->
  dict_remove k d = remove_first (fun kv => has_id mission_id (snd kv)) d.
Proof.
  induction d as [|[k0 m0] d IH]; simpl; [discriminate|].
  intros Hok. apply dict_ok_cons in Hok. destruct Hok as [Hn Hok].
  destruct (has_id mission_id m0) eqn:E.
  - intros [= -> ->]. now rewrite String.eqb_refl.
  - intros Hf. destruct (String.eqb k k0) eqn:Ek.
    + apply String.eqb_eq in Ek. subst k0. exfalso. apply Hn.
      apply find_some in Hf. destruct Hf as [Hin _].
      apply (in_map fst) in Hin. exact Hin.
    + now rewrite IH.
Qed.

Lemma remove_mission_spec mission_id fm :
  ledger_ok fm = true ->
  FactionMissions.remove_mission mission_id fm =
  match first_record mission_id fm with
  | None => (Ok false, fm)
  | Some r => (Ok true, ledger_without mission_id r fm)
  end.
Proof.
  intros Hok. rewrite remove_mission_eq. unfold first_record.
  rewrite find_values.
  destruct (find (fun kv => has_id mission_id (snd kv)) (FactionMissions.missions fm))
    as [[k r]|] eqn:E; simpl; [|reflexivity].
  unfold ledger_minus, ledger_without. rewrite (dict_remove_first _ _ _ _ Hok E).
  repeat f_equal.
Qed.

End LedgerFacts.

(** * Facts about [MissionStack] *)

Section StackFacts.
Context {DT : DateTimeLib}.
Implicit Types (st : MissionStack.t) (fm : FactionMissions.t).

Lemma ledger_store_eq t f fm st bucket :
  dict_find t (MissionStack.missions st) = Some bucket ->
  MissionStack.ledger_store t f fm st =
  MissionStack.mk (dict_store t (dict_store f fm bucket) (MissionStack.missions st)).
Proof. intros H. unfold MissionStack.ledger_store. now rewrite H. Qed.

Lemma handle_accepted_skip event st :
  str_in "Mission_Massacre" (get (ev_Name event) "") = false ->
  MissionStack._handle_mission_accepted event st = (Ok false, st).
Proof.
  intros H. unfold MissionStack._handle_mission_accepted. now rewrite H.
Qed.

Lemma handle_accepted_eq event st :
  str_in "Mission_Massacre" (get (ev_Name event) "") = true ->
  MissionStack._handle_mission_accepted event st =
  (Ok true, accept_spec (MissionData.__init__ event) st).
Proof.
  intros H. unfold MissionStack._handle_mission_accepted. rewrite H.
  cbv beta iota zeta delta [negb].
  generalize (MissionData.__init__ event). intros md.
  unfold accept_spec.
  generalize (MissionData.target_faction md) (MissionData.faction md). intros t f.
  destruct st as [reg]. simpl.
  unfold MissionStack.missions_getitem, MissionStack.missions_setitem,
    MissionStack.bucket_store, MissionStack.ledger_call, dict_contains, dict_getitem.
  unmonad.
  destruct (dict_find t reg) as [bucket|] eqn:Et; simpl.
  - rewrite Et. simpl.
    destruct (dict_find f bucket) as [fm|] eqn:Ef; simpl.
    + rewrite Et. simpl. rewrite Ef. simpl.
      destruct (add_mission_returns md fm) as [fm' Hfm]. rewrite Hfm. simpl.
      unfold MissionStack.ledger_store. simpl. rewrite Et.
      rewrite !dict_store_is_setitem by congruence. reflexivity.
    + rewrite Et. simpl.
      rewrite dict_find_store_same, Et. simpl.
      rewrite dict_find_setitem_same. simpl.
      unfold MissionStack.ledger_store. simpl.
      rewrite dict_find_store_same, Et.
      rewrite dict_store_store, dict_store_setitem.
      rewrite dict_store_is_setitem by congruence. reflexivity.
  - rewrite dict_find_setitem_same. simpl.
    rewrite dict_find_setitem_same. simpl.
    rewrite dict_find_store_same, dict_find_setitem_same. simpl.
    rewrite ?String.eqb_refl. simpl.
    unfold MissionStack.ledger_store. simpl.
    rewrite dict_find_store_same, dict_find_setitem_same.
    rewrite ?String.eqb_refl.
    rewrite dict_store_store, dict_store_setitem. simpl.
    rewrite ?String.eqb_refl. reflexivity.
Qed.

Lemma bind_ok {S A B} (m : M S A) (k : A -> M S B) s a s' :
  m s = (Ok a, s') -> bind m k s = k a s'.
Proof. intros H. unfold bind. now rewrite H. Qed.

Lemma clean_up_eq t f fm' fm reg bucket :
  dict_find t reg = Some bucket ->
  dict_find f bucket = Some fm ->
  MissionStack.clean_up t f fm'
    (MissionStack.mk (dict_store t (dict_store f fm' bucket) reg)) =
  (Ok true,
   let bucket' :=
     if dict_is_empty (FactionMissions.missions fm')
     then dict_remove f bucket else dict_store f fm' bucket in
   MissionStack.mk
     (if dict_is_empty bucket' then dict_remove t reg else dict_store t bucket' reg)).
Proof.
  intros Ht Hf. unfold MissionStack.clean_up.
  unfold MissionStack.missions_getitem, MissionStack.bucket_store,
    MissionStack.missions_delitem, dict_getitem, dict_delitem, dict_contains.
  unmonad.
  destruct (dict_is_empty (FactionMissions.missions fm')) eqn:Eempty; simpl.
  - rewrite !dict_find_store_same, Ht. simpl.
    rewrite dict_find_store_same, Hf. simpl.
    rewrite dict_find_store_same, dict_find_store_same, Ht. simpl.
    rewrite dict_remove_store, dict_store_store.
    destruct (dict_is_empty (dict_remove f bucket)) eqn:Eb; simpl.
    + rewrite dict_find_store_same, Ht. simpl. now rewrite dict_remove_store.
    + reflexivity.
  - rewrite !dict_find_store_same, Ht. simpl.
    destruct (dict_is_empty (dict_store f fm' bucket)) eqn:Eb; simpl.
    + rewrite dict_find_store_same, Ht. simpl. now rewrite dict_remove_store.
    + reflexivity.
Qed.

Lemma remove_in_factions_eq mission_id t reg bucket items :
  dict_find t reg = Some bucket ->
  (forall f fm, In (f, fm) items ->
     dict_find f bucket = Some fm /\ ledger_ok fm = true) ->
  MissionStack.remove_in_factions mission_id t items (MissionStack.mk reg) =
  match first_ledger mission_id items with
  | None => (Ok None, MissionStack.mk reg)
  | Some (f, fm, r) =>
      (Ok (Some true),
       remove_at mission_id (mk_location t bucket f fm r) (MissionStack.mk reg))
  end.
Proof.
  intros Ht. induction items as [|[f fm] items IH]; intros Hin; [reflexivity|].
  destruct (Hin f fm (or_introl eq_refl)) as [Hf Hok].
  cbn [MissionStack.remove_in_factions first_ledger].
  unfold MissionStack.ledger_call at 1.
  unfold bind at 1. rewrite (remove_mission_spec mission_id fm Hok).
  destruct (first_record mission_id fm) as [r|] eqn:Er.
  - unfold MissionStack.ledger_store. cbn [MissionStack.missions fst snd]. rewrite Ht.
    unfold bind at 1. rewrite (clean_up_eq t f _ fm reg bucket Ht Hf). reflexivity.
  - unfold MissionStack.ledger_store. cbn [MissionStack.missions fst snd]. rewrite Ht.
    rewrite (dict_store_id _ _ _ _ Hf), (dict_store_id _ _ _ _ Ht).
    apply IH. intros f0 fm0 H0. apply Hin. now right.
Qed.

Lemma bucket_ok_In bucket f fm :
  bucket_ok bucket = true -> In (f, fm) bucket ->
  dict_find f bucket = Some fm /\ ledger_ok fm = true.
Proof.
  unfold bucket_ok. rewrite andb_true_iff, forallb_forall. intros [Hd Hall] Hin.
  split; [now apply dict_In_find | apply (Hall (f, fm) Hin)].
Qed.

Lemma remove_in_targets_eq mission_id reg items :
  (forall t bucket, In (t, bucket) items ->
     dict_find t reg = Some bucket /\ bucket_ok bucket = true) ->
  MissionStack.remove_in_targets mission_id items (MissionStack.mk reg) =
  match first_bucket mission_id items with
  | None => (Ok false, MissionStack.mk reg)
  | Some loc => (Ok true, remove_at mission_id loc (MissionStack.mk reg))
  end.
Proof.
  induction items as [|[t bucket] items IH]; intros Hin; [reflexivity|].
  destruct (Hin t bucket (or_introl eq_refl)) as [Ht Hok].
  cbn [MissionStack.remove_in_targets first_bucket].
  unfold bind at 1.
  rewrite (remove_in_factions_eq mission_id t reg bucket bucket Ht
             (fun f fm => bucket_ok_In bucket f fm Hok)).
  destruct (first_ledger mission_id bucket) as [[[f fm] r]|]; [reflexivity|].
  apply IH. intros t0 b0 H0. apply Hin. now right.
Qed.

Lemma registry_ok_In st t bucket :
  registry_ok st = true -> In (t, bucket) (MissionStack.missions st) ->
  dict_find t (MissionStack.missions st) = Some bucket /\ bucket_ok bucket = true.
Proof.
  unfold registry_ok. rewrite andb_true_iff, forallb_forall. intros [Hd Hall] Hin.
  split; [now apply dict_In_find | apply (Hall (t, bucket) Hin)].
Qed.

(** The removal scan does what P5 says, on every registry. *)
Lemma remove_mission_by_id_eq mission_id reason st :
  registry_ok st = true ->
  MissionStack._remove_mission_by_id mission_id reason st =
  (Ok (match first_match mission_id st with Some _ => true | None => false end),
   removal_spec mission_id st).
Proof.
  intros Hok. unfold MissionStack._remove_mission_by_id, removal_spec, first_match.
  unfold bind, gets. destruct st as [reg]. cbn [MissionStack.missions].
  rewrite remove_in_targets_eq.
  - now destruct (first_bucket mission_id reg).
  - intros t bucket Hin. now apply (registry_ok_In (MissionStack.mk reg)).
Qed.

(** ** The shape of the registry is kept by every call *)

Lemma registry_ok_intro reg :
  dict_ok reg = true ->
  (forall t bucket, In (t, bucket) reg -> bucket_ok bucket = true) ->
  registry_ok (MissionStack.mk reg) = true.
Proof.
  intros Hd Hall. unfold registry_ok. cbn [MissionStack.missions].
  rewrite Hd. simpl. apply forallb_forall. intros [t b] Hin. apply (Hall t b Hin).
Qed.

Lemma bucket_ok_intro bucket :
  dict_ok bucket = true ->
  (forall f fm, In (f, fm) bucket -> ledger_ok fm = true) ->
  bucket_ok bucket = true.
Proof.
  intros Hd Hall. unfold bucket_ok. rewrite Hd. simpl.
  apply forallb_forall. intros [f fm] Hin. apply (Hall f fm Hin).
Qed.

Lemma no_empty_intro reg :
  (forall t bucket, In (t, bucket) reg ->
     bucket <> [] /\
     forall f fm, In (f, fm) bucket -> FactionMissions.missions fm <> []) ->
  no_empty (MissionStack.mk reg) = true.
Proof.
  intros Hall. unfold no_empty. cbn [MissionStack.missions].
  apply forallb_forall. intros [t b] Hin. destruct (Hall t b Hin) as [Hb Hl].
  cbn [snd]. apply andb_true_iff. split.
  - apply negb_true_iff. now apply dict_is_empty_false.
  - apply forallb_forall. intros [f fm] Hf. cbn [snd].
    apply negb_true_iff. apply dict_is_empty_false. apply (Hl f fm Hf).
Qed.

Lemma no_empty_In st t bucket :
  no_empty st = true -> In (t, bucket) (MissionStack.missions st) ->
  bucket <> [] /\
  forall f fm, In (f, fm) bucket -> FactionMissions.missions fm <> [].
Proof.
  unfold no_empty. rewrite forallb_forall. intros Hall Hin.
  specialize (Hall (t, bucket) Hin). cbn [snd] in Hall.
  apply andb_true_iff in Hall. destruct Hall as [Hb Hl]. split.
  - apply dict_is_empty_false. now apply negb_true_iff.
  - intros f fm Hf. rewrite forallb_forall in Hl. specialize (Hl (f, fm) Hf).
    cbn [snd] in Hl. apply dict_is_empty_false. now apply negb_true_iff.
Qed.

Lemma accept_spec_ok md st :
  registry_ok st = true -> registry_ok (accept_spec md st) = true.
Proof.
  intros Hok. unfold accept_spec.
  set (t := MissionData.target_faction md). set (f := MissionData.faction md).
  assert (Hd : dict_ok (MissionStack.missions st) = true).
  { unfold registry_ok in Hok. now apply andb_true_iff in Hok. }
  set (bucket := get (dict_find t (MissionStack.missions st)) []).
  assert (Hb : bucket_ok bucket = true).
  { unfold bucket. destruct (dict_find t (MissionStack.missions st)) as [b|] eqn:E.
    - apply dict_find_Some_In in E. apply (registry_ok_In st t b Hok E).
    - reflexivity. }
  set (ledger := get (dict_find f bucket) (FactionMissions.__init__ f)).
  assert (Hl : ledger_ok ledger = true).
  { unfold ledger. destruct (dict_find f bucket) as [fm|] eqn:E.
    - apply dict_find_Some_In in E. apply (bucket_ok_In bucket f fm Hb E).
    - reflexivity. }
  apply registry_ok_intro.
  - now apply dict_ok_setitem.
  - intros t0 b0 Hin. apply In_dict_setitem in Hin. destruct Hin as [Heq|Hin].
    + injection Heq as _ ->. apply bucket_ok_intro.
      * apply dict_ok_setitem. unfold bucket_ok in Hb. now apply andb_true_iff in Hb.
      * intros f0 fm0 Hin. apply In_dict_setitem in Hin. destruct Hin as [Heq|Hin].
        -- injection Heq as _ ->. now apply add_mission_ok.
        -- apply (bucket_ok_In bucket f0 fm0 Hb Hin).
    + apply (registry_ok_In st t0 b0 Hok Hin).
Qed.

Lemma accept_spec_no_empty md st :
  no_empty st = true -> no_empty (accept_spec md st) = true.
Proof.
  intros Hne. unfold accept_spec.
  set (t := MissionData.target_faction md). set (f := MissionData.faction md).
  set (bucket := get (dict_find t (MissionStack.missions st)) []).
  assert (Hb : forall f0 fm0, In (f0, fm0) bucket -> FactionMissions.missions fm0 <> []).
  { unfold bucket. destruct (dict_find t (MissionStack.missions st)) as [b|] eqn:E.
    - apply dict_find_Some_In in E. apply (no_empty_In st t b Hne E).
    - intros f0 fm0 []. }
  apply no_empty_intro. intros t0 b0 Hin.
  apply In_dict_setitem in Hin. destruct Hin as [Heq|Hin].
  - injection Heq as _ ->. split; [apply dict_setitem_nonempty|].
    intros f0 fm0 Hin. apply In_dict_setitem in Hin. destruct Hin as [Heq|Hin].
    + injection Heq as _ ->. apply add_mission_nonempty.
    + apply (Hb f0 fm0 Hin).
  - apply (no_empty_In st t0 b0 Hne Hin).
Qed.

Lemma first_ledger_In mission_id bucket f fm r :
  first_ledger mission_id bucket = Some (f, fm, r) ->
  In (f, fm) bucket /\ first_record mission_id fm = Some r.
Proof.
  induction bucket as [|[f0 fm0] bucket IH]; simpl; [discriminate|].
  destruct (first_record mission_id fm0) as [r0|] eqn:E.
  - intros [= -> -> ->]. split; [now left | assumption].
  - intros H. destruct (IH H). split; [now right | assumption].
Qed.

Lemma first_bucket_In mission_id reg loc :
  first_bucket mission_id reg = Some loc ->
  In (loc_target loc, loc_bucket loc) reg /\
  first_ledger mission_id (loc_bucket loc) =
    Some (loc_faction loc, loc_ledger loc, loc_record loc).
Proof.
  induction reg as [|[t b] reg IH]; simpl; [discriminate|].
  destruct (first_ledger mission_id b) as [[[f fm] r]|] eqn:E.
  - intros [= <-]. simpl. split; [now left | assumption].
  - intros H. destruct (IH H). split; [now right | assumption].
Qed.

Lemma ledger_without_ok mission_id r fm :
  ledger_ok fm = true -> ledger_ok (ledger_without mission_id r fm) = true.
Proof. unfold ledger_ok. simpl. apply dict_ok_remove_first. Qed.

Lemma remove_at_ok mission_id loc st :
  registry_ok st = true ->
  first_match mission_id st = Some loc ->
  registry_ok (remove_at mission_id loc st) = true.
Proof.
  intros Hok Hloc. apply first_bucket_In in Hloc. destruct Hloc as [Hb Hl].
  apply first_ledger_In in Hl. destruct Hl as [Hl _].
  destruct (registry_ok_In st _ _ Hok Hb) as [_ Hbok].
  destruct (bucket_ok_In _ _ _ Hbok Hl) as [_ Hlok].
  assert (Hd : dict_ok (MissionStack.missions st) = true).
  { unfold registry_ok in Hok. now apply andb_true_iff in Hok. }
  assert (Hbd : dict_ok (loc_bucket loc) = true).
  { unfold bucket_ok in Hbok. now apply andb_true_iff in Hbok. }
  unfold remove_at.
  set (ledger' := ledger_without mission_id (loc_record loc) (loc_ledger loc)).
  set (bucket' := if dict_is_empty (FactionMissions.missions ledger')
                  then dict_remove (loc_faction loc) (loc_bucket loc)
                  else dict_store (loc_faction loc) ledger' (loc_bucket loc)).
  assert (Hb' : bucket_ok bucket' = true).
  { unfold bucket'. destruct (dict_is_empty (FactionMissions.missions ledger')).
    - apply bucket_ok_intro; [now apply dict_ok_remove|].
      intros f fm Hin. apply In_dict_remove in Hin.
      apply (bucket_ok_In _ f fm Hbok Hin).
    - apply bucket_ok_intro; [now rewrite dict_ok_store|].
      intros f fm Hin. apply In_dict_store in Hin. destruct Hin as [Heq|Hin].
      + injection Heq as _ ->. now apply ledger_without_ok.
      + apply (bucket_ok_In _ f fm Hbok Hin). }
  destruct (dict_is_empty bucket').
  - apply registry_ok_intro; [now apply dict_ok_remove|].
    intros t b Hin. apply In_dict_remove in Hin. apply (registry_ok_In st t b Hok Hin).
  - apply registry_ok_intro; [now rewrite dict_ok_store|].
    intros t b Hin. apply In_dict_store in Hin. destruct Hin as [Heq|Hin].
    + now injection Heq as _ ->.
    + apply (registry_ok_In st t b Hok Hin).
Qed.

Lemma remove_at_no_empty mission_id loc st :
  no_empty st = true ->
  first_match mission_id st = Some loc ->
  no_empty (remove_at mission_id loc st) = true.
Proof.
  intros Hne Hloc. apply first_bucket_In in Hloc. destruct Hloc as [Hb _].
  destruct (no_empty_In st _ _ Hne Hb) as [Hbne Hlne].
  unfold remove_at.
  set (ledger' := ledger_without mission_id (loc_record loc) (loc_ledger loc)).
  set (bucket' := if dict_is_empty (FactionMissions.missions ledger')
                  then dict_remove (loc_faction loc) (loc_bucket loc)
                  else dict_store (loc_faction loc) ledger' (loc_bucket loc)).
  assert (Hb' : forall f fm, In (f, fm) bucket' -> FactionMissions.missions fm <> []).
  { unfold bucket'.
    destruct (dict_is_empty (FactionMissions.missions ledger')) eqn:E; intros f fm Hin.
    - apply In_dict_remove in Hin. apply (Hlne f fm Hin).
    - apply In_dict_store in Hin. destruct Hin as [Heq|Hin].
      + injection Heq as _ ->. now apply dict_is_empty_false.
      + apply (Hlne f fm Hin). }
  destruct (dict_is_empty bucket') eqn:E.
  - apply no_empty_intro. intros t b Hin. apply In_dict_remove in Hin.
    apply (no_empty_In st t b Hne Hin).
  - apply no_empty_intro. intros t b Hin. apply In_dict_store in Hin.
    destruct Hin as [Heq|Hin].
    + injection Heq as _ ->. split; [now apply dict_is_empty_false | assumption].
    + apply (no_empty_In st t b Hne Hin).
Qed.

Lemma removal_spec_ok mission_id st :
  registry_ok st = true -> registry_ok (removal_spec mission_id st) = true.
Proof.
  intros Hok. unfold removal_spec.
  destruct (first_match mission_id st) as [loc|] eqn:E; [|assumption].
  now apply remove_at_ok.
Qed.

Lemma removal_spec_no_empty mission_id st :
  no_empty st = true -> no_empty (removal_spec mission_id st) = true.
Proof.
  intros Hne. unfold removal_spec.
  destruct (first_match mission_id st) as [loc|] eqn:E; [|assumption].
  now apply remove_at_no_empty.
Qed.

(** ** What [process_event] does, case by case *)

(** On a registry that is a dict of dicts no handler raises: the [try] block
    itself returns what the table of section 4.2 says. *)
Lemma dispatch_eq event st :
  registry_ok st = true ->
  MissionStack.dispatch event st =
  (Ok (fst (process_spec event st)), snd (process_spec event st)).
Proof.
  intros Hok.
  unfold MissionStack.dispatch, process_spec, is_removal_kind.
  destruct (String.eqb (get (ev_event event) "") "MissionAccepted").
  - destruct (str_in "Mission_Massacre" (get (ev_Name event) "")) eqn:E.
    + now rewrite (handle_accepted_eq event st E).
    + now rewrite (handle_accepted_skip event st E).
  - unfold MissionStack._handle_mission_completed, MissionStack._handle_mission_failed,
      MissionStack._handle_mission_abandoned.
    destruct (String.eqb (get (ev_event event) "") "MissionCompleted");
      [now rewrite (remove_mission_by_id_eq _ _ st Hok)|].
    destruct (String.eqb (get (ev_event event) "") "MissionFailed");
      [now rewrite (remove_mission_by_id_eq _ _ st Hok)|].
    destruct (String.eqb (get (ev_event event) "") "MissionAbandoned");
      [now rewrite (remove_mission_by_id_eq _ _ st Hok)|].
    reflexivity.
Qed.

Lemma process_event_eq event st :
  registry_ok st = true ->
  MissionStack.process_event event st =
  (Ok (fst (process_spec event st)), snd (process_spec event st)).
Proof.
  intros Hok. unfold MissionStack.process_event, try_except.
  now rewrite (dispatch_eq event st Hok).
Qed.

Lemma process_spec_ok event st :
  registry_ok st = true -> registry_ok (snd (process_spec event st)) = true.
Proof.
  intros Hok. unfold process_spec.
  destruct (String.eqb (get (ev_event event) "") "MissionAccepted").
  - destruct (str_in "Mission_Massacre" (get (ev_Name event) "")); simpl;
      [now apply accept_spec_ok | assumption].
  - destruct (is_removal_kind (get (ev_event event) "")); simpl;
      [now apply removal_spec_ok | assumption].
Qed.

Lemma process_spec_no_empty event st :
  no_empty st = true -> no_empty (snd (process_spec event st)) = true.
Proof.
  intros Hne. unfold process_spec.
  destruct (String.eqb (get (ev_event event) "") "MissionAccepted").
  - destruct (str_in "Mission_Massacre" (get (ev_Name event) "")); simpl;
      [now apply accept_spec_no_empty | assumption].
  - destruct (is_removal_kind (get (ev_event event) "")); simpl;
      [now apply removal_spec_no_empty | assumption].
Qed.

Lemma step_keeps c st :
  registry_ok st = true /\ no_empty st = true ->
  registry_ok (step c st) = true /\ no_empty (step c st) = true.
Proof.
  intros [Hok Hne]. destruct c as [event|]; simpl.
  - rewrite (process_event_eq event st Hok). simpl.
    split; [now apply process_spec_ok | now apply process_spec_no_empty].
  - split; reflexivity.
Qed.

Lemma run_keeps calls st :
  registry_ok st = true /\ no_empty st = true ->
  registry_ok (run calls st) = true /\ no_empty (run calls st) = true.
Proof.
  revert st. induction calls as [|c calls IH]; intros st H; simpl; [assumption|].
  apply IH. now apply step_keeps.
Qed.

(** Every registry that the calls of a client can produce is a dict of dicts. *)
Lemma reachable_registry_ok calls :
  registry_ok (run calls MissionStack.__init__) = true.
Proof. apply (run_keeps calls MissionStack.__init__ (conj eq_refl eq_refl)). Qed.

End StackFacts.

(** * Where the records are *)

Section RecordFacts.
Context {DT : DateTimeLib}.

Lemma find_existsb (A : Type) (p : A -> bool) (l : list A) :
  existsb p l = match find p l with Some _ => true | None => false end.
Proof.
  induction l as [|x l IH]; simpl; [reflexivity|]. destruct (p x); [reflexivity | exact IH].
Qed.

Lemma find_has_id mission_id (l : list MissionData.t) r :
  find (has_id mission_id) l = Some r -> MissionData.mission_id r = mission_id.
Proof.
  intros H. apply find_some in H. destruct H as [_ H]. unfold has_id in H. lia.
Qed.

Lemma values_remove_first mission_id (d : dict MissionData.t) :
  dict_values (remove_first (fun kv => has_id mission_id (snd kv)) d) =
  remove_first (has_id mission_id) (dict_values d).
Proof.
  induction d as [|[k m] d IH]; simpl; [reflexivity|].
  destruct (has_id mission_id m); simpl; [reflexivity | now rewrite IH].
Qed.

Lemma bucket_records_existsb mission_id bucket :
  existsb (has_id mission_id) (bucket_records bucket) =
  match first_ledger mission_id bucket with Some _ => true | None => false end.
Proof.
  induction bucket as [|[f fm] bucket IH]; simpl; [reflexivity|].
  rewrite existsb_app, IH, find_existsb. unfold first_record.
  destruct (find (has_id mission_id) (dict_values (FactionMissions.missions fm)));
    reflexivity.
Qed.

Lemma all_records_existsb mission_id reg :
  existsb (has_id mission_id) (all_records (MissionStack.mk reg)) =
  match first_bucket mission_id reg with Some _ => true | None => false end.
Proof.
  unfold all_records. cbn [MissionStack.missions].
  induction reg as [|[t b] reg IH]; simpl; [reflexivity|].
  rewrite existsb_app, IH, bucket_records_existsb.
  destruct (first_ledger mission_id b) as [[[f fm] r]|]; reflexivity.
Qed.

Lemma first_match_None mission_id st :
  (forall m, In m (all_records st) -> MissionData.mission_id m <> mission_id) ->
  first_match mission_id st = None.
Proof.
  intros H. destruct st as [reg]. unfold first_match. cbn [MissionStack.missions].
  destruct (first_bucket mission_id reg) as [loc|] eqn:E; [|reflexivity].
  exfalso.
  assert (Hex : existsb (has_id mission_id) (all_records (MissionStack.mk reg)) = true).
  { rewrite all_records_existsb. now rewrite E. }
  apply existsb_exists in Hex. destruct Hex as [m [Hin Hid]].
  apply (H m Hin). unfold has_id in Hid. lia.
Qed.

Lemma bucket_records_remove mission_id bucket f fm r :
  dict_ok bucket = true ->
  first_ledger mission_id bucket = Some (f, fm, r) ->
  bucket_records
    (if dict_is_empty (FactionMissions.missions (ledger_without mission_id r fm))
     then dict_remove f bucket
     else dict_store f (ledger_without mission_id r fm) bucket) =
  remove_first (has_id mission_id) (bucket_records bucket).
Proof.
  induction bucket as [|[f0 fm0] bucket IH]; [discriminate|].
  intros Hok. apply dict_ok_cons in Hok. destruct Hok as [Hn Hok].
  cbn [first_ledger]. destruct (first_record mission_id fm0) as [r0|] eqn:E.
  - intros [= -> -> ->]. cbn [dict_remove dict_store]. rewrite String.eqb_refl.
    cbn [bucket_records flat_map snd].
    rewrite remove_first_app_l
      by (rewrite find_existsb; unfold first_record in E; now rewrite E).
    rewrite <- values_remove_first.
    fold (bucket_records bucket).
    destruct (dict_is_empty (FactionMissions.missions (ledger_without mission_id r fm)))
      eqn:Ee.
    + apply dict_is_empty_true in Ee. cbn [ledger_without FactionMissions.missions] in Ee.
      now rewrite Ee.
    + reflexivity.
  - intros Hf. specialize (IH Hok Hf).
    assert (Hne : String.eqb f f0 = false).
    { apply String.eqb_neq. intros ->. apply Hn.
      apply first_ledger_In in Hf. destruct Hf as [Hin _].
      apply (in_map fst) in Hin. exact Hin. }
    cbn [dict_remove dict_store]. rewrite Hne.
    cbn [bucket_records flat_map snd]. fold (bucket_records bucket).
    rewrite remove_first_app_r
      by (rewrite find_existsb; unfold first_record in E; now rewrite E).
    rewrite <- IH.
    destruct (dict_is_empty (FactionMissions.missions (ledger_without mission_id r fm)));
      reflexivity.
Qed.

Lemma all_records_remove mission_id reg loc :
  registry_ok (MissionStack.mk reg) = true ->
  first_bucket mission_id reg = Some loc ->
  all_records (remove_at mission_id loc (MissionStack.mk reg)) =
  remove_first (has_id mission_id) (all_records (MissionStack.mk reg)).
Proof.
  unfold remove_at, all_records. cbn [MissionStack.missions].
  induction reg as [|[t0 b0] reg IH]; [discriminate|].
  intros Hok.
  assert (Hreg : registry_ok (MissionStack.mk reg) = true /\
                 ~ In t0 (dict_keys reg) /\ bucket_ok b0 = true).
  { unfold registry_ok in *. cbn [MissionStack.missions] in *.
    apply andb_true_iff in Hok. destruct Hok as [Hd Hall].
    apply dict_ok_cons in Hd. destruct Hd as [Hn Hd].
    simpl in Hall. apply andb_true_iff in Hall. destruct Hall as [Hb Hall].
    rewrite Hd, Hall. auto. }
  destruct Hreg as [Hok' [Hn Hb0]].
  assert (Hd0 : dict_ok b0 = true).
  { unfold bucket_ok in Hb0. now apply andb_true_iff in Hb0. }
  cbn [first_bucket].
  destruct (first_ledger mission_id b0) as [[[f fm] r]|] eqn:E.
  - intros [= <-]. cbn [loc_target loc_bucket loc_faction loc_ledger loc_record].
    cbn [dict_remove dict_store]. rewrite String.eqb_refl.
    cbn [flat_map snd].
    rewrite remove_first_app_l by (now rewrite bucket_records_existsb, E).
    rewrite <- (bucket_records_remove mission_id b0 f fm r Hd0 E).
    match goal with
    | |- context [dict_is_empty ?b] => destruct (dict_is_empty b) eqn:Ee
    end.
    + apply dict_is_empty_true in Ee. now rewrite Ee.
    + reflexivity.
  - intros Hloc. specialize (IH Hok' Hloc).
    assert (Hne : String.eqb (loc_target loc) t0 = false).
    { apply String.eqb_neq. intros Heq. apply Hn.
      apply first_bucket_In in Hloc. destruct Hloc as [Hin _].
      apply (in_map fst) in Hin. simpl in Hin. now rewrite Heq in Hin. }
    cbn [dict_remove dict_store]. rewrite Hne.
    cbn [flat_map snd].
    rewrite remove_first_app_r by (now rewrite bucket_records_existsb, E).
    rewrite <- IH.
    match goal with
    | |- context [dict_is_empty ?b] => destruct (dict_is_empty b)
    end; reflexivity.
Qed.

Lemma remove_at_lookup mission_id loc st :
  registry_ok st = true ->
  first_match mission_id st = Some loc ->
  let ledger' := ledger_without mission_id (loc_record loc) (loc_ledger loc) in
  FactionMissions.total_initial_kills ledger'
  = FactionMissions.total_initial_kills (loc_ledger loc)
    - MissionData.initial_kill_count (loc_record loc)
  /\ FactionMissions.total_current_kills ledger'
     = FactionMissions.total_current_kills (loc_ledger loc)
       - MissionData.current_kill_count (loc_record loc)
  /\ FactionMissions.total_reward ledger'
     = FactionMissions.total_reward (loc_ledger loc) - MissionData.reward (loc_record loc)
  /\ dict_values (FactionMissions.missions ledger')
     = remove_first (has_id mission_id)
         (dict_values (FactionMissions.missions (loc_ledger loc)))
  /\ match dict_find (loc_target loc)
             (MissionStack.missions (remove_at mission_id loc st)) with
     | Some bucket' =>
         bucket' <> []
         /\ dict_find (loc_faction loc) bucket'
            = (if dict_is_empty (FactionMissions.missions ledger')
               then None else Some ledger')
     | None =>
         FactionMissions.missions ledger' = []
         /\ dict_remove (loc_faction loc) (loc_bucket loc) = []
     end.
Proof.
  intros Hok Hloc. cbv zeta.
  repeat (split; [reflexivity|]).
  split; [apply values_remove_first|].
  apply first_bucket_In in Hloc. destruct Hloc as [Hb Hl].
  apply first_ledger_In in Hl. destruct Hl as [Hl _].
  destruct (registry_ok_In st _ _ Hok Hb) as [Hfb Hbok].
  destruct (bucket_ok_In _ _ _ Hbok Hl) as [Hfl _].
  assert (Hd : dict_ok (MissionStack.missions st) = true).
  { unfold registry_ok in Hok. now apply andb_true_iff in Hok. }
  assert (Hbd : dict_ok (loc_bucket loc) = true).
  { unfold bucket_ok in Hbok. now apply andb_true_iff in Hbok. }
  unfold remove_at. cbn [MissionStack.missions].
  set (ledger' := ledger_without mission_id (loc_record loc) (loc_ledger loc)).
  destruct (dict_is_empty (FactionMissions.missions ledger')) eqn:Ee.
  - destruct (dict_is_empty (dict_remove (loc_faction loc) (loc_bucket loc))) eqn:Eb.
    + rewrite (dict_find_remove_same _ _ _ Hd).
      split; [now apply dict_is_empty_true | now apply dict_is_empty_true].
    + rewrite dict_find_store_same, Hfb.
      split; [now apply dict_is_empty_false | now apply dict_find_remove_same].
  - assert (Hne : dict_is_empty (dict_store (loc_faction loc) ledger' (loc_bucket loc))
                  = false).
    { apply dict_is_empty_false. apply dict_store_nonempty.
      intro Hnil. rewrite Hnil in Hfl. discriminate. }
    rewrite Hne, dict_find_store_same, Hfb.
    split; [now apply dict_is_empty_false|].
    now rewrite dict_find_store_same, Hfl.
Qed.

End RecordFacts.

(** * The mission registry: removal, the invariant, ignored events *)

Section RegistryClaims.
Context {DT : DateTimeLib}.

(** C2 (P5, removal correctness). On every registry, a Completed, Failed or
    Abandoned event whose MissionID is the id of some record returns true and
    leaves the registry of [remove_at]: the first record with that id, in the
    order of the scan, is the one record deleted ([all_records] loses exactly
    its first element with that id); the ledger that owned it has its
    total_initial_kills, total_current_kills and total_reward decremented by
    the record's initial_kill_count, current_kill_count and reward; a ledger
    left without records is removed from its bucket, and a bucket left
    without ledgers is removed from the registry. [_remove_mission_by_id]
    itself does so for every reason string. *)
Theorem C2_removal_correct (event : event_data) (st : MissionStack.t) (loc : location) :
  registry_ok st = true ->
  is_removal_kind (get (ev_event event) "") = true ->
  first_match (get (ev_MissionID event) 0) st = Some loc ->
  let mission_id := get (ev_MissionID event) 0 in
  let st' := remove_at mission_id loc st in
  MissionStack.process_event event st = (Ok true, st')
  /\ (forall reason, MissionStack._remove_mission_by_id mission_id reason st = (Ok true, st'))
  /\ MissionData.mission_id (loc_record loc) = mission_id
  /\ In (loc_target loc, loc_bucket loc) (MissionStack.missions st)
  /\ In (loc_faction loc, loc_ledger loc) (loc_bucket loc)
  /\ In (loc_record loc) (dict_values (FactionMissions.missions (loc_ledger loc)))
  /\ all_records st' = remove_first (has_id mission_id) (all_records st)
  /\ (let ledger' := ledger_without mission_id (loc_record loc) (loc_ledger loc) in
      FactionMissions.total_initial_kills ledger'
      = FactionMissions.total_initial_kills (loc_ledger loc)
        - MissionData.initial_kill_count (loc_record loc)
      /\ FactionMissions.total_current_kills ledger'
         = FactionMissions.total_current_kills (loc_ledger loc)
           - MissionData.current_kill_count (loc_record loc)
      /\ FactionMissions.total_reward ledger'
         = FactionMissions.total_reward (loc_ledger loc)
           - MissionData.reward (loc_record loc)
      /\ dict_values (FactionMissions.missions ledger')
         = remove_first (has_id mission_id)
             (dict_values (FactionMissions.missions (loc_ledger loc)))
      /\ match dict_find (loc_target loc) (MissionStack.missions st') with
         | Some bucket' =>
             bucket' <> []
             /\ dict_find (loc_faction loc) bucket'
                = (if dict_is_empty (FactionMissions.missions ledger')
                   then None else Some ledger')
         | None =>
             FactionMissions.missions ledger' = []
             /\ dict_remove (loc_faction loc) (loc_bucket loc) = []
         end).
Proof.
  intros Hok Hkind Hloc. cbv zeta.
  set (mission_id := get (ev_MissionID event) 0) in *.
  set (st' := remove_at mission_id loc st).
  assert (Hspec : removal_spec mission_id st = st').
  { unfold removal_spec. now rewrite Hloc. }
  split; [|split; [|split; [|split; [|split; [|split; [|split]]]]]].
  - rewrite (process_event_eq event st Hok). unfold process_spec.
    assert (Hacc : String.eqb (get (ev_event event) "") "MissionAccepted" = false).
    { unfold is_removal_kind in Hkind.
      destruct (String.eqb (get (ev_event event) "") "MissionAccepted") eqn:E;
        [|reflexivity].
      apply String.eqb_eq in E. rewrite E in Hkind. discriminate. }
    rewrite Hacc, Hkind. cbn [fst snd]. fold mission_id. now rewrite Hloc, Hspec.
  - intros reason. rewrite (remove_mission_by_id_eq mission_id reason st Hok).
    now rewrite Hloc, Hspec.
  - apply first_bucket_In in Hloc. destruct Hloc as [_ Hl].
    apply first_ledger_In in Hl. destruct Hl as [_ Hr].
    apply (find_has_id _ _ _ Hr).
  - apply first_bucket_In in Hloc. apply Hloc.
  - apply first_bucket_In in Hloc. destruct Hloc as [_ Hl].
    apply first_ledger_In in Hl. apply Hl.
  - apply first_bucket_In in Hloc. destruct Hloc as [_ Hl].
    apply first_ledger_In in Hl. destruct Hl as [_ Hr].
    apply find_some in Hr. apply Hr.
  - destruct st as [reg]. apply (all_records_remove mission_id reg loc Hok Hloc).
  - apply (remove_at_lookup mission_id loc st Hok Hloc).
Qed.

(** C5 (registry invariant). After any sequence of [process_event] and
    [clear] calls on an empty [MissionStack], every target-faction bucket of
    the registry holds at least one ledger and every ledger owns at least one
    record. *)
Theorem C5_no_empty_ledger_or_bucket (calls : list call) :
  no_empty (run calls MissionStack.__init__) = true
  /\ forall t bucket,
       In (t, bucket) (MissionStack.missions (run calls MissionStack.__init__)) ->
       bucket <> [] /\
       forall f fm, In (f, fm) bucket -> FactionMissions.missions fm <> [].
Proof.
  destruct (run_keeps calls MissionStack.__init__ (conj eq_refl eq_refl)) as [_ Hne].
  split; [exact Hne|].
  intros t bucket Hin. apply (no_empty_In _ t bucket Hne Hin).
Qed.

(** C8 (P7, ignored events). [process_event] returns false and leaves the
    registry as it was when the event's kind is none of the four handled
    kinds, when it is a MissionAccepted whose Name does not contain
    Mission_Massacre, and when it is a MissionCompleted, MissionFailed or
    MissionAbandoned whose MissionID is the id of no record of the registry
    (the registry being a dict of dicts). *)
Theorem C8_not_handled_is_noop (event : event_data) (st : MissionStack.t) :
  let event_type := get (ev_event event) "" in
  (event_type <> "MissionAccepted" /\ is_removal_kind event_type = false)
  \/ (event_type = "MissionAccepted"
      /\ str_in "Mission_Massacre" (get (ev_Name event) "") = false)
  \/ (is_removal_kind event_type = true
      /\ registry_ok st = true
      /\ forall m, In m (all_records st) ->
           MissionData.mission_id m <> get (ev_MissionID event) 0) ->
  MissionStack.process_event event st = (Ok false, st).
Proof.
  intros event_type [[Hacc Hrem]|[[Hacc Hname]|[Hrem [Hok Hno]]]].
  - unfold MissionStack.process_event, MissionStack.dispatch, try_except.
    fold event_type. apply String.eqb_neq in Hacc. rewrite Hacc.
    unfold is_removal_kind in Hrem.
    apply orb_false_iff in Hrem. destruct Hrem as [Hrem Hab].
    apply orb_false_iff in Hrem. destruct Hrem as [Hco Hfa].
    now rewrite Hco, Hfa, Hab.
  - unfold MissionStack.process_event, MissionStack.dispatch, try_except.
    fold event_type. rewrite Hacc. cbn [String.eqb Ascii.eqb Bool.eqb].
    now rewrite (handle_accepted_skip event st Hname).
  - rewrite (process_event_eq event st Hok). unfold process_spec. fold event_type.
    assert (Hacc : String.eqb event_type "MissionAccepted" = false).
    { destruct (String.eqb event_type "MissionAccepted") eqn:E; [|reflexivity].
      apply String.eqb_eq in E. rewrite E in Hrem. discriminate. }
    rewrite Hacc, Hrem. unfold removal_spec.
    now rewrite (first_match_None _ st Hno).
Qed.

End RegistryClaims.

(** * The ledger: add, aggregates, no exception *)

Section LedgerClaims.
Context {DT : DateTimeLib}.

Lemma dict_find_app_None (V : Type) (k : string) (d1 d2 : dict V) :
  dict_find k d1 = None -> dict_find k (d1 ++ d2) = dict_find k d2.
Proof.
  induction d1 as [|[k0 v0] d1 IH]; simpl; [reflexivity|].
  destruct (String.eqb k k0); [discriminate | exact IH].
Qed.

Lemma add_all_new (records : list MissionData.t) (fm : FactionMissions.t) :
  distinct (map MissionData.localised_name records) = true ->
  (forall r, In r records ->
     dict_find (MissionData.localised_name r) (FactionMissions.missions fm) = None) ->
  add_all records fm =
  (Ok tt,
   {| FactionMissions.faction_name := FactionMissions.faction_name fm;
      FactionMissions.missions :=
        FactionMissions.missions fm
        ++ map (fun r => (MissionData.localised_name r, r)) records;
      FactionMissions.total_initial_kills :=
        FactionMissions.total_initial_kills fm + sum_initial records;
      FactionMissions.total_current_kills :=
        FactionMissions.total_current_kills fm + sum_current records;
      FactionMissions.total_reward :=
        FactionMissions.total_reward fm + sum_reward records |}).
Proof.
  revert fm. induction records as [|r records IH]; intros fm Hd Hnew.
  - simpl. unfold ret, sum_initial, sum_current, sum_reward. simpl.
    rewrite app_nil_r, !Z.add_0_r. now destruct fm.
  - cbn [add_all]. unfold bind at 1.
    rewrite (add_mission_new r fm (Hnew r (or_introl eq_refl))).
    cbn [map distinct] in Hd. apply andb_true_iff in Hd. destruct Hd as [Hn Hd].
    apply negb_true_iff in Hn.
    rewrite IH; [| assumption |].
    + cbn [FactionMissions.faction_name FactionMissions.missions
           FactionMissions.total_initial_kills FactionMissions.total_current_kills
           FactionMissions.total_reward].
      unfold sum_initial, sum_current, sum_reward, zsum. cbn [map fold_right].
      rewrite <- app_assoc. cbn [app]. f_equal. f_equal; try reflexivity; lia.
    + intros r' Hin. cbn [FactionMissions.missions].
      rewrite dict_find_app_None by (apply Hnew; now right).
      simpl. destruct (String.eqb (MissionData.localised_name r')
                                  (MissionData.localised_name r)) eqn:E; [|reflexivity].
      apply String.eqb_eq in E.
      assert (Hex : existsb (String.eqb (MissionData.localised_name r))
                      (map MissionData.localised_name records) = true).
      { apply existsb_eqb_In. rewrite <- E. now apply in_map. }
      congruence.
Qed.

Lemma update_mission_kills_loop_returns mission_id new_kill_count records fm :
  exists b fm',
    FactionMissions.update_mission_kills_loop mission_id new_kill_count records fm
    = (Ok b, fm').
Proof.
  induction records as [|[k m] records IH]; simpl.
  - now exists false, fm.
  - destruct (MissionData.mission_id m =? mission_id).
    + unfold FactionMissions.missions_store. unmonad. eauto.
    + exact IH.
Qed.

(** C3 (add under an existing key). When the ledger already holds a record
    under the incoming record's localised_name, [add_mission] returns and the
    only change is the current_kill_count of that record, which becomes the
    incoming one: total_initial_kills, total_current_kills, total_reward and
    faction_name are those of before, the keys are the same in the same
    order, the records under the other keys are untouched, and every other
    field of the record under the key is as before. *)
Theorem C3_add_existing_key_frame (md : MissionData.t) (fm : FactionMissions.t)
    (existing : MissionData.t) :
  dict_find (MissionData.localised_name md) (FactionMissions.missions fm) = Some existing ->
  exists fm' updated,
    FactionMissions.add_mission md fm = (Ok tt, fm')
    /\ FactionMissions.total_initial_kills fm' = FactionMissions.total_initial_kills fm
    /\ FactionMissions.total_current_kills fm' = FactionMissions.total_current_kills fm
    /\ FactionMissions.total_reward fm' = FactionMissions.total_reward fm
    /\ FactionMissions.faction_name fm' = FactionMissions.faction_name fm
    /\ dict_keys (FactionMissions.missions fm') = dict_keys (FactionMissions.missions fm)
    /\ (forall k, k <> MissionData.localised_name md ->
          dict_find k (FactionMissions.missions fm')
          = dict_find k (FactionMissions.missions fm))
    /\ dict_find (MissionData.localised_name md) (FactionMissions.missions fm')
       = Some updated
    /\ MissionData.current_kill_count updated = MissionData.current_kill_count md
    /\ MissionData.mission_id updated = MissionData.mission_id existing
    /\ MissionData.name updated = MissionData.name existing
    /\ MissionData.localised_name updated = MissionData.localised_name existing
    /\ MissionData.faction updated = MissionData.faction existing
    /\ MissionData.target_faction updated = MissionData.target_faction existing
    /\ MissionData.initial_kill_count updated = MissionData.initial_kill_count existing
    /\ MissionData.reward updated = MissionData.reward existing
    /\ MissionData.expiry updated = MissionData.expiry existing
    /\ MissionData.wing updated = MissionData.wing existing
    /\ MissionData.destination_system updated = MissionData.destination_system existing
    /\ MissionData.destination_station updated = MissionData.destination_station existing
    /\ MissionData.timestamp updated = MissionData.timestamp existing
    /\ MissionData.expiry_datetime updated = MissionData.expiry_datetime existing.
Proof.
  intros H. eexists.
  exists (MissionData.update_kill_count (MissionData.current_kill_count md) existing).
  split; [apply (add_mission_existing md fm existing H)|].
  cbn [FactionMissions.set_missions FactionMissions.total_initial_kills
       FactionMissions.total_current_kills FactionMissions.total_reward
       FactionMissions.faction_name FactionMissions.missions].
  repeat split.
  - apply dict_keys_store.
  - intros k Hk. now apply dict_find_store_other.
  - rewrite dict_find_store_same, H. reflexivity.
Qed.

(** C4 (P4, aggregates after adding new keys). Adding a sequence of records
    with pairwise distinct localised_name to a fresh ledger returns and leaves
    total_initial_kills, total_current_kills and total_reward equal to the sums
    of initial_kill_count, current_kill_count and reward over the sequence;
    the ledger owns exactly these records, in the order of their addition. *)
Theorem C4_aggregates_are_sums (faction_name : string) (records : list MissionData.t) :
  distinct (map MissionData.localised_name records) = true ->
  exists fm',
    add_all records (FactionMissions.__init__ faction_name) = (Ok tt, fm')
    /\ FactionMissions.total_initial_kills fm' = sum_initial records
    /\ FactionMissions.total_current_kills fm' = sum_current records
    /\ FactionMissions.total_reward fm' = sum_reward records
    /\ dict_values (FactionMissions.missions fm') = records.
Proof.
  intros Hd. eexists. split.
  - apply (add_all_new records (FactionMissions.__init__ faction_name) Hd).
    intros r _. reflexivity.
  - cbn [FactionMissions.total_initial_kills FactionMissions.total_current_kills
         FactionMissions.total_reward FactionMissions.missions FactionMissions.__init__
         app].
    repeat split.
    unfold dict_values. rewrite map_map. cbn [snd]. apply map_id.
Qed.

(** C9 (no exception but beyond the range of floats). [process_event]
    returns a boolean on every event and every registry: whatever its
    handlers raise is caught; on the registries that calls can produce the
    handlers raise nothing at all. [add_mission], [update_mission_kills]
    and [remove_mission] return on every ledger and every argument.
    [get_progress_percentage] divides two ints into a float: it yields a
    number when total_initial_kills is 0 or the magnitude of
    total_current_kills is below [2^1024 - 2^970] times that of
    total_initial_kills, and raises OverflowError, nothing else, on every
    other ledger. *)
Theorem C9_only_overflow_escapes :
  (forall event st, returns (MissionStack.process_event event) st)
  /\ (forall event calls,
        returns (MissionStack.dispatch event) (run calls MissionStack.__init__))
  /\ (forall md fm, returns (FactionMissions.add_mission md) fm)
  /\ (forall mission_id new_kill_count fm,
        returns (FactionMissions.update_mission_kills mission_id new_kill_count) fm)
  /\ (forall mission_id fm, returns (FactionMissions.remove_mission mission_id) fm)
  /\ (forall fm,
        if Binary64.ledger_in_range fm
        then exists p, Binary64.get_progress_percentage fm = Ok p
        else Binary64.get_progress_percentage fm = Raise OverflowError).
Proof.
  unfold returns. repeat split.
  - intros event st. unfold MissionStack.process_event, try_except.
    destruct (MissionStack.dispatch event st) as [[b|e] st']; eauto.
  - intros event calls. rewrite (dispatch_eq event _ (reachable_registry_ok calls)).
    eauto.
  - intros md fm. destruct (add_mission_returns md fm) as [fm' H]. eauto.
  - intros mission_id new_kill_count fm.
    unfold FactionMissions.update_mission_kills, bind, gets.
    apply update_mission_kills_loop_returns.
  - intros mission_id fm. rewrite remove_mission_eq.
    destruct (find _ _) as [[k r]|]; eauto.
  - intros fm.
    unfold Binary64.ledger_in_range, Binary64.get_progress_percentage,
      Binary64.int_truediv.
    destruct (FactionMissions.total_initial_kills fm =? 0); cbn [orb rbind]; [eauto|].
    destruct (Z.leb_spec
                (Binary64.overflow_threshold
                 * Z.abs (FactionMissions.total_initial_kills fm))
                (Z.abs (FactionMissions.total_current_kills fm)));
      destruct (Z.ltb_spec
                  (Z.abs (FactionMissions.total_current_kills fm))
                  (Binary64.overflow_threshold
                   * Z.abs (FactionMissions.total_initial_kills fm)));
      try lia; cbn [rbind]; eauto.
Qed.

(** C10 (a new record starts at its full quota). The record built from an
    event has current_kill_count = initial_kill_count = the event's KillCount,
    0 when the event has none; once added to a ledger that has no record
    under its localised_name, the ledger holds it as built and both kill
    aggregates of the ledger grew by that KillCount. *)
Theorem C10_record_starts_at_full_quota (event : event_data) (fm : FactionMissions.t) :
  let md := MissionData.__init__ event in
  MissionData.initial_kill_count md = get (ev_KillCount event) 0
  /\ MissionData.current_kill_count md = get (ev_KillCount event) 0
  /\ MissionData.current_kill_count md = MissionData.initial_kill_count md
  /\ (ev_KillCount event = None -> MissionData.current_kill_count md = 0)
  /\ (dict_find (MissionData.localised_name md) (FactionMissions.missions fm) = None ->
      exists fm',
        FactionMissions.add_mission md fm = (Ok tt, fm')
        /\ dict_find (MissionData.localised_name md) (FactionMissions.missions fm')
           = Some md
        /\ FactionMissions.total_current_kills fm'
           = FactionMissions.total_current_kills fm + get (ev_KillCount event) 0
        /\ FactionMissions.total_initial_kills fm'
           = FactionMissions.total_initial_kills fm + get (ev_KillCount event) 0).
Proof.
  cbv zeta. repeat split.
  - intros H. cbn [MissionData.__init__ MissionData.current_kill_count].
    now rewrite H.
  - intros H. eexists. split; [apply (add_mission_new _ fm H)|].
    cbn [FactionMissions.missions FactionMissions.total_current_kills
         FactionMissions.total_initial_kills].
    repeat split.
    rewrite (dict_find_app_None _ _ _ _ H). simpl. now rewrite String.eqb_refl.
Qed.

End LedgerClaims.

(** The ledger that the four calls of [overflow_calls] leave for the
    issuing faction has the aggregates 5 and 6 - 10^400: its progress
    percentage is an OverflowError, not a number. *)
Lemma C9_progress_overflows :
  lookup_ledger "T" "F" overflow_registry = Some overflow_ledger
  /\ FactionMissions.total_initial_kills overflow_ledger = 5
  /\ FactionMissions.total_current_kills overflow_ledger = 6 - 10 ^ 400
  /\ Binary64.get_progress_percentage overflow_ledger = Raise OverflowError
  /\ ((exists p, Binary64.get_progress_percentage overflow_ledger = Ok p) -> False).
Proof.
  assert (H : Binary64.get_progress_percentage overflow_ledger = Raise OverflowError)
    by (vm_compute; reflexivity).
  split; [vm_compute; reflexivity|].
  split; [vm_compute; reflexivity|].
  split; [vm_compute; reflexivity|].
  split; [exact H|].
  intros [p Hp]. rewrite H in Hp. discriminate Hp.
Qed.

(** * The kill ratio *)

Section RatioFacts.
Context {DT : DateTimeLib}.
Import KillRatioCalculator.

Lemma zsum_insert_desc x l :
  zsum (map remaining_of (insert_desc x l)) = remaining_of x + zsum (map remaining_of l).
Proof.
  induction l as [|y l IH]; simpl; [reflexivity|].
  destruct (remaining_of y <=? remaining_of x); simpl; [reflexivity|].
  rewrite IH. lia.
Qed.

Lemma zsum_sorted_desc l :
  zsum (map remaining_of (sorted_desc l)) = zsum (map remaining_of l).
Proof.
  induction l as [|x l IH]; simpl; [reflexivity|].
  now rewrite zsum_insert_desc, IH.
Qed.

Lemma fold_left_remaining l a :
  fold_left (fun total_remaining mission => total_remaining + remaining_of mission) l a
  = a + zsum (map remaining_of l).
Proof.
  revert a. induction l as [|x l IH]; intros a; simpl; [lia|]. rewrite IH. lia.
Qed.

(** The sort does not change the sum. *)
Lemma faction_remaining_kills_eq f :
  _calculate_faction_remaining_kills f = remaining f.
Proof.
  unfold _calculate_faction_remaining_kills, remaining.
  now rewrite fold_left_remaining, zsum_sorted_desc.
Qed.

Lemma fold_left_setitem_new (A V : Type) (g : A -> V) (l : dict A) (acc : dict V) :
  dict_ok l = true ->
  (forall k, In k (dict_keys l) -> dict_find k acc = None) ->
  fold_left (fun acc kv => dict_setitem (fst kv) (g (snd kv)) acc) l acc
  = acc ++ map (fun kv => (fst kv, g (snd kv))) l.
Proof.
  revert acc. induction l as [|[k a] l IH]; intros acc Hok Hnew; simpl.
  - now rewrite app_nil_r.
  - apply dict_ok_cons in Hok. destruct Hok as [Hn Hok].
    rewrite (dict_keys_setitem_new _ k (g a) acc (Hnew k (or_introl eq_refl))).
    rewrite IH; [now rewrite <- app_assoc | assumption |].
    intros k0 Hin. rewrite dict_find_app_None by (apply Hnew; now right).
    simpl. destruct (String.eqb k0 k) eqn:E; [|reflexivity].
    apply String.eqb_eq in E. subst k0. contradiction.
Qed.

(** On a dict of factions, the dict of remaining kills built by
    [_calculate_target_faction_ratio] has one entry per faction. *)
Lemma remaining_dict_eq (factions_data : dict faction_view) :
  dict_ok factions_data = true ->
  fold_left
    (fun acc kv => dict_setitem (fst kv) (_calculate_faction_remaining_kills (snd kv)) acc)
    factions_data []
  = map (fun kv => (fst kv, remaining (snd kv))) factions_data.
Proof.
  intros Hok. rewrite fold_left_setitem_new by (auto; reflexivity). simpl.
  apply map_ext. intros [k a]. simpl. now rewrite faction_remaining_kills_eq.
Qed.

Lemma remaining_dict_values (factions_data : dict faction_view) :
  dict_values (map (fun kv => (fst kv, remaining (snd kv))) factions_data)
  = remaining_per_faction factions_data.
Proof. unfold dict_values, remaining_per_faction. now rewrite map_map. Qed.

Lemma py_sum_zsum xs : py_sum xs = zsum xs.
Proof. unfold py_sum. rewrite fold_left_add_zsum. lia. Qed.

Lemma fold_left_max_eq xs x :
  fold_left (fun m y => if m <? y then y else m) xs x = fold_right Z.max x xs.
Proof.
  rewrite <- fold_symmetric; [| intros; lia | intros; lia].
  revert x. induction xs as [|y xs IH]; intros x; simpl; [reflexivity|].
  rewrite IH. f_equal. destruct (x <? y) eqn:E; lia.
Qed.

Lemma fold_right_max_ge x xs : x <= fold_right Z.max x xs.
Proof. induction xs as [|y xs IH]; simpl; lia. Qed.

Lemma zsum_le_max x xs : 
  zsum xs <= Z.of_nat (List.length xs) * fold_right Z.max x xs.
Proof.
  induction xs as [|y xs IH]; [simpl; lia|].
  cbn [zsum fold_right List.length]. fold (zsum xs).
  rewrite Nat2Z.inj_succ. nia.
Qed.

(** A positive total has a positive largest summand. *)
Lemma max_positive x xs : 0 < zsum (x :: xs) -> 0 < fold_right Z.max x xs.
Proof.
  intros H. cbn [zsum fold_right] in H. fold (zsum xs) in H.
  pose proof (zsum_le_max x xs) as Hle. pose proof (fold_right_max_ge x xs) as Hge.
  destruct (Z_lt_le_dec 0 (fold_right Z.max x xs)) as [Hpos|Hnp]; [assumption|].
  exfalso. assert (Z.of_nat (List.length xs) * fold_right Z.max x xs <= 0) by nia. lia.
Qed.

Lemma inv_n_bounds (n : Z) : 2 <= n -> (0 < 1 / inject_Z n /\ 1 / inject_Z n < 1)%Q.
Proof.
  intros Hn. destruct n as [|p|p]; try lia.
  unfold Qdiv, Qinv, Qmult, Qlt, inject_Z. simpl. lia.
Qed.

Lemma ratio_simplifies (m total n : Z) :
  0 < m -> 0 < total -> 2 <= n ->
  ((inject_Z m / inject_Z total) * ((inject_Z total / inject_Z n) / inject_Z m)
   == 1 / inject_Z n)%Q.
Proof.
  intros Hm Ht Hn.
  assert (~ inject_Z m == 0)%Q by (unfold Qeq, inject_Z; simpl; lia).
  assert (~ inject_Z total == 0)%Q by (unfold Qeq, inject_Z; simpl; lia).
  assert (~ inject_Z n == 0)%Q by (unfold Qeq, inject_Z; simpl; lia).
  field. auto.
Qed.

Lemma clamp_id (x : Q) :
  (0 < x)%Q -> (x < 1)%Q -> float_max 0 (float_min 1 x) = x.
Proof.
  intros H0 H1. unfold float_max, float_min.
  destruct (Qle_bool 1 x) eqn:E1.
  - apply Qle_bool_iff in E1. exfalso. apply (Qlt_not_le _ _ H1 E1).
  - destruct (Qle_bool x 0) eqn:E0; [|reflexivity].
    apply Qle_bool_iff in E0. exfalso. apply (Qlt_not_le _ _ H0 E0).
Qed.

(** The value of the formula of section 4.3. *)
Lemma compute_kill_ratio_eq (d : dict Z) :
  2 <= Z.of_nat (List.length d) ->
  0 < zsum (dict_values d) ->
  exists m,
    match dict_values d with [] => False | x :: xs => m = fold_right Z.max x xs end
    /\ 0 < m
    /\ _compute_kill_ratio d
       = Ok ((inject_Z m / inject_Z (zsum (dict_values d)))
             * ((inject_Z (zsum (dict_values d)) / inject_Z (Z.of_nat (List.length d)))
                / inject_Z m))%Q.
Proof.
  intros Hn Ht. unfold _compute_kill_ratio.
  rewrite py_sum_zsum.
  destruct (Z.of_nat (List.length d) =? 0) eqn:E0; [lia|].
  destruct (Z.of_nat (List.length d) =? 1) eqn:E1; [lia|].
  destruct (zsum (dict_values d) =? 0) eqn:Ez; [lia|].
  destruct (dict_values d) as [|x xs] eqn:Ev; [simpl in Ht; lia|].
  exists (fold_right Z.max x xs).
  assert (Hm : 0 < fold_right Z.max x xs) by now apply max_positive.
  split; [reflexivity|]. split; [assumption|].
  unfold py_max. rewrite fold_left_max_eq. cbn [rbind].
  unfold int_truediv, float_int_truediv. rewrite E0. cbn [rbind].
  destruct (0 <? fold_right Z.max x xs) eqn:Em; [|lia].
  destruct (fold_right Z.max x xs =? 0) eqn:Em0; [lia|]. cbn [rbind].
  destruct (0 <? zsum (x :: xs)) eqn:Et; [|lia].
  rewrite Ez. cbn [rbind].
  rewrite clamp_id; [reflexivity | |].
  - rewrite ratio_simplifies by (assumption || lia). now apply inv_n_bounds.
  - rewrite ratio_simplifies by (assumption || lia). now apply inv_n_bounds.
Qed.

End RatioFacts.

Section RatioClaims.
Context {DT : DateTimeLib}.
Import KillRatioCalculator.

Lemma compute_kill_ratio_returns (d : dict Z) : exists r, _compute_kill_ratio d = Ok r.
Proof.
  unfold _compute_kill_ratio.
  destruct (Z.of_nat (List.length d) =? 0) eqn:E0; [eauto|].
  destruct (Z.of_nat (List.length d) =? 1); [eauto|].
  destruct (py_sum (dict_values d) =? 0) eqn:Ez; [eauto|].
  destruct d as [|[k x] d]; [discriminate|].
  cbn [dict_values map snd py_max rbind]. unfold int_truediv, float_int_truediv.
  rewrite E0. cbn [rbind].
  match goal with |- context [0 <? ?m] => destruct (0 <? m) eqn:Em end.
  - match goal with |- context [?m =? 0] =>
      destruct (m =? 0) eqn:Em0; [lia|] end.
    cbn [rbind].
    match goal with |- context [0 <? py_sum ?l] =>
      destruct (0 <? py_sum l) eqn:Es; [destruct (py_sum l =? 0) eqn:Es0; [lia|] |] end;
      simpl; eauto.
  - cbn [rbind].
    match goal with |- context [0 <? py_sum ?l] =>
      destruct (0 <? py_sum l) eqn:Es; [destruct (py_sum l =? 0) eqn:Es0; [lia|] |] end;
      simpl; eauto.
Qed.

Lemma target_ratio_returns target (factions_data : dict faction_view) :
  exists r, _calculate_target_faction_ratio target factions_data = Ok r.
Proof.
  unfold _calculate_target_faction_ratio.
  destruct (Z.of_nat (List.length factions_data) =? 1); [eauto|].
  apply compute_kill_ratio_returns.
Qed.




(** C6 (P1 and the zero cases). A target faction with exactly one issuing
    faction has ratio 1.0 whatever its kill counts; one with no issuing
    faction has ratio 0.0; one with n >= 2 issuing factions whose total
    remaining kills is 0 has ratio 0.0. *)
Theorem C6_single_issuer_and_zero_cases (target : string)
    (factions_data : dict faction_view) :
  (List.length factions_data = 1%nat ->
     _calculate_target_faction_ratio target factions_data = Ok 1%Q)
  /\ (List.length factions_data = 0%nat ->
     _calculate_target_faction_ratio target factions_data = Ok 0%Q)
  /\ (dict_ok factions_data = true ->
      (2 <= List.length factions_data)%nat ->
      total_remaining factions_data = 0 ->
      _calculate_target_faction_ratio target factions_data = Ok 0%Q).
Proof.
  unfold _calculate_target_faction_ratio. repeat split.
  - intros H. now rewrite H.
  - intros H. destruct factions_data; [reflexivity | discriminate].
  - intros Hok Hn Ht.
    destruct (Z.of_nat (List.length factions_data) =? 1) eqn:E1; [lia|].
    rewrite (remaining_dict_eq factions_data Hok).
    unfold _compute_kill_ratio. rewrite length_map.
    destruct (Z.of_nat (List.length factions_data) =? 0) eqn:E0; [lia|].
    rewrite E1, py_sum_zsum, remaining_dict_values.
    fold (total_remaining factions_data). now rewrite Ht.
Qed.

End RatioClaims.

(** * The end-to-end scenario *)

Section Scenario.
Context {DT : DateTimeLib}.

Lemma process_massacre_accepted (e : event_data) target issuer kills reward st :
  massacre_accepted e target issuer kills reward ->
  MissionStack.process_event e st
  = (Ok true, accept_spec (MissionData.__init__ e) st)
  /\ MissionData.target_faction (MissionData.__init__ e) = target
  /\ MissionData.faction (MissionData.__init__ e) = issuer
  /\ MissionData.initial_kill_count (MissionData.__init__ e) = kills
  /\ MissionData.current_kill_count (MissionData.__init__ e) = kills
  /\ MissionData.reward (MissionData.__init__ e) = reward.
Proof.
  intros [Hev [Hname [Ht [Hf [Hk Hr]]]]].
  cbn [MissionData.__init__ MissionData.target_faction MissionData.faction
       MissionData.initial_kill_count MissionData.current_kill_count MissionData.reward].
  rewrite Ht, Hf, Hk, Hr. repeat split.
  unfold MissionStack.process_event, MissionStack.dispatch, try_except.
  rewrite Hev. cbn [get String.eqb Ascii.eqb Bool.eqb].
  now rewrite (handle_accepted_eq e st Hname).
Qed.

(** C7 (end-to-end scenario). From an empty [MissionStack], the three
    accepted massacre missions (Mizete Jet Society / Military Gamers, 30
    kills, reward 40561668; Mizete Jet Society / Gatorma Labour, 45 kills,
    reward 16295619; Brothers of Nijoten / Military Gamers, 25 kills, reward
    30106172), whatever their other fields, are all processed and leave a
    registry with exactly two target-faction buckets, Mizete Jet Society with
    two issuing factions and kill ratio 1/2, Brothers of Nijoten with one
    issuing faction and kill ratio 1; [get_summary] reports three missions
    and a total reward of 86963459. *)
Theorem C7_three_missions_scenario (e1 e2 e3 : event_data) :
  massacre_accepted e1 "Mizete Jet Society" "Military Gamers" 30 40561668 ->
  massacre_accepted e2 "Mizete Jet Society" "Gatorma Labour" 45 16295619 ->
  massacre_accepted e3 "Brothers of Nijoten" "Military Gamers" 25 30106172 ->
  let st0 := MissionStack.__init__ in
  let st1 := snd (MissionStack.process_event e1 st0) in
  let st2 := snd (MissionStack.process_event e2 st1) in
  let st3 := snd (MissionStack.process_event e3 st2) in
  fst (MissionStack.process_event e1 st0) = Ok true
  /\ fst (MissionStack.process_event e2 st1) = Ok true
  /\ fst (MissionStack.process_event e3 st2) = Ok true
  /\ st3 = run [Process e1; Process e2; Process e3] MissionStack.__init__
  /\ List.length (MissionStack.missions st3) = 2%nat
  /\ MissionStack.get_target_factions st3 = ["Mizete Jet Society"; "Brothers of Nijoten"]
  /\ MissionStack.get_issuing_factions "Mizete Jet Society" st3
     = ["Military Gamers"; "Gatorma Labour"]
  /\ MissionStack.get_issuing_factions "Brothers of Nijoten" st3 = ["Military Gamers"]
  /\ (exists ratios mizete,
        MissionStack.get_kill_ratios st3 = Ok ratios
        /\ dict_keys ratios = ["Mizete Jet Society"; "Brothers of Nijoten"]
        /\ dict_find "Mizete Jet Society" ratios = Some mizete
        /\ (mizete == 1 # 2)%Q
        /\ dict_find "Brothers of Nijoten" ratios = Some 1%Q)
  /\ (exists summary,
        MissionStack.get_summary st3 = Ok summary
        /\ MissionStack.s_total_reward summary = 86963459
        /\ MissionStack.s_total_missions summary = 3
        /\ List.length (MissionStack.s_target_factions summary) = 2%nat).
Proof.
  intros H1 H2 H3. cbv zeta. unfold run, step. cbn [fold_left].
  destruct (process_massacre_accepted e1 _ _ _ _ MissionStack.__init__ H1)
    as [P1 [T1 [F1 [I1 [C1 R1]]]]].
  rewrite P1. cbn [fst snd].
  destruct (process_massacre_accepted e2 _ _ _ _
              (accept_spec (MissionData.__init__ e1) MissionStack.__init__) H2)
    as [P2 [T2 [F2 [I2 [C2 R2]]]]].
  rewrite P2. cbn [fst snd].
  destruct (process_massacre_accepted e3 _ _ _ _
              (accept_spec (MissionData.__init__ e2)
                 (accept_spec (MissionData.__init__ e1) MissionStack.__init__)) H3)
    as [P3 [T3 [F3 [I3 [C3 R3]]]]].
  rewrite P3. cbn [fst snd].
  revert T1 F1 I1 C1 R1 T2 F2 I2 C2 R2 T3 F3 I3 C3 R3.
  generalize (MissionData.__init__ e1) (MissionData.__init__ e2) (MissionData.__init__ e3).
  intros m1 m2 m3.
  destruct m1, m2, m3. cbn [MissionData.target_faction MissionData.faction
    MissionData.initial_kill_count MissionData.current_kill_count MissionData.reward].
  intros; subst.
  repeat (split; [vm_compute; reflexivity|]).
  split.
  - eexists. eexists. split; [vm_compute; reflexivity|].
    repeat (split; [vm_compute; reflexivity|]). vm_compute. reflexivity.
  - eexists. split; [vm_compute; reflexivity|]. repeat split; vm_compute; reflexivity.
Qed.

End Scenario.

(** * Concrete instances *)


(** Completing mission 3 of the scenario empties its ledger and its bucket:
    only the Mizete Jet Society bucket is left. *)
Lemma C2_witness :
  match first_match 3 scenario_registry with
  | Some loc =>
      MissionStack.process_event (sample_completed 3) scenario_registry
      = (Ok true, remove_at 3 loc scenario_registry)
      /\ MissionStack.get_target_factions (remove_at 3 loc scenario_registry)
         = ["Mizete Jet Society"]
  | None => False
  end.
Proof.
  destruct (first_match 3 scenario_registry) as [loc|] eqn:E.
  - split.
    + apply (proj1 (C2_removal_correct (DT := no_parser) (sample_completed 3)
                      scenario_registry loc eq_refl eq_refl E)).
    + vm_compute in E. injection E as <-. reflexivity.
  - vm_compute in E. discriminate.
Defined.

Lemma C3_witness :
  exists fm' updated,
    FactionMissions.add_mission
      (MissionData.__init__ (sample_accepted 7 "T" "F" "Kill pirates" 12 500))
      (snd (FactionMissions.add_mission
              (MissionData.__init__ (sample_accepted 4 "T" "F" "Kill pirates" 30 900))
              (FactionMissions.__init__ (DT := no_parser) "F")))
    = (Ok tt, fm')
    /\ FactionMissions.total_current_kills fm' = 30
    /\ dict_find "Kill pirates" (FactionMissions.missions fm') = Some updated
    /\ MissionData.current_kill_count updated = 12
    /\ MissionData.mission_id updated = 4.
Proof.
  destruct (C3_add_existing_key_frame (DT := no_parser)
              (MissionData.__init__ (sample_accepted 7 "T" "F" "Kill pirates" 12 500))
              (snd (FactionMissions.add_mission
                      (MissionData.__init__ (sample_accepted 4 "T" "F" "Kill pirates" 30 900))
                      (FactionMissions.__init__ "F")))
              (MissionData.__init__ (sample_accepted 4 "T" "F" "Kill pirates" 30 900)))
    as [fm' [updated [Hadd [_ [Hcur [_ [_ [_ [_ [Hfind [Hc [Hid _]]]]]]]]]]]].
  - reflexivity.
  - exists fm', updated. repeat split.
    + exact Hadd.
    + rewrite Hcur. reflexivity.
    + exact Hfind.
    + rewrite Hc. reflexivity.
    + rewrite Hid. reflexivity.
Defined.

Lemma C4_witness :
  exists fm',
    add_all
      [MissionData.__init__ (sample_accepted 1 "T" "F" "Kill A" 30 100);
       MissionData.__init__ (sample_accepted 2 "T" "F" "Kill B" 45 200);
       MissionData.__init__ (sample_accepted 3 "T" "F" "Kill C" 25 300)]
      (FactionMissions.__init__ (DT := no_parser) "F") = (Ok tt, fm')
    /\ FactionMissions.total_initial_kills fm' = 100
    /\ FactionMissions.total_reward fm' = 600.
Proof.
  destruct (C4_aggregates_are_sums (DT := no_parser) "F"
              [MissionData.__init__ (sample_accepted 1 "T" "F" "Kill A" 30 100);
               MissionData.__init__ (sample_accepted 2 "T" "F" "Kill B" 45 200);
               MissionData.__init__ (sample_accepted 3 "T" "F" "Kill C" 25 300)])
    as [fm' [Hadd [Hi [_ [Hr _]]]]].
  - reflexivity.
  - exists fm'. repeat split.
    + exact Hadd.
    + rewrite Hi. reflexivity.
    + rewrite Hr. reflexivity.
Defined.

Lemma C5_witness :
  no_empty
    (run (DT := no_parser)
       [Process scenario_1; Process scenario_2; Clear; Process scenario_2;
        Process scenario_1; Process (sample_completed 2)]
       MissionStack.__init__) = true
  /\ MissionStack.get_issuing_factions "Mizete Jet Society"
       (run (DT := no_parser)
          [Process scenario_1; Process scenario_2; Clear; Process scenario_2;
           Process scenario_1; Process (sample_completed 2)]
          MissionStack.__init__) = ["Military Gamers"].
Proof.
  split.
  - apply (proj1 (C5_no_empty_ledger_or_bucket (DT := no_parser)
                    [Process scenario_1; Process scenario_2; Clear; Process scenario_2;
                     Process scenario_1; Process (sample_completed 2)])).
  - vm_compute. reflexivity.
Defined.

Lemma C6_witness :
  KillRatioCalculator._calculate_target_faction_ratio "T"
    [("Faction1", KillRatioCalculator.LedgerMissions (DT := no_parser)
                    [("Mission1", KillRatioCalculator.MissionEntry (Some 17))])]
  = Ok 1%Q
  /\ KillRatioCalculator._calculate_target_faction_ratio (DT := no_parser) "T" [] = Ok 0%Q
  /\ KillRatioCalculator._calculate_target_faction_ratio "T"
       [("Faction1", KillRatioCalculator.LedgerMissions (DT := no_parser)
                       [("Mission1", KillRatioCalculator.MissionEntry (Some 0))]);
        ("Faction2", KillRatioCalculator.LedgerMissions
                       [("Mission1", KillRatioCalculator.MissionEntry None)])]
     = Ok 0%Q.
Proof.
  split; [|split].
  - apply (proj1 (C6_single_issuer_and_zero_cases (DT := no_parser) "T" _)). reflexivity.
  - apply (proj1 (proj2 (C6_single_issuer_and_zero_cases (DT := no_parser) "T" _))).
    reflexivity.
  - apply (proj2 (proj2 (C6_single_issuer_and_zero_cases (DT := no_parser) "T" _))).
    + reflexivity.
    + simpl. lia.
    + reflexivity.
Defined.

Lemma C7_witness :
  List.length (MissionStack.missions scenario_registry) = 2%nat
  /\ exists summary,
       MissionStack.get_summary scenario_registry = Ok summary
       /\ MissionStack.s_total_reward summary = 86963459.
Proof.
  destruct (C7_three_missions_scenario (DT := no_parser) scenario_1 scenario_2 scenario_3)
    as [_ [_ [_ [Hrun [Hlen [_ [_ [_ [_ [summary [Hs [Hr _]]]]]]]]]]]].
  - repeat split.
  - repeat split.
  - repeat split.
  - unfold scenario_registry. rewrite <- Hrun. split; [exact Hlen|].
    exists summary. split; assumption.
Defined.

Lemma C8_witness :
  MissionStack.process_event sample_bounty scenario_registry = (Ok false, scenario_registry)
  /\ MissionStack.process_event sample_courier scenario_registry
     = (Ok false, scenario_registry)
  /\ MissionStack.process_event (sample_completed 8) scenario_registry
     = (Ok false, scenario_registry).
Proof.
  split; [|split].
  - apply (C8_not_handled_is_noop (DT := no_parser) sample_bounty scenario_registry).
    left. split; [discriminate | reflexivity].
  - apply (C8_not_handled_is_noop (DT := no_parser) sample_courier scenario_registry).
    right. left. split; reflexivity.
  - apply (C8_not_handled_is_noop (DT := no_parser) (sample_completed 8) scenario_registry).
    right. right. split; [reflexivity|]. split; [reflexivity|].
    vm_compute. intros m [<-|[<-|[<-|[]]]]; discriminate.
Defined.

Lemma C10_witness :
  exists fm',
    FactionMissions.add_mission
      (MissionData.__init__ (DT := no_parser) scenario_1)
      (FactionMissions.__init__ "Military Gamers") = (Ok tt, fm')
    /\ FactionMissions.total_current_kills fm' = 30
    /\ FactionMissions.total_initial_kills fm' = 30.
Proof.
  destruct (C10_record_starts_at_full_quota (DT := no_parser) scenario_1
              (FactionMissions.__init__ "Military Gamers"))
    as [_ [_ [_ [_ Hadd]]]].
  destruct Hadd as [fm' [H1 [_ [H2 H3]]]]; [reflexivity|].
  exists fm'. repeat split.
  - exact H1.
  - rewrite H2. reflexivity.
  - rewrite H3. reflexivity.
Defined.

(** * Further properties of the kill-ratio engine *)

Section MoreRatioFacts.
Context {DT : DateTimeLib}.
Import KillRatioCalculator.

Lemma clamp_bounds (x : Q) :
  (0 <= float_max 0 (float_min 1 x) /\ float_max 0 (float_min 1 x) <= 1)%Q.
Proof.
  unfold float_max, float_min.
  destruct (Qle_bool 1 x) eqn:E1.
  - simpl. split; [discriminate | apply Qle_refl].
  - destruct (Qle_bool x 0) eqn:E0.
    + split; [apply Qle_refl | discriminate].
    + split.
      * apply Qnot_lt_le. intro H. apply Qlt_le_weak in H.
        apply Qle_bool_iff in H. congruence.
      * apply Qnot_lt_le. intro H. apply Qlt_le_weak in H.
        apply Qle_bool_iff in H. congruence.
Qed.

Lemma compute_kill_ratio_bounds (d : dict Z) :
  exists r, _compute_kill_ratio d = Ok r /\ (0 <= r)%Q /\ (r <= 1)%Q.
Proof.
  unfold _compute_kill_ratio.
  destruct (Z.of_nat (List.length d) =? 0) eqn:E0.
  { exists 0%Q. repeat split; discriminate. }
  destruct (Z.of_nat (List.length d) =? 1).
  { exists 1%Q. repeat split; discriminate. }
  destruct (py_sum (dict_values d) =? 0) eqn:Ez.
  { exists 0%Q. repeat split; discriminate. }
  destruct d as [|[k x] d]; [discriminate|].
  cbn [dict_values map snd py_max rbind]. unfold int_truediv, float_int_truediv.
  rewrite E0. cbn [rbind].
  match goal with |- context [0 <? ?m] => destruct (0 <? m) eqn:Em end.
  - match goal with |- context [?m =? 0] =>
      destruct (m =? 0) eqn:Em0; [lia|] end.
    cbn [rbind].
    match goal with |- context [0 <? py_sum ?l] =>
      destruct (0 <? py_sum l) eqn:Es; [destruct (py_sum l =? 0) eqn:Es0; [lia|] |] end;
      cbn [rbind]; eexists; (split; [reflexivity | apply clamp_bounds]).
  - cbn [rbind].
    match goal with |- context [0 <? py_sum ?l] =>
      destruct (0 <? py_sum l) eqn:Es; [destruct (py_sum l =? 0) eqn:Es0; [lia|] |] end;
      cbn [rbind]; eexists; (split; [reflexivity | apply clamp_bounds]).
Qed.

Lemma target_ratio_bounds target (factions_data : dict faction_view) :
  exists r,
    _calculate_target_faction_ratio target factions_data = Ok r
    /\ (0 <= r)%Q /\ (r <= 1)%Q.
Proof.
  unfold _calculate_target_faction_ratio.
  destruct (Z.of_nat (List.length factions_data) =? 1).
  - exists 1%Q. repeat split; discriminate.
  - apply compute_kill_ratio_bounds.
Qed.

Lemma ratio_of_eq target (factions_data : dict faction_view) :
  _calculate_target_faction_ratio target factions_data
  = Ok (ratio_of target factions_data).
Proof.
  unfold ratio_of.
  destruct (target_ratio_returns target factions_data) as [r Hr]. now rewrite Hr.
Qed.

(** With a non-positive total the base ratio is 0 and so is the product. *)
Lemma compute_kill_ratio_nonpositive (d : dict Z) :
  zsum (dict_values d) <= 0 ->
  2 <= Z.of_nat (List.length d) ->
  _compute_kill_ratio d = Ok 0%Q.
Proof.
  intros Ht Hn. unfold _compute_kill_ratio. rewrite py_sum_zsum.
  destruct (Z.of_nat (List.length d) =? 0) eqn:E0; [lia|].
  destruct (Z.of_nat (List.length d) =? 1) eqn:E1; [lia|].
  destruct (zsum (dict_values d) =? 0) eqn:Ez; [reflexivity|].
  destruct (dict_values d) as [|x xs] eqn:Ev; [simpl in Ez; discriminate|].
  unfold py_max. cbn [rbind]. unfold int_truediv, float_int_truediv.
  rewrite E0. cbn [rbind].
  destruct (0 <? zsum (x :: xs)) eqn:Et; [lia|].
  match goal with |- context [0 <? ?m] => destruct (0 <? m) eqn:Em end.
  - match goal with |- context [?m =? 0] =>
      destruct (m =? 0) eqn:Em0; [lia|] end.
    cbn [rbind]. reflexivity.
  - cbn [rbind]. reflexivity.
Qed.

Lemma calculate_ratios_loop_value (items : dict (dict faction_view)) (acc : dict Q) :
  calculate_ratios_loop items acc =
  Ok (fold_left
        (fun acc tb => dict_setitem (fst tb) (ratio_of (fst tb) (snd tb)) acc)
        items acc).
Proof.
  revert acc. induction items as [|[t fd] items IH]; intros acc; [reflexivity|].
  cbn [calculate_ratios_loop fold_left fst snd]. rewrite ratio_of_eq. cbn [rbind].
  apply IH.
Qed.

Lemma breakdown_factions_total items details total :
  snd (breakdown_factions items details total)
  = total + zsum (map (fun ff => remaining (snd ff)) items).
Proof.
  revert details total. induction items as [|[f fv] items IH]; intros details total.
  - simpl. lia.
  - cbn [breakdown_factions map zsum fold_right snd]. rewrite IH.
    rewrite faction_remaining_kills_eq. unfold zsum. lia.
Qed.


Lemma breakdown_loop_value (items : dict (dict faction_view)) acc :
  breakdown_loop items acc =
  Ok (fold_left
        (fun acc tb =>
           dict_setitem (fst tb)
             {| ratio := ratio_of (fst tb) (snd tb);
                faction_details := fst (breakdown_factions (snd tb) [] 0);
                total_remaining_kills := snd (breakdown_factions (snd tb) [] 0);
                faction_count := Z.of_nat (List.length (snd tb)) |} acc)
        items acc).
Proof.
  revert acc. induction items as [|[t fd] items IH]; intros acc; [reflexivity|].
  cbn [breakdown_loop fold_left fst snd].
  destruct (breakdown_factions fd [] 0) as [details total] eqn:E.
  rewrite ratio_of_eq. cbn [rbind]. apply IH.
Qed.

Lemma zsum_map_perm (A : Type) (f : A -> Z) (l l' : list A) :
  Permutation l l' -> zsum (map f l) = zsum (map f l').
Proof.
  induction 1; simpl; try lia.
Qed.

Lemma fold_left_setitem_fresh (A V : Type) (h : string * A -> V) (l : dict A)
    (acc : dict V) :
  dict_ok l = true ->
  (forall k, In k (dict_keys l) -> dict_find k acc = None) ->
  fold_left (fun acc kv => dict_setitem (fst kv) (h kv) acc) l acc
  = acc ++ map (fun kv => (fst kv, h kv)) l.
Proof.
  revert acc. induction l as [|[k a] l IH]; intros acc Hok Hnew; simpl.
  - now rewrite app_nil_r.
  - apply dict_ok_cons in Hok. destruct Hok as [Hn Hok].
    rewrite (dict_keys_setitem_new _ k (h (k, a)) acc (Hnew k (or_introl eq_refl))).
    rewrite IH; [now rewrite <- app_assoc | assumption |].
    intros k0 Hin. rewrite dict_find_app_None by (apply Hnew; now right).
    simpl. destruct (String.eqb k0 k) eqn:E; [|reflexivity].
    apply String.eqb_eq in E. subst k0. contradiction.
Qed.

End MoreRatioFacts.

Section MoreRatioProperties.
Context {DT : DateTimeLib}.
Import KillRatioCalculator.


End MoreRatioProperties.



Section BreakdownProperties.
Context {DT : DateTimeLib}.
Import KillRatioCalculator.


(** X5. The order of the missions of an issuing faction matters neither to
    its remaining kills nor to the ratio of its target faction. The
    remaining kills of a faction are the plain sum of the remaining kills of
    its missions (a dict entry without a count reading 0), as the sort that
    precedes the sum has no effect; and two dicts of issuing factions with
    the same names in the same order, whose missions are permutations of
    each other, get the same result from
    [_calculate_target_faction_ratio], raise included, with or without the
    range of binary64. *)
Theorem remaining_kills_ignore_order (target : string)
    (factions_data factions_data' : dict faction_view) :
  Forall2 (fun ff ff' =>
             fst ff = fst ff'
             /\ Permutation (missions_of (snd ff)) (missions_of (snd ff')))
          factions_data factions_data' ->
  Forall2 (fun ff ff' =>
             _calculate_faction_remaining_kills (snd ff)
             = _calculate_faction_remaining_kills (snd ff')
             /\ _calculate_faction_remaining_kills (snd ff)
                = zsum (map remaining_of (missions_of (snd ff))))
          factions_data factions_data'
  /\ _calculate_target_faction_ratio target factions_data
     = _calculate_target_faction_ratio target factions_data'
  /\ Binary64._calculate_target_faction_ratio target factions_data
     = Binary64._calculate_target_faction_ratio target factions_data'.
Proof.
  intros H.
  assert (Hrem : Forall2 (fun ff ff' =>
                            fst ff = fst ff'
                            /\ _calculate_faction_remaining_kills (snd ff)
                               = _calculate_faction_remaining_kills (snd ff'))
                         factions_data factions_data').
  { induction H as [|ff ff' l l' [Hk Hp] _ IH]; constructor; [|exact IH].
    split; [exact Hk|]. rewrite !faction_remaining_kills_eq. unfold remaining.
    now apply zsum_map_perm. }
  assert (Hlen : List.length factions_data = List.length factions_data').
  { clear Hrem. induction H; cbn [List.length]; congruence. }
  assert (Hdict : forall acc,
            fold_left
              (fun acc kv =>
                 dict_setitem (fst kv) (_calculate_faction_remaining_kills (snd kv)) acc)
              factions_data acc
            = fold_left
                (fun acc kv =>
                   dict_setitem (fst kv) (_calculate_faction_remaining_kills (snd kv)) acc)
                factions_data' acc).
  { clear H Hlen. induction Hrem as [|ff ff' l l' [Hk Hr] _ IH]; intros acc;
      [reflexivity|].
    cbn [fold_left]. rewrite Hk, Hr. apply IH. }
  split; [|split].
  - clear Hlen Hdict. induction Hrem as [|ff ff' l l' [Hk Hr] _ IH]; constructor.
    + split; [exact Hr|]. rewrite faction_remaining_kills_eq. reflexivity.
    + apply IH. now inversion H.
  - unfold _calculate_target_faction_ratio. now rewrite Hlen, Hdict.
  - unfold Binary64._calculate_target_faction_ratio. now rewrite Hlen, Hdict.
Qed.

End BreakdownProperties.


Lemma remaining_kills_ignore_order_witness :
  KillRatioCalculator._calculate_target_faction_ratio "T"
    [("Faction1",
      KillRatioCalculator.LedgerSummary (DT := no_parser)
        [("Mission1", KillRatioCalculator.MissionEntry (Some 15));
         ("Mission2", KillRatioCalculator.MissionEntry (Some 40))]);
     ("Faction2",
      KillRatioCalculator.LedgerSummary
        [("Mission1", KillRatioCalculator.MissionEntry (Some 25))])]
  = KillRatioCalculator._calculate_target_faction_ratio "T"
      [("Faction1",
        KillRatioCalculator.LedgerSummary (DT := no_parser)
          [("Mission2", KillRatioCalculator.MissionEntry (Some 40));
           ("Mission1", KillRatioCalculator.MissionEntry (Some 15))]);
       ("Faction2",
        KillRatioCalculator.LedgerSummary
          [("Mission1", KillRatioCalculator.MissionEntry (Some 25))])].
Proof.
  refine (proj1 (proj2 (remaining_kills_ignore_order (DT := no_parser) "T" _ _ _))).
  constructor; [split; [reflexivity | apply perm_swap]|].
  constructor; [split; [reflexivity | apply Permutation_refl]|].
  constructor.
Defined.

(** * Further properties of the ledger *)

Section MoreLedgerFacts.
Context {DT : DateTimeLib}.
Implicit Types (fm : FactionMissions.t) (md : MissionData.t).

Lemma dict_sum_values (V : Type) (m : V -> Z) (d : dict V) :
  zsum (map m (dict_values d)) = dict_sum m d.
Proof. unfold dict_sum, dict_values. now rewrite map_map. Qed.

Lemma dict_sum_app (V : Type) (m : V -> Z) (d1 d2 : dict V) :
  dict_sum m (d1 ++ d2) = dict_sum m d1 + dict_sum m d2.
Proof. unfold dict_sum. now rewrite map_app, zsum_app. Qed.

Lemma dict_sum_store (V : Type) (m : V -> Z) (k : string) (v o : V) (d : dict V) :
  dict_find k d = Some o ->
  dict_sum m (dict_store k v d) = dict_sum m d - m o + m v.
Proof.
  unfold dict_sum. induction d as [|[k0 v0] d IH]; simpl; [discriminate|].
  destruct (String.eqb k k0).
  - intros [= ->]. simpl. lia.
  - intros H. simpl. rewrite (IH H). lia.
Qed.


Lemma dict_sum_setitem (V : Type) (m : V -> Z) (k : string) (v : V) (d : dict V) :
  dict_sum m (dict_setitem k v d)
  = dict_sum m d - match dict_find k d with Some o => m o | None => 0 end + m v.
Proof.
  unfold dict_sum. induction d as [|[k0 v0] d IH]; simpl; [lia|].
  destruct (String.eqb k k0); simpl; [lia | rewrite IH; lia].
Qed.

Lemma zsum_remove_first (A : Type) (g : A -> Z) (p : A -> bool) (l : list A) (r : A) :
  find p l = Some r ->
  zsum (map g (remove_first p l)) = zsum (map g l) - g r.
Proof.
  induction l as [|x l IH]; simpl; [discriminate|].
  destruct (p x).
  - intros [= ->]. lia.
  - intros H. simpl. rewrite (IH H). lia.
Qed.

Lemma zsum_update_first (A : Type) (g : A -> Z) (p : A -> bool) (f : A -> A)
    (l : list A) (r : A) :
  find p l = Some r ->
  zsum (map g (update_first p f l)) = zsum (map g l) - g r + g (f r).
Proof.
  induction l as [|x l IH]; simpl; [discriminate|].
  destruct (p x).
  - intros [= ->]. simpl. lia.
  - intros H. simpl. rewrite (IH H). lia.
Qed.

Lemma values_update_first (p : MissionData.t -> bool) (f : MissionData.t -> MissionData.t)
    (d : dict MissionData.t) :
  dict_values (update_first (fun kv => p (snd kv)) (fun kv => (fst kv, f (snd kv))) d)
  = update_first p f (dict_values d).
Proof.
  induction d as [|[k m] d IH]; simpl; [reflexivity|].
  destruct (p m); simpl; [reflexivity | now rewrite IH].
Qed.

Lemma keys_update_first (V : Type) (p : string * V -> bool) (f : V -> V) (d : dict V) :
  dict_keys (update_first p (fun kv => (fst kv, f (snd kv))) d) = dict_keys d.
Proof.
  induction d as [|[k m] d IH]; simpl; [reflexivity|].
  destruct (p (k, m)); simpl; [reflexivity | now rewrite IH].
Qed.

Lemma dict_store_update_first (V : Type) (p : V -> bool) (f : V -> V)
    (d : dict V) (k : string) (r : V) :
  dict_ok d = true ->
  find (fun kv => p (snd kv)) d = Some (k, r) ->
  dict_store k (f r) d
  = update_first (fun kv => p (snd kv)) (fun kv => (fst kv, f (snd kv))) d.
Proof.
  induction d as [|[k0 v0] d IH]; simpl; [discriminate|].
  intros Hok. apply dict_ok_cons in Hok. destruct Hok as [Hn Hok].
  destruct (p v0) eqn:E.
  - intros [= -> ->]. now rewrite String.eqb_refl.
  - intros Hf. destruct (String.eqb k k0) eqn:Ek.
    + apply String.eqb_eq in Ek. subst k0. exfalso. apply Hn.
      apply find_some in Hf. destruct Hf as [Hin _].
      apply (in_map fst) in Hin. exact Hin.
    + now rewrite IH.
Qed.

(** The state a ledger is left in by [update_mission_kills] when the record
    found is [r], held under [key]. *)
Lemma update_mission_kills_loop_eq mission_id new_kill_count items fm :
  FactionMissions.update_mission_kills_loop mission_id new_kill_count items fm =
  match find (fun kv => has_id mission_id (snd kv)) items with
  | None => (Ok false, fm)
  | Some (k, r) =>
      (Ok true,
       FactionMissions.add_total_current_kills
         (new_kill_count - MissionData.current_kill_count r)
         (FactionMissions.set_missions
            (dict_store k (MissionData.update_kill_count new_kill_count r)
               (FactionMissions.missions fm)) fm))
  end.
Proof.
  induction items as [|[k m] items IH]; simpl; [reflexivity|].
  unfold has_id at 1. simpl.
  destruct (MissionData.mission_id m =? mission_id); [reflexivity | exact IH].
Qed.

Lemma update_mission_kills_spec mission_id new_kill_count fm :
  ledger_ok fm = true ->
  FactionMissions.update_mission_kills mission_id new_kill_count fm =
  match first_record mission_id fm with
  | None => (Ok false, fm)
  | Some r => (Ok true, ledger_updated mission_id new_kill_count r fm)
  end.
Proof.
  intros Hok. unfold FactionMissions.update_mission_kills, bind, gets.
  rewrite update_mission_kills_loop_eq. unfold first_record. rewrite find_values.
  destruct (find (fun kv => has_id mission_id (snd kv)) (FactionMissions.missions fm))
    as [[k r]|] eqn:E; simpl; [|reflexivity].
  unfold ledger_updated, FactionMissions.add_total_current_kills,
    FactionMissions.set_missions. simpl.
  now rewrite (dict_store_update_first _ (has_id mission_id)
                 (MissionData.update_kill_count new_kill_count) _ _ _ Hok E).
Qed.

Lemma ledger_updated_ok mission_id new_kill_count r fm :
  ledger_ok fm = true -> ledger_ok (ledger_updated mission_id new_kill_count r fm) = true.
Proof.
  unfold ledger_ok, dict_ok. simpl. now rewrite keys_update_first.
Qed.

Lemma ledger_updated_consistent mission_id new_kill_count r fm :
  first_record mission_id fm = Some r ->
  ledger_consistent fm ->
  ledger_consistent (ledger_updated mission_id new_kill_count r fm).
Proof.
  intros Hr [Hi [Hc Hw]]. unfold ledger_consistent, ledger_updated,
    sum_initial, sum_current, sum_reward in *. simpl.
  rewrite values_update_first.
  unfold first_record in Hr.
  rewrite !(zsum_update_first _ _ _ _ _ _ Hr). simpl. repeat split; lia.
Qed.

Lemma ledger_without_consistent mission_id r fm :
  first_record mission_id fm = Some r ->
  ledger_consistent fm ->
  ledger_consistent (ledger_without mission_id r fm).
Proof.
  intros Hr [Hi [Hc Hw]]. unfold ledger_consistent, ledger_without,
    sum_initial, sum_current, sum_reward in *. simpl.
  rewrite values_remove_first.
  unfold first_record in Hr.
  rewrite !(zsum_remove_first _ _ _ _ _ Hr). repeat split; lia.
Qed.

Lemma add_mission_new_consistent md fm :
  dict_find (MissionData.localised_name md) (FactionMissions.missions fm) = None ->
  ledger_consistent fm ->
  ledger_consistent (snd (FactionMissions.add_mission md fm)).
Proof.
  intros Hnew [Hi [Hc Hw]]. rewrite (add_mission_new md fm Hnew).
  unfold ledger_consistent, sum_initial, sum_current, sum_reward in *. simpl.
  unfold dict_values. rewrite !map_app, !zsum_app. simpl.
  unfold dict_values in Hi, Hc, Hw. repeat split; lia.
Qed.

End MoreLedgerFacts.

Section MoreLedgerProperties.
Context {DT : DateTimeLib}.
Implicit Types (fm : FactionMissions.t) (md : MissionData.t).

(** X6. [FactionMissions.update_mission_kills]: when no record of the ledger
    has the id it returns False and leaves the ledger as it was; otherwise it
    returns True, sets the current_kill_count of the first record with that
    id and of no other record, moves total_current_kills by the difference
    between the new and the old count, and leaves the keys, their order,
    total_initial_kills, total_reward and faction_name alone. *)
Theorem ledger_update_sets_first_match (mission_id new_kill_count : Z) fm :
  (first_record mission_id fm = None ->
   FactionMissions.update_mission_kills mission_id new_kill_count fm = (Ok false, fm))
  /\ (ledger_ok fm = true ->
      forall r, first_record mission_id fm = Some r ->
      exists fm',
        FactionMissions.update_mission_kills mission_id new_kill_count fm = (Ok true, fm')
        /\ dict_keys (FactionMissions.missions fm') = dict_keys (FactionMissions.missions fm)
        /\ dict_values (FactionMissions.missions fm')
           = update_first (has_id mission_id)
               (MissionData.update_kill_count new_kill_count)
               (dict_values (FactionMissions.missions fm))
        /\ FactionMissions.total_current_kills fm'
           = FactionMissions.total_current_kills fm
             + (new_kill_count - MissionData.current_kill_count r)
        /\ FactionMissions.total_initial_kills fm' = FactionMissions.total_initial_kills fm
        /\ FactionMissions.total_reward fm' = FactionMissions.total_reward fm
        /\ FactionMissions.faction_name fm' = FactionMissions.faction_name fm).
Proof.
  split.
  - intros Hnone. unfold FactionMissions.update_mission_kills, bind, gets.
    rewrite update_mission_kills_loop_eq. unfold first_record in Hnone.
    rewrite find_values in Hnone.
    destruct (find (fun kv => has_id mission_id (snd kv)) (FactionMissions.missions fm))
      as [[k r]|]; [discriminate | reflexivity].
  - intros Hok r Hr. exists (ledger_updated mission_id new_kill_count r fm).
    rewrite (update_mission_kills_spec mission_id new_kill_count fm Hok), Hr.
    split; [reflexivity|]. simpl.
    split; [apply keys_update_first|]. split; [apply values_update_first|].
    repeat split.
Qed.

(** X7. The aggregates of a ledger stay the sums over its records: a fresh
    ledger has this property, and [add_mission] under a new key,
    [update_mission_kills] and [remove_mission] keep it. *)
Theorem ledger_aggregates_stay_sums fm :
  (forall faction_name, ledger_consistent (FactionMissions.__init__ faction_name))
  /\ (ledger_consistent fm ->
      (forall md,
         dict_find (MissionData.localised_name md) (FactionMissions.missions fm) = None ->
         ledger_consistent (snd (FactionMissions.add_mission md fm)))
      /\ (ledger_ok fm = true ->
          (forall mission_id new_kill_count,
             ledger_consistent
               (snd (FactionMissions.update_mission_kills mission_id new_kill_count fm)))
          /\ (forall mission_id,
                ledger_consistent (snd (FactionMissions.remove_mission mission_id fm))))).
Proof.
  split; [intros name; repeat split|].
  intros Hc. split.
  - intros md Hnew. now apply add_mission_new_consistent.
  - intros Hok. split.
    + intros mission_id new_kill_count.
      rewrite (update_mission_kills_spec mission_id new_kill_count fm Hok).
      destruct (first_record mission_id fm) as [r|] eqn:E; simpl; [|assumption].
      now apply ledger_updated_consistent.
    + intros mission_id. rewrite (remove_mission_spec mission_id fm Hok).
      destruct (first_record mission_id fm) as [r|] eqn:E; simpl; [|assumption].
      now apply ledger_without_consistent.
Qed.

(** X8. [add_mission] under a key the ledger already holds lets
    total_current_kills drift from the sum over the records: the record takes
    the incoming count and the aggregate does not move, so the aggregate
    exceeds the sum by the old count minus the incoming one. A ledger whose
    aggregates were the sums keeps that property only when the two counts
    are equal. *)
Theorem add_existing_key_drifts md fm existing :
  dict_find (MissionData.localised_name md) (FactionMissions.missions fm) = Some existing ->
  let fm' := snd (FactionMissions.add_mission md fm) in
  FactionMissions.total_current_kills fm'
  - sum_current (dict_values (FactionMissions.missions fm'))
  = FactionMissions.total_current_kills fm
    - sum_current (dict_values (FactionMissions.missions fm))
    + (MissionData.current_kill_count existing - MissionData.current_kill_count md)
  /\ (ledger_consistent fm ->
      (ledger_consistent fm' <->
       MissionData.current_kill_count md = MissionData.current_kill_count existing)).
Proof.
  intros H. cbv zeta. rewrite (add_mission_existing md fm existing H). simpl.
  assert (Hi : sum_initial (dict_values (dict_store (MissionData.localised_name md)
                 (MissionData.update_kill_count (MissionData.current_kill_count md) existing)
                 (FactionMissions.missions fm)))
               = sum_initial (dict_values (FactionMissions.missions fm))).
  { unfold sum_initial. rewrite !dict_sum_values, (dict_sum_store _ _ _ _ _ _ H).
    simpl. lia. }
  assert (Hw : sum_reward (dict_values (dict_store (MissionData.localised_name md)
                 (MissionData.update_kill_count (MissionData.current_kill_count md) existing)
                 (FactionMissions.missions fm)))
               = sum_reward (dict_values (FactionMissions.missions fm))).
  { unfold sum_reward. rewrite !dict_sum_values, (dict_sum_store _ _ _ _ _ _ H).
    simpl. lia. }
  assert (Hc : sum_current (dict_values (dict_store (MissionData.localised_name md)
                 (MissionData.update_kill_count (MissionData.current_kill_count md) existing)
                 (FactionMissions.missions fm)))
               = sum_current (dict_values (FactionMissions.missions fm))
                 - MissionData.current_kill_count existing
                 + MissionData.current_kill_count md).
  { unfold sum_current. rewrite !dict_sum_values, (dict_sum_store _ _ _ _ _ _ H).
    simpl. lia. }
  split; [lia|].
  intros [Ci [Cc Cw]]. unfold ledger_consistent. simpl. rewrite Hi, Hw, Hc.
  split.
  - intros [_ [Hcur _]]. lia.
  - intros Heq. repeat split; lia.
Qed.

End MoreLedgerProperties.

Lemma ledger_update_sets_first_match_witness :
  exists fm',
    FactionMissions.update_mission_kills 1 12
      (snd (add_all
              [MissionData.__init__ (sample_accepted 1 "T" "F" "Kill A" 30 100);
               MissionData.__init__ (sample_accepted 2 "T" "F" "Kill B" 45 200)]
              (FactionMissions.__init__ (DT := no_parser) "F")))
    = (Ok true, fm')
    /\ FactionMissions.total_current_kills fm' = 57
    /\ FactionMissions.total_initial_kills fm' = 75.
Proof.
  destruct (proj2 (ledger_update_sets_first_match (DT := no_parser) 1 12
                     (snd (add_all
                             [MissionData.__init__ (sample_accepted 1 "T" "F" "Kill A" 30 100);
                              MissionData.__init__ (sample_accepted 2 "T" "F" "Kill B" 45 200)]
                             (FactionMissions.__init__ "F"))))
              eq_refl
              (MissionData.__init__ (sample_accepted 1 "T" "F" "Kill A" 30 100))
              eq_refl)
    as [fm' [Hu [_ [_ [Hc [Hi _]]]]]].
  exists fm'. split; [exact Hu|]. split.
  - rewrite Hc. reflexivity.
  - rewrite Hi. reflexivity.
Defined.

Lemma ledger_aggregates_stay_sums_witness :
  ledger_consistent
    (snd (FactionMissions.remove_mission 2
            (snd (add_all
                    [MissionData.__init__ (sample_accepted 1 "T" "F" "Kill A" 30 100);
                     MissionData.__init__ (sample_accepted 2 "T" "F" "Kill B" 45 200)]
                    (FactionMissions.__init__ (DT := no_parser) "F"))))).
Proof.
  assert (Hc : ledger_consistent
                 (snd (add_all
                         [MissionData.__init__ (sample_accepted 1 "T" "F" "Kill A" 30 100);
                          MissionData.__init__ (sample_accepted 2 "T" "F" "Kill B" 45 200)]
                         (FactionMissions.__init__ (DT := no_parser) "F"))))
    by (vm_compute; repeat split; reflexivity).
  assert (Hok : ledger_ok
                  (snd (add_all
                          [MissionData.__init__ (sample_accepted 1 "T" "F" "Kill A" 30 100);
                           MissionData.__init__ (sample_accepted 2 "T" "F" "Kill B" 45 200)]
                          (FactionMissions.__init__ (DT := no_parser) "F"))) = true)
    by (vm_compute; reflexivity).
  apply (proj2 (proj2 (proj2 (ledger_aggregates_stay_sums (DT := no_parser) _) Hc) Hok)).
Defined.

Lemma add_existing_key_drifts_witness :
  FactionMissions.total_current_kills
    (snd (FactionMissions.add_mission
            (MissionData.__init__ (sample_accepted 7 "T" "F" "Kill A" 12 500))
            (snd (FactionMissions.add_mission
                    (MissionData.__init__ (sample_accepted 4 "T" "F" "Kill A" 30 900))
                    (FactionMissions.__init__ (DT := no_parser) "F")))))
  - sum_current
      (dict_values
         (FactionMissions.missions
            (snd (FactionMissions.add_mission
                    (MissionData.__init__ (sample_accepted 7 "T" "F" "Kill A" 12 500))
                    (snd (FactionMissions.add_mission
                            (MissionData.__init__ (sample_accepted 4 "T" "F" "Kill A" 30 900))
                            (FactionMissions.__init__ (DT := no_parser) "F")))))))
  = 18.
Proof.
  rewrite (proj1 (add_existing_key_drifts (DT := no_parser)
                    (MissionData.__init__ (sample_accepted 7 "T" "F" "Kill A" 12 500))
                    (snd (FactionMissions.add_mission
                            (MissionData.__init__ (sample_accepted 4 "T" "F" "Kill A" 30 900))
                            (FactionMissions.__init__ "F")))
                    (MissionData.__init__ (sample_accepted 4 "T" "F" "Kill A" 30 900))
                    eq_refl)).
  reflexivity.
Defined.

(** * Further properties of the registry *)

Section MoreStackFacts.
Context {DT : DateTimeLib}.
Implicit Types (st : MissionStack.t) (fm : FactionMissions.t).

Lemma process_accept_eq event st :
  is_massacre_accept event = true ->
  MissionStack.process_event event st
  = (Ok true, accept_spec (MissionData.__init__ event) st).
Proof.
  unfold is_massacre_accept. rewrite andb_true_iff. intros [Hev Hname].
  unfold MissionStack.process_event, MissionStack.dispatch, try_except.
  rewrite Hev. now rewrite (handle_accepted_eq event st Hname).
Qed.

Lemma lookup_ledger_get t f st :
  lookup_ledger t f st
  = dict_find f (get (dict_find t (MissionStack.missions st)) []).
Proof.
  unfold lookup_ledger. now destruct (dict_find t (MissionStack.missions st)).
Qed.

(** The ledger an accepted mission is added to. *)
Lemma accept_spec_sum (m : FactionMissions.t -> Z) md st :
  (forall name, m (FactionMissions.__init__ name) = 0) ->
  let fm := get (lookup_ledger (MissionData.target_faction md) (MissionData.faction md) st)
              (FactionMissions.__init__ (MissionData.faction md)) in
  registry_sum m (accept_spec md st)
  = registry_sum m st - m fm + m (snd (FactionMissions.add_mission md fm)).
Proof.
  intros Hm. cbv zeta. rewrite lookup_ledger_get.
  unfold registry_sum, accept_spec. cbn [MissionStack.missions].
  rewrite !dict_sum_setitem.
  destruct (dict_find (MissionData.target_faction md) (MissionStack.missions st))
    as [b|]; cbn [get].
  - destruct (dict_find (MissionData.faction md) b) as [fm|]; cbn [get].
    + lia.
    + rewrite Hm. lia.
  - change (dict_find (MissionData.faction md) (@nil (string * FactionMissions.t)))
      with (@None FactionMissions.t).
    cbn [get]. rewrite Hm. change (dict_sum m []) with 0. lia.
Qed.

Lemma to_dict_returns fm :
  exists d,
    FactionMissions.to_dict fm = Ok d
    /\ FactionMissions.d_total_initial_kills d = FactionMissions.total_initial_kills fm
    /\ FactionMissions.d_total_current_kills d = FactionMissions.total_current_kills fm
    /\ FactionMissions.d_total_reward d = FactionMissions.total_reward fm
    /\ Z.of_nat (List.length (FactionMissions.d_missions d)) = record_count fm.
Proof.
  unfold FactionMissions.to_dict, FactionMissions.get_progress_percentage, int_truediv.
  destruct (FactionMissions.total_initial_kills fm =? 0); cbn [rbind];
    eexists; (split; [reflexivity|]); simpl; unfold record_count;
    rewrite length_map; repeat split.
Qed.

Lemma summarize_factions_totals items ts :
  exists ts',
    MissionStack.summarize_factions items ts = Ok ts'
    /\ MissionStack.ts_total_initial_kills ts'
       = MissionStack.ts_total_initial_kills ts
         + dict_sum FactionMissions.total_initial_kills items
    /\ MissionStack.ts_total_current_kills ts'
       = MissionStack.ts_total_current_kills ts
         + dict_sum FactionMissions.total_current_kills items
    /\ MissionStack.ts_total_reward ts'
       = MissionStack.ts_total_reward ts + dict_sum FactionMissions.total_reward items
    /\ MissionStack.ts_total_missions ts'
       = MissionStack.ts_total_missions ts + dict_sum record_count items.
Proof.
  revert ts. induction items as [|[f fm] items IH]; intros ts.
  - exists ts. unfold dict_sum. simpl. repeat split; lia.
  - cbn [MissionStack.summarize_factions].
    destruct (to_dict_returns fm) as [d [Hd [Hi [Hc [Hw Hn]]]]].
    rewrite Hd. cbn [rbind].
    match goal with |- context [MissionStack.summarize_factions items ?t] =>
      destruct (IH t) as [ts' [Hs [Ei [Ec [Ew En]]]]] end.
    exists ts'. split; [exact Hs|]. simpl in Ei, Ec, Ew, En.
    unfold dict_sum in *. simpl. repeat split; lia.
Qed.

Lemma summarize_targets_totals items s :
  exists s',
    MissionStack.summarize_targets items s = Ok s'
    /\ MissionStack.s_total_initial_kills s'
       = MissionStack.s_total_initial_kills s
         + dict_sum (dict_sum FactionMissions.total_initial_kills) items
    /\ MissionStack.s_total_current_kills s'
       = MissionStack.s_total_current_kills s
         + dict_sum (dict_sum FactionMissions.total_current_kills) items
    /\ MissionStack.s_total_reward s'
       = MissionStack.s_total_reward s
         + dict_sum (dict_sum FactionMissions.total_reward) items
    /\ MissionStack.s_total_missions s'
       = MissionStack.s_total_missions s + dict_sum (dict_sum record_count) items.
Proof.
  revert s. induction items as [|[t b] items IH]; intros s.
  - exists s. unfold dict_sum. simpl. repeat split; lia.
  - cbn [MissionStack.summarize_targets].
    match goal with |- context [MissionStack.summarize_factions b ?t0] =>
      destruct (summarize_factions_totals b t0) as [ts [Hts [Hi [Hc [Hw Hn]]]]] end.
    rewrite Hts. cbn [rbind].
    match goal with |- context [MissionStack.summarize_targets items ?t] =>
      destruct (IH t) as [s' [Hs [Ei [Ec [Ew En]]]]] end.
    exists s'. split; [exact Hs|]. simpl in Ei, Ec, Ew, En, Hi, Hc, Hw, Hn.
    unfold dict_sum in *. simpl. repeat split; lia.
Qed.

Lemma get_summary_totals st :
  exists s,
    MissionStack.get_summary st = Ok s
    /\ MissionStack.s_total_initial_kills s
       = registry_sum FactionMissions.total_initial_kills st
    /\ MissionStack.s_total_current_kills s
       = registry_sum FactionMissions.total_current_kills st
    /\ MissionStack.s_total_reward s = registry_sum FactionMissions.total_reward st
    /\ MissionStack.s_total_missions s = registry_sum record_count st.
Proof.
  unfold MissionStack.get_summary.
  match goal with |- context [MissionStack.summarize_targets _ ?s0] =>
    destruct (summarize_targets_totals (MissionStack.missions st) s0)
      as [s [Hs [Hi [Hc [Hw Hn]]]]] end.
  exists s. split; [exact Hs|]. simpl in Hi, Hc, Hw, Hn. unfold registry_sum.
  repeat split; lia.
Qed.

Lemma dict_sum_cons (V : Type) (m : V -> Z) (k : string) (v : V) (d : dict V) :
  dict_sum m ((k, v) :: d) = m v + dict_sum m d.
Proof. reflexivity. Qed.

Lemma registry_sum_count st :
  registry_sum record_count st = Z.of_nat (List.length (all_records st)).
Proof.
  unfold registry_sum, all_records. destruct st as [reg]. cbn [MissionStack.missions].
  induction reg as [|[t b] reg IH]; [reflexivity|].
  rewrite dict_sum_cons, IH. cbn [flat_map snd].
  rewrite length_app, Nat2Z.inj_add. f_equal.
  clear IH. unfold bucket_records.
  induction b as [|[f fm] b IHb]; [reflexivity|].
  rewrite dict_sum_cons, IHb. cbn [flat_map snd].
  rewrite length_app, Nat2Z.inj_add. f_equal.
  unfold record_count, dict_values. now rewrite length_map.
Qed.


Lemma registry_sum_ledgers (m : FactionMissions.t -> Z) st :
  registry_sum m st = zsum (map m (all_ledgers st)).
Proof.
  unfold registry_sum, all_ledgers. destruct st as [reg]. cbn [MissionStack.missions].
  induction reg as [|[t b] reg IH]; [reflexivity|].
  rewrite dict_sum_cons, IH. cbn [flat_map snd]. rewrite map_app, zsum_app.
  f_equal. symmetry. apply dict_sum_values.
Qed.

End MoreStackFacts.

Section MoreStackFacts2.
Context {DT : DateTimeLib}.
Implicit Types (st : MissionStack.t) (fm : FactionMissions.t).

Lemma removal_kind_not_accept (event_type : string) :
  is_removal_kind event_type = true -> String.eqb event_type "MissionAccepted" = false.
Proof.
  intros H. destruct (String.eqb event_type "MissionAccepted") eqn:E; [|reflexivity].
  apply String.eqb_eq in E. rewrite E in H. discriminate.
Qed.

Lemma process_removal_eq event st :
  registry_ok st = true ->
  is_removal_kind (get (ev_event event) "") = true ->
  MissionStack.process_event event st
  = (Ok (match first_match (get (ev_MissionID event) 0) st with
         | Some _ => true | None => false end),
     removal_spec (get (ev_MissionID event) 0) st).
Proof.
  intros Hok Hk. rewrite (process_event_eq event st Hok). unfold process_spec.
  now rewrite (removal_kind_not_accept _ Hk), Hk.
Qed.

Lemma first_match_None_ids mission_id st :
  ~ In mission_id (all_ids st) -> first_match mission_id st = None.
Proof.
  intros H. apply first_match_None. intros m Hin Heq. apply H.
  unfold all_ids. rewrite <- Heq. now apply in_map.
Qed.

Lemma flat_map_dict_store (V B : Type) (h : string * V -> list B) (k : string)
    (v o : V) (d : dict V) :
  dict_find k d = Some o -> h (k, v) = h (k, o) ->
  flat_map h (dict_store k v d) = flat_map h d.
Proof.
  intros Hf Hh. induction d as [|[k0 v0] d IH]; simpl in *; [discriminate|].
  destruct (String.eqb k k0) eqn:E.
  - apply String.eqb_eq in E. subst k0. injection Hf as ->. simpl. now rewrite Hh.
  - simpl. now rewrite (IH Hf).
Qed.

Lemma map_flat_map (A B C : Type) (g : B -> C) (h : A -> list B) (l : list A) :
  map g (flat_map h l) = flat_map (fun x => map g (h x)) l.
Proof.
  induction l as [|x l IH]; simpl; [reflexivity|]. now rewrite map_app, IH.
Qed.

Lemma flat_map_singleton (A B : Type) (f : A -> B) (l : list A) :
  flat_map (fun x => [f x]) l = map f l.
Proof. induction l as [|x l IH]; simpl; [reflexivity | now rewrite IH]. Qed.

(** The ledger an accepted mission goes to, and what the registry holds. *)
Lemma accept_target_ledger md st :
  let t := MissionData.target_faction md in
  let f := MissionData.faction md in
  lookup_ledger t f (accept_spec md st)
  = Some (snd (FactionMissions.add_mission md
                 (get (lookup_ledger t f st) (FactionMissions.__init__ f)))).
Proof.
  cbv zeta. rewrite (lookup_ledger_get _ _ st).
  unfold lookup_ledger, accept_spec. cbn [MissionStack.missions].
  now rewrite !dict_find_setitem_same.
Qed.

Lemma accept_other_ledger md st t f :
  (t, f) <> (MissionData.target_faction md, MissionData.faction md) ->
  lookup_ledger t f (accept_spec md st) = lookup_ledger t f st.
Proof.
  intros Hne. unfold lookup_ledger, accept_spec. cbn [MissionStack.missions].
  destruct (String.eqb t (MissionData.target_faction md)) eqn:Et.
  - apply String.eqb_eq in Et. subst t. rewrite dict_find_setitem_same.
    assert (Hf : f <> MissionData.faction md) by (intros ->; now apply Hne).
    rewrite (dict_find_setitem_other _ _ _ _ _ Hf).
    now destruct (dict_find (MissionData.target_faction md) (MissionStack.missions st)).
  - apply String.eqb_neq in Et. now rewrite (dict_find_setitem_other _ _ _ _ _ Et).
Qed.

(** With a key collision the registry keeps every projection of its records
    that [update_kill_count] keeps. *)
Lemma accept_collision_records (B : Type) (g : MissionData.t -> B) md st fm existing :
  (forall c r, g (MissionData.update_kill_count c r) = g r) ->
  lookup_ledger (MissionData.target_faction md) (MissionData.faction md) st = Some fm ->
  dict_find (MissionData.localised_name md) (FactionMissions.missions fm) = Some existing ->
  map g (all_records (accept_spec md st)) = map g (all_records st).
Proof.
  intros Hg Hl Hk. unfold lookup_ledger in Hl.
  destruct (dict_find (MissionData.target_faction md) (MissionStack.missions st))
    as [b|] eqn:Et; [|discriminate].
  unfold accept_spec. rewrite Et. cbn [get]. rewrite Hl. cbn [get].
  rewrite (add_mission_existing md fm existing Hk). cbn [snd].
  rewrite <- !dict_store_is_setitem by congruence.
  unfold all_records. cbn [MissionStack.missions]. rewrite !map_flat_map.
  apply (flat_map_dict_store _ _ _ _ _ b); [exact Et|]. cbn [snd].
  unfold bucket_records. rewrite !map_flat_map.
  apply (flat_map_dict_store _ _ _ _ _ fm); [exact Hl|]. cbn [snd FactionMissions.set_missions FactionMissions.missions].
  unfold dict_values. rewrite !map_map, <- !flat_map_singleton.
  apply (flat_map_dict_store _ _ _ _ _ existing); [exact Hk|]. cbn [snd].
  now rewrite Hg.
Qed.

Lemma key_taken_false_new event st :
  key_taken event st = false ->
  dict_find (MissionData.localised_name (MissionData.__init__ event))
    (FactionMissions.missions
       (get (lookup_ledger (MissionData.target_faction (MissionData.__init__ event))
               (MissionData.faction (MissionData.__init__ event)) st)
            (FactionMissions.__init__ (MissionData.faction (MissionData.__init__ event)))))
  = None.
Proof.
  unfold key_taken, dict_contains.
  cbn [MissionData.__init__ MissionData.localised_name MissionData.target_faction
       MissionData.faction].
  destruct (lookup_ledger _ _ st) as [fm|]; cbn [get]; [|reflexivity].
  now destruct (dict_find _ (FactionMissions.missions fm)).
Qed.

Lemma key_taken_true_existing event st :
  key_taken event st = true ->
  exists fm existing,
    lookup_ledger (MissionData.target_faction (MissionData.__init__ event))
      (MissionData.faction (MissionData.__init__ event)) st = Some fm
    /\ dict_find (MissionData.localised_name (MissionData.__init__ event))
         (FactionMissions.missions fm) = Some existing.
Proof.
  unfold key_taken, dict_contains.
  cbn [MissionData.__init__ MissionData.localised_name MissionData.target_faction
       MissionData.faction].
  destruct (lookup_ledger _ _ st) as [fm|]; [|discriminate].
  destruct (dict_find _ (FactionMissions.missions fm)) as [existing|] eqn:E;
    [|discriminate].
  intros _. exists fm, existing. now split.
Qed.

End MoreStackFacts2.

Section MoreStackFacts3.
Context {DT : DateTimeLib}.
Implicit Types (st : MissionStack.t) (fm : FactionMissions.t).

Lemma dict_find_app_other (V : Type) (k k0 : string) (v : V) (d : dict V) :
  k0 <> k -> dict_find k0 (d ++ [(k, v)]) = dict_find k0 d.
Proof.
  intros Hne. induction d as [|[k1 v1] d IH]; simpl.
  - apply String.eqb_neq in Hne. now rewrite Hne.
  - now rewrite IH.
Qed.

Lemma dict_find_app_Some (V : Type) (k : string) (v : V) (d1 d2 : dict V) :
  dict_find k d1 = Some v -> dict_find k (d1 ++ d2) = Some v.
Proof.
  induction d1 as [|[k0 v0] d1 IH]; simpl; [discriminate|].
  destruct (String.eqb k k0); [trivial | exact IH].
Qed.

(** What [add_mission] leaves under each key of the ledger. *)
Lemma add_mission_find md fm k :
  dict_find k (FactionMissions.missions (snd (FactionMissions.add_mission md fm)))
  = if String.eqb k (MissionData.localised_name md) then
      Some (match dict_find k (FactionMissions.missions fm) with
            | Some existing =>
                MissionData.update_kill_count (MissionData.current_kill_count md) existing
            | None => md
            end)
    else dict_find k (FactionMissions.missions fm).
Proof.
  destruct (dict_find (MissionData.localised_name md) (FactionMissions.missions fm))
    as [existing|] eqn:E.
  - rewrite (add_mission_existing md fm existing E).
    cbn [snd FactionMissions.set_missions FactionMissions.missions].
    destruct (String.eqb k (MissionData.localised_name md)) eqn:Ek.
    + apply String.eqb_eq in Ek. subst k. rewrite E.
      now rewrite dict_find_store_same, E.
    + apply String.eqb_neq in Ek. now apply dict_find_store_other.
  - rewrite (add_mission_new md fm E). cbn [snd FactionMissions.missions].
    destruct (String.eqb k (MissionData.localised_name md)) eqn:Ek.
    + apply String.eqb_eq in Ek. subst k. rewrite E.
      rewrite (dict_find_app_None _ _ _ _ E). simpl. now rewrite String.eqb_refl.
    + apply String.eqb_neq in Ek. now apply dict_find_app_other.
Qed.

Lemma lookup_ledger_listed t f fm st :
  lookup_ledger t f st = Some fm ->
  In t (MissionStack.get_target_factions st)
  /\ In f (MissionStack.get_issuing_factions t st).
Proof.
  unfold lookup_ledger, MissionStack.get_target_factions,
    MissionStack.get_issuing_factions.
  destruct (dict_find t (MissionStack.missions st)) as [b|] eqn:E; [|discriminate].
  intros H. split.
  - exact (dict_find_Some_keys _ _ _ _ E).
  - exact (dict_find_Some_keys _ _ _ _ H).
Qed.

End MoreStackFacts3.

Section SummaryProperties.
Context {DT : DateTimeLib}.
Implicit Types (st : MissionStack.t) (fm : FactionMissions.t).



(** X12. A massacre mission accepted under a key that its ledger already
    holds is processed (True is returned), but no record is added: the ids,
    rewards and initial kill counts of the records stay as they were, the
    record under the key takes the new kill count, and all four totals of
    the summary are unchanged. *)
Theorem accept_taken_key_adds_no_record event st s :
  is_massacre_accept event = true ->
  key_taken event st = true ->
  MissionStack.get_summary st = Ok s ->
  let st' := snd (MissionStack.process_event event st) in
  fst (MissionStack.process_event event st) = Ok true
  /\ all_ids st' = all_ids st
  /\ map MissionData.initial_kill_count (all_records st')
     = map MissionData.initial_kill_count (all_records st)
  /\ map MissionData.reward (all_records st') = map MissionData.reward (all_records st)
  /\ (exists existing,
        lookup_record (get (ev_TargetFaction event) "") (get (ev_Faction event) "")
          (get (ev_LocalisedName event) "") st = Some existing
        /\ lookup_record (get (ev_TargetFaction event) "") (get (ev_Faction event) "")
             (get (ev_LocalisedName event) "") st'
           = Some (MissionData.update_kill_count (get (ev_KillCount event) 0) existing))
  /\ exists s',
       MissionStack.get_summary st' = Ok s'
       /\ MissionStack.s_total_missions s' = MissionStack.s_total_missions s
       /\ MissionStack.s_total_initial_kills s' = MissionStack.s_total_initial_kills s
       /\ MissionStack.s_total_current_kills s' = MissionStack.s_total_current_kills s
       /\ MissionStack.s_total_reward s' = MissionStack.s_total_reward s.
Proof.
  intros Hacc Htaken Hs0. cbv zeta.
  rewrite (process_accept_eq event st Hacc). cbn [fst snd].
  destruct (key_taken_true_existing event st Htaken) as [fm [existing [Hl Hk]]].
  set (md := MissionData.__init__ event) in *.
  split; [reflexivity|].
  split; [apply (accept_collision_records _ MissionData.mission_id md st fm existing);
          trivial|].
  split; [apply (accept_collision_records _ MissionData.initial_kill_count md st fm
                   existing); trivial|].
  split; [apply (accept_collision_records _ MissionData.reward md st fm existing);
          trivial|].
  split.
  - exists existing. unfold lookup_record.
    change (get (ev_TargetFaction event) "") with (MissionData.target_faction md).
    change (get (ev_Faction event) "") with (MissionData.faction md).
    change (get (ev_LocalisedName event) "") with (MissionData.localised_name md).
    change (get (ev_KillCount event) 0) with (MissionData.current_kill_count md).
    rewrite Hl. split; [exact Hk|].
    rewrite (accept_target_ledger md st), Hl. cbn [get].
    now rewrite add_mission_find, String.eqb_refl, Hk.
  - destruct (get_summary_totals st) as [s0 [Hs [Hi [Hc [Hw Hn]]]]].
    rewrite Hs0 in Hs. injection Hs as <-.
    destruct (get_summary_totals (accept_spec md st))
      as [s' [Hs' [Hi' [Hc' [Hw' Hn']]]]].
    exists s'. split; [exact Hs'|].
    rewrite Hi', Hc', Hw', Hn', Hi, Hc, Hw, Hn.
    rewrite !accept_spec_sum by reflexivity. rewrite Hl. cbn [get].
    rewrite (add_mission_existing md fm existing Hk). cbn [snd]. unfold record_count.
    cbn [FactionMissions.set_missions FactionMissions.missions
         FactionMissions.total_initial_kills FactionMissions.total_current_kills
         FactionMissions.total_reward].
    rewrite dict_store_length. repeat split; lia.
Qed.

End SummaryProperties.



Lemma accept_taken_key_adds_no_record_witness :
  all_ids
    (snd (MissionStack.process_event (sample_accepted 2 "T" "F" "Kill pirates" 12 500)
            (run [Process (sample_accepted 1 "T" "F" "Kill pirates" 30 900)]
               (MissionStack.__init__ (DT := no_parser)))))
  = [1]
  /\ exists s',
       MissionStack.get_summary
         (snd (MissionStack.process_event (sample_accepted 2 "T" "F" "Kill pirates" 12 500)
                 (run [Process (sample_accepted 1 "T" "F" "Kill pirates" 30 900)]
                    (MissionStack.__init__ (DT := no_parser)))))
       = Ok s'
       /\ MissionStack.s_total_missions s' = 1
       /\ MissionStack.s_total_current_kills s' = 30.
Proof.
  eassert (E : MissionStack.get_summary
                 (run [Process (sample_accepted 1 "T" "F" "Kill pirates" 30 900)]
                    (MissionStack.__init__ (DT := no_parser)))
               = Ok _) by (vm_compute; reflexivity).
  destruct (accept_taken_key_adds_no_record (DT := no_parser)
              (sample_accepted 2 "T" "F" "Kill pirates" 12 500)
              (run [Process (sample_accepted 1 "T" "F" "Kill pirates" 30 900)]
                 MissionStack.__init__) _ eq_refl eq_refl E)
    as [_ [Hids [_ [_ [_ [s' [Hs [Hn [_ [Hc _]]]]]]]]]].
  split.
  - rewrite Hids. reflexivity.
  - exists s'. split; [exact Hs|]. rewrite Hn, Hc. split; reflexivity.
Defined.

Section RemovalFacts.
Context {DT : DateTimeLib}.
Implicit Types (st : MissionStack.t) (fm : FactionMissions.t).

Lemma find_remove_first_Some (V : Type) (p : string * V -> bool) (k : string) (v : V)
    (d : dict V) :
  dict_ok d = true -> dict_find k (remove_first p d) = Some v -> dict_find k d = Some v.
Proof.
  induction d as [|[k0 v0] d IH]; simpl; [discriminate|].
  intros Hok. apply dict_ok_cons in Hok. destruct Hok as [Hn Hok].
  destruct (p (k0, v0)).
  - intros H. destruct (String.eqb k k0) eqn:E; [|exact H].
    apply String.eqb_eq in E. subst k0. exfalso. apply Hn.
    exact (dict_find_Some_keys _ _ _ _ H).
  - simpl. destruct (String.eqb k k0); [trivial | now apply IH].
Qed.

Lemma find_remove_first_keep (V : Type) (p : string * V -> bool) (k : string) (v : V)
    (d : dict V) :
  dict_find k d = Some v -> p (k, v) = false -> dict_find k (remove_first p d) = Some v.
Proof.
  intros Hf Hp. induction d as [|[k0 v0] d IH]; simpl in *; [discriminate|].
  destruct (p (k0, v0)) eqn:Ep.
  - destruct (String.eqb k k0) eqn:E; [|exact Hf].
    apply String.eqb_eq in E. subst k0. injection Hf as ->. congruence.
  - simpl. destruct (String.eqb k k0); [exact Hf | now apply IH].
Qed.

Lemma first_match_found mission_id loc st :
  registry_ok st = true ->
  first_match mission_id st = Some loc ->
  dict_find (loc_target loc) (MissionStack.missions st) = Some (loc_bucket loc)
  /\ dict_find (loc_faction loc) (loc_bucket loc) = Some (loc_ledger loc)
  /\ first_record mission_id (loc_ledger loc) = Some (loc_record loc)
  /\ bucket_ok (loc_bucket loc) = true
  /\ ledger_ok (loc_ledger loc) = true.
Proof.
  intros Hok Hloc. apply first_bucket_In in Hloc. destruct Hloc as [Hb Hl].
  apply first_ledger_In in Hl. destruct Hl as [Hl Hr].
  destruct (registry_ok_In st _ _ Hok Hb) as [Ht Hbok].
  destruct (bucket_ok_In _ _ _ Hbok Hl) as [Hf Hlok].
  repeat split; assumption.
Qed.

(** The ledgers of the registry after a removal. *)
Lemma remove_at_lookup_ledger mission_id loc st t f :
  registry_ok st = true ->
  first_match mission_id st = Some loc ->
  lookup_ledger t f (remove_at mission_id loc st)
  = if String.eqb t (loc_target loc) && String.eqb f (loc_faction loc)
    then (if dict_is_empty
               (FactionMissions.missions
                  (ledger_without mission_id (loc_record loc) (loc_ledger loc)))
          then None
          else Some (ledger_without mission_id (loc_record loc) (loc_ledger loc)))
    else lookup_ledger t f st.
Proof.
  intros Hok Hloc.
  destruct (first_match_found mission_id loc st Hok Hloc) as [Ht [Hf [_ [Hbok _]]]].
  assert (Hd : dict_ok (MissionStack.missions st) = true).
  { unfold registry_ok in Hok. now apply andb_true_iff in Hok. }
  assert (Hdb : dict_ok (loc_bucket loc) = true).
  { unfold bucket_ok in Hbok. now apply andb_true_iff in Hbok. }
  unfold remove_at, lookup_ledger. cbn [MissionStack.missions].
  set (ledger' := ledger_without mission_id (loc_record loc) (loc_ledger loc)).
  set (bucket' := if dict_is_empty (FactionMissions.missions ledger')
                  then dict_remove (loc_faction loc) (loc_bucket loc)
                  else dict_store (loc_faction loc) ledger' (loc_bucket loc)).
  assert (Hb' : forall f0,
            dict_find f0 bucket'
            = if String.eqb f0 (loc_faction loc)
              then (if dict_is_empty (FactionMissions.missions ledger')
                    then None else Some ledger')
              else dict_find f0 (loc_bucket loc)).
  { intros f0. unfold bucket'.
    destruct (String.eqb f0 (loc_faction loc)) eqn:E.
    - apply String.eqb_eq in E. subst f0.
      destruct (dict_is_empty (FactionMissions.missions ledger')).
      + now apply dict_find_remove_same.
      + now rewrite dict_find_store_same, Hf.
    - apply String.eqb_neq in E.
      destruct (dict_is_empty (FactionMissions.missions ledger')).
      + now apply dict_find_remove_other.
      + now apply dict_find_store_other. }
  destruct (String.eqb t (loc_target loc)) eqn:Et; cbn [andb].
  - apply String.eqb_eq in Et. subst t. rewrite Ht.
    destruct (dict_is_empty bucket') eqn:Eb.
    + rewrite (dict_find_remove_same _ _ _ Hd).
      apply dict_is_empty_true in Eb. specialize (Hb' f). rewrite Eb in Hb'.
      simpl in Hb'. exact Hb'.
    + rewrite dict_find_store_same, Ht. apply Hb'.
  - apply String.eqb_neq in Et.
    destruct (dict_is_empty bucket').
    + now rewrite (dict_find_remove_other _ _ _ _ Et).
    + now rewrite (dict_find_store_other _ _ _ _ _ Et).
Qed.

(** The records of the registry after a removal, key by key. *)
Lemma remove_at_lookup_record mission_id loc st t f k :
  registry_ok st = true ->
  first_match mission_id st = Some loc ->
  lookup_record t f k (remove_at mission_id loc st)
  = if String.eqb t (loc_target loc) && String.eqb f (loc_faction loc)
    then dict_find k (remove_first (fun kv => has_id mission_id (snd kv))
                        (FactionMissions.missions (loc_ledger loc)))
    else lookup_record t f k st.
Proof.
  intros Hok Hloc. unfold lookup_record.
  rewrite (remove_at_lookup_ledger mission_id loc st t f Hok Hloc).
  destruct (String.eqb t (loc_target loc) && String.eqb f (loc_faction loc));
    [|reflexivity].
  cbn [ledger_without FactionMissions.missions].
  destruct (remove_first (fun kv => has_id mission_id (snd kv))
              (FactionMissions.missions (loc_ledger loc))) eqn:E;
    cbn [dict_is_empty]; [reflexivity|].
  cbn [ledger_without FactionMissions.missions]. now rewrite E.
Qed.

Lemma lookup_record_found mission_id loc st k :
  registry_ok st = true ->
  first_match mission_id st = Some loc ->
  lookup_record (loc_target loc) (loc_faction loc) k st
  = dict_find k (FactionMissions.missions (loc_ledger loc)).
Proof.
  intros Hok Hloc.
  destruct (first_match_found mission_id loc st Hok Hloc) as [Ht [Hf _]].
  unfold lookup_record, lookup_ledger. now rewrite Ht, Hf.
Qed.

Lemma removal_keeps_records mission_id st t f k r :
  registry_ok st = true ->
  (lookup_record t f k (removal_spec mission_id st) = Some r ->
   lookup_record t f k st = Some r)
  /\ (lookup_record t f k st = Some r -> MissionData.mission_id r <> mission_id ->
      lookup_record t f k (removal_spec mission_id st) = Some r).
Proof.
  intros Hok. unfold removal_spec.
  destruct (first_match mission_id st) as [loc|] eqn:Hloc; [|split; trivial].
  rewrite (remove_at_lookup_record mission_id loc st t f k Hok Hloc).
  destruct (first_match_found mission_id loc st Hok Hloc) as [_ [_ [_ [_ Hlok]]]].
  destruct (String.eqb t (loc_target loc) && String.eqb f (loc_faction loc)) eqn:E;
    [|split; trivial].
  apply andb_true_iff in E. destruct E as [Et Ef].
  apply String.eqb_eq in Et, Ef. subst t f.
  rewrite (lookup_record_found mission_id loc st k Hok Hloc). split.
  - now apply find_remove_first_Some.
  - intros Hf Hid. apply find_remove_first_keep; [exact Hf|].
    cbn [snd]. unfold has_id. now apply Z.eqb_neq.
Qed.

Lemma remove_first_no_dup (A : Type) (g : A -> Z) (x : Z) (l : list A) (m : A) :
  NoDup (map g l) -> In m (remove_first (fun a => g a =? x) l) -> g m <> x.
Proof.
  induction l as [|a l IH]; simpl; [tauto|].
  intros Hnd. inversion Hnd as [|? ? Hn Hnd']; subst.
  destruct (g a =? x) eqn:E.
  - apply Z.eqb_eq in E. intros Hin Heq. apply Hn. rewrite E, <- Heq.
    now apply in_map.
  - apply Z.eqb_neq in E. intros [<-|Hin]; [exact E | now apply IH].
Qed.

End RemovalFacts.

Section RemovalSums.
Context {DT : DateTimeLib}.
Implicit Types (st : MissionStack.t) (fm : FactionMissions.t).




End RemovalSums.

Section RemovalProperties.
Context {DT : DateTimeLib}.
Implicit Types (st : MissionStack.t) (fm : FactionMissions.t).


(** X14. Processing a completed, failed or abandoned mission changes no
    record that stays: every record found afterwards under a target
    faction, issuing faction and key was there before, unchanged, and every
    record whose id is not the event's MissionID is still there afterwards,
    unchanged. *)
Theorem removal_leaves_other_records event st :
  registry_ok st = true ->
  is_removal_kind (get (ev_event event) "") = true ->
  let st' := snd (MissionStack.process_event event st) in
  (forall t f k r,
     lookup_record t f k st' = Some r -> lookup_record t f k st = Some r)
  /\ (forall t f k r,
        lookup_record t f k st = Some r ->
        MissionData.mission_id r <> get (ev_MissionID event) 0 ->
        lookup_record t f k st' = Some r).
Proof.
  intros Hok Hkind. cbv zeta.
  rewrite (process_removal_eq event st Hok Hkind). cbn [snd]. split.
  - intros t f k r.
    apply (proj1 (removal_keeps_records (get (ev_MissionID event) 0) st t f k r Hok)).
  - intros t f k r.
    apply (proj2 (removal_keeps_records (get (ev_MissionID event) 0) st t f k r Hok)).
Qed.

(** X15. When the ids of the records are pairwise distinct, processing the
    same completed, failed or abandoned event a second time finds nothing:
    it returns False and leaves the registry as the first processing left
    it. *)
Theorem second_removal_finds_nothing event st :
  registry_ok st = true ->
  NoDup (all_ids st) ->
  is_removal_kind (get (ev_event event) "") = true ->
  let st' := snd (MissionStack.process_event event st) in
  MissionStack.process_event event st' = (Ok false, st').
Proof.
  intros Hok Hnd Hkind. cbv zeta.
  rewrite (process_removal_eq event st Hok Hkind). cbn [snd].
  set (mission_id := get (ev_MissionID event) 0).
  pose proof (removal_spec_ok mission_id st Hok) as Hok'.
  rewrite (process_removal_eq event _ Hok' Hkind). fold mission_id.
  assert (Hnone : first_match mission_id (removal_spec mission_id st) = None).
  { apply first_match_None. unfold removal_spec.
    destruct (first_match mission_id st) as [loc|] eqn:Hloc.
    - destruct st as [reg]. unfold first_match in Hloc. cbn [MissionStack.missions] in Hloc.
      rewrite (all_records_remove mission_id reg loc Hok Hloc).
      intros m Hin. apply (remove_first_no_dup _ MissionData.mission_id mission_id _ m Hnd Hin).
    - intros m Hin Heq.
      assert (Hex : existsb (has_id mission_id) (all_records st) = true).
      { apply existsb_exists. exists m. split; [exact Hin|].
        unfold has_id. now apply Z.eqb_eq. }
      destruct st as [reg]. rewrite all_records_existsb in Hex.
      unfold first_match in Hloc. cbn [MissionStack.missions] in Hloc.
      rewrite Hloc in Hex. discriminate. }
  set (st1 := removal_spec mission_id st) in *.
  unfold removal_spec. now rewrite Hnone.
Qed.

End RemovalProperties.


Lemma removal_leaves_other_records_witness :
  lookup_record "Mizete Jet Society" "Gatorma Labour" "Kill Mizete pirates"
    (snd (MissionStack.process_event (sample_completed 3) scenario_registry))
  = Some (MissionData.__init__ (DT := no_parser) scenario_2).
Proof.
  apply (proj2 (removal_leaves_other_records (DT := no_parser) (sample_completed 3)
                  scenario_registry eq_refl eq_refl)).
  - vm_compute. reflexivity.
  - vm_compute. discriminate.
Defined.

Lemma second_removal_finds_nothing_witness :
  MissionStack.process_event (sample_completed 3)
    (snd (MissionStack.process_event (sample_completed 3) scenario_registry))
  = (Ok false, snd (MissionStack.process_event (sample_completed 3) scenario_registry)).
Proof.
  apply (second_removal_finds_nothing (DT := no_parser) (sample_completed 3)
           scenario_registry eq_refl).
  - vm_compute. repeat constructor; simpl; intuition discriminate.
  - reflexivity.
Defined.

Section AcceptFacts.
Context {DT : DateTimeLib}.
Implicit Types (st : MissionStack.t) (fm : FactionMissions.t).

(** The records of the registry after an accepted mission, key by key. *)
Lemma accept_lookup_record md st t f k :
  lookup_record t f k (accept_spec md st)
  = if String.eqb t (MissionData.target_faction md)
       && String.eqb f (MissionData.faction md)
       && String.eqb k (MissionData.localised_name md)
    then Some (match lookup_record t f k st with
               | Some existing =>
                   MissionData.update_kill_count (MissionData.current_kill_count md)
                     existing
               | None => md
               end)
    else lookup_record t f k st.
Proof.
  unfold lookup_record.
  destruct (String.eqb t (MissionData.target_faction md)) eqn:Et; cbn [andb].
  - destruct (String.eqb f (MissionData.faction md)) eqn:Ef; cbn [andb].
    + apply String.eqb_eq in Et, Ef. subst t f.
      rewrite (accept_target_ledger md st), add_mission_find.
      destruct (lookup_ledger (MissionData.target_faction md) (MissionData.faction md) st);
        cbn [get]; [reflexivity|].
      now destruct (String.eqb k (MissionData.localised_name md)).
    + apply String.eqb_neq in Ef. rewrite accept_other_ledger; [reflexivity|].
      intros [= _ H]. now apply Ef.
  - apply String.eqb_neq in Et. rewrite accept_other_ledger; [reflexivity|].
    intros [= H _]. now apply Et.
Qed.

End AcceptFacts.

Section AcceptProperties.
Context {DT : DateTimeLib}.
Implicit Types (st : MissionStack.t) (fm : FactionMissions.t).

(** X16. An accepted massacre mission touches exactly one place of the
    registry, the key LocalisedName of the ledger of Faction in the bucket of
    TargetFaction: a record that was there takes the event's KillCount as
    its current count and keeps its other fields, otherwise the record built
    from the event is stored there. Every other place holds what it held
    before, and the target faction and the issuing faction are listed
    afterwards. *)
Theorem accept_touches_one_record event st :
  is_massacre_accept event = true ->
  let target := get (ev_TargetFaction event) "" in
  let issuer := get (ev_Faction event) "" in
  let key := get (ev_LocalisedName event) "" in
  let st' := snd (MissionStack.process_event event st) in
  (forall t f k,
     (t, f, k) <> (target, issuer, key) ->
     lookup_record t f k st' = lookup_record t f k st)
  /\ lookup_record target issuer key st'
     = Some (match lookup_record target issuer key st with
             | Some existing =>
                 MissionData.update_kill_count (get (ev_KillCount event) 0) existing
             | None => MissionData.__init__ event
             end)
  /\ In target (MissionStack.get_target_factions st')
  /\ In issuer (MissionStack.get_issuing_factions target st').
Proof.
  intros Hacc. cbv zeta. rewrite (process_accept_eq event st Hacc). cbn [snd].
  set (md := MissionData.__init__ event).
  change (get (ev_TargetFaction event) "") with (MissionData.target_faction md).
  change (get (ev_Faction event) "") with (MissionData.faction md).
  change (get (ev_LocalisedName event) "") with (MissionData.localised_name md).
  change (get (ev_KillCount event) 0) with (MissionData.current_kill_count md).
  split; [|split].
  - intros t f k Hne. rewrite accept_lookup_record.
    destruct (String.eqb t (MissionData.target_faction md)) eqn:Et; [|reflexivity].
    destruct (String.eqb f (MissionData.faction md)) eqn:Ef; [|reflexivity].
    destruct (String.eqb k (MissionData.localised_name md)) eqn:Ek; [|reflexivity].
    apply String.eqb_eq in Et, Ef, Ek. subst. now elim Hne.
  - rewrite accept_lookup_record. now rewrite !String.eqb_refl.
  - apply (lookup_ledger_listed _ _ _ _ (accept_target_ledger md st)).
Qed.

(** X17. The flag returned by [process_event] is exact: False means that the
    registry is as it was, and True means that the event was the acceptance
    of a massacre mission or a completed, failed or abandoned event whose
    MissionID is the id of a record of the registry. *)
Theorem process_event_flag_is_exact event st :
  registry_ok st = true ->
  exists handled,
    fst (MissionStack.process_event event st) = Ok handled
    /\ (handled = false -> snd (MissionStack.process_event event st) = st)
    /\ (handled = true ->
        is_massacre_accept event = true
        \/ (is_removal_kind (get (ev_event event) "") = true
            /\ In (get (ev_MissionID event) 0) (all_ids st))).
Proof.
  intros Hok. rewrite (process_event_eq event st Hok). cbn [fst snd].
  exists (fst (process_spec event st)). split; [reflexivity|].
  unfold process_spec, is_massacre_accept.
  destruct (String.eqb (get (ev_event event) "") "MissionAccepted"); cbn [andb].
  - destruct (str_in "Mission_Massacre" (get (ev_Name event) "")); cbn [fst snd].
    + split; [discriminate | now left].
    + split; [reflexivity | discriminate].
  - destruct (is_removal_kind (get (ev_event event) "")); cbn [fst snd];
      [|split; [reflexivity | discriminate]].
    unfold removal_spec.
    destruct (first_match (get (ev_MissionID event) 0) st) as [loc|] eqn:Hloc.
    + split; [discriminate|]. intros _. right. split; [reflexivity|].
      destruct (first_match_found _ loc st Hok Hloc) as [_ [_ [Hr _]]].
      apply first_bucket_In in Hloc. destruct Hloc as [Hb Hl].
      apply first_ledger_In in Hl. destruct Hl as [Hl _].
      unfold first_record in Hr. apply find_some in Hr. destruct Hr as [Hin Hid].
      unfold has_id in Hid. apply Z.eqb_eq in Hid. rewrite <- Hid.
      unfold all_ids. apply in_map. unfold all_records. apply in_flat_map.
      exists (loc_target loc, loc_bucket loc). split; [exact Hb|].
      cbn [snd]. unfold bucket_records. apply in_flat_map.
      exists (loc_faction loc, loc_ledger loc). split; [exact Hl | exact Hin].
    + split; [reflexivity | discriminate].
Qed.

End AcceptProperties.

Lemma accept_touches_one_record_witness :
  lookup_record "Mizete Jet Society" "Gatorma Labour" "Kill Mizete pirates"
    (snd (MissionStack.process_event scenario_2
            (run [Process scenario_1] (MissionStack.__init__ (DT := no_parser)))))
  = Some (MissionData.__init__ (DT := no_parser) scenario_2)
  /\ lookup_record "Mizete Jet Society" "Military Gamers" "Kill Mizete pirates"
       (snd (MissionStack.process_event scenario_2
               (run [Process scenario_1] (MissionStack.__init__ (DT := no_parser)))))
     = Some (MissionData.__init__ (DT := no_parser) scenario_1).
Proof.
  destruct (accept_touches_one_record (DT := no_parser) scenario_2
              (run [Process scenario_1] MissionStack.__init__) eq_refl)
    as [Hother [Hkey _]].
  split.
  - exact Hkey.
  - rewrite Hother; [reflexivity | discriminate].
Defined.

Lemma process_event_flag_is_exact_witness :
  exists handled,
    fst (MissionStack.process_event (sample_completed 8) scenario_registry) = Ok handled
    /\ (handled = false ->
        snd (MissionStack.process_event (sample_completed 8) scenario_registry)
        = scenario_registry).
Proof.
  destruct (process_event_flag_is_exact (DT := no_parser) (sample_completed 8)
              scenario_registry eq_refl) as [handled [Hf [Hs _]]].
  exists handled. split; [exact Hf | exact Hs].
Defined.

Section RoundTripFacts.
Context {DT : DateTimeLib}.
Implicit Types (st : MissionStack.t) (fm : FactionMissions.t).

Lemma no_id_first_record mission_id st t b f fm :
  ~ In mission_id (all_ids st) ->
  In (t, b) (MissionStack.missions st) -> In (f, fm) b ->
  first_record mission_id fm = None.
Proof.
  intros Hno Hb Hl. unfold first_record.
  destruct (find (has_id mission_id) (dict_values (FactionMissions.missions fm)))
    as [r|] eqn:E; [|reflexivity].
  exfalso. apply Hno. apply find_some in E. destruct E as [Hin Hid].
  unfold has_id in Hid. apply Z.eqb_eq in Hid. rewrite <- Hid.
  unfold all_ids. apply in_map. unfold all_records. apply in_flat_map.
  exists (t, b). split; [exact Hb|]. cbn [snd]. unfold bucket_records.
  apply in_flat_map. exists (f, fm). split; [exact Hl | exact Hin].
Qed.

Lemma first_ledger_None mission_id (b : dict FactionMissions.t) :
  (forall f fm, In (f, fm) b -> first_record mission_id fm = None) ->
  first_ledger mission_id b = None.
Proof.
  induction b as [|[f fm] b IH]; intros H; [reflexivity|].
  cbn [first_ledger]. rewrite (H f fm (or_introl eq_refl)).
  apply IH. intros f0 fm0 H0. apply (H f0 fm0). now right.
Qed.

Lemma first_ledger_setitem mission_id f fm1 r (b : dict FactionMissions.t) :
  (forall f0 fm0, In (f0, fm0) b -> first_record mission_id fm0 = None) ->
  first_record mission_id fm1 = Some r ->
  first_ledger mission_id (dict_setitem f fm1 b) = Some (f, fm1, r).
Proof.
  intros H Hr. induction b as [|[f0 fm0] b IH]; cbn [dict_setitem first_ledger].
  - now rewrite Hr.
  - destruct (String.eqb f f0) eqn:E; cbn [first_ledger].
    + apply String.eqb_eq in E. subst f0. now rewrite Hr.
    + rewrite (H f0 fm0 (or_introl eq_refl)).
      apply IH. intros f1 fm2 H1. apply (H f1 fm2). now right.
Qed.

Lemma first_bucket_setitem mission_id t b1 f fm1 r
    (reg : dict (dict FactionMissions.t)) :
  (forall t0 b0, In (t0, b0) reg -> first_ledger mission_id b0 = None) ->
  first_ledger mission_id b1 = Some (f, fm1, r) ->
  first_bucket mission_id (dict_setitem t b1 reg) = Some (mk_location t b1 f fm1 r).
Proof.
  intros H Hl. induction reg as [|[t0 b0] reg IH]; cbn [dict_setitem first_bucket].
  - now rewrite Hl.
  - destruct (String.eqb t t0) eqn:E; cbn [first_bucket].
    + apply String.eqb_eq in E. subst t0. now rewrite Hl.
    + rewrite (H t0 b0 (or_introl eq_refl)).
      apply IH. intros t1 b2 H1. apply (H t1 b2). now right.
Qed.

Lemma find_app_None (A : Type) (p : A -> bool) (l1 l2 : list A) :
  find p l1 = None -> find p (l1 ++ l2) = find p l2.
Proof.
  induction l1 as [|a l1 IH]; simpl; [reflexivity|].
  destruct (p a); [discriminate | exact IH].
Qed.

Lemma remove_first_app_last (A : Type) (p : A -> bool) (l : list A) (x : A) :
  find p l = None -> p x = true -> remove_first p (l ++ [x]) = l.
Proof.
  intros Hf Hx. induction l as [|a l IH]; simpl in *.
  - now rewrite Hx.
  - destruct (p a); [discriminate|]. now rewrite IH.
Qed.

Lemma dict_undo_setitem (V : Type) (empty : bool) (k : string) (v v1 : V) (d : dict V) :
  (dict_find k d = None -> empty = true) ->
  (forall o, dict_find k d = Some o -> empty = false /\ v = o) ->
  (if empty then dict_remove k (dict_setitem k v1 d)
   else dict_store k v (dict_setitem k v1 d)) = d.
Proof.
  intros Hn Hs. destruct (dict_find k d) as [o|] eqn:E.
  - destruct (Hs o eq_refl) as [-> ->].
    rewrite dict_store_setitem, <- dict_store_is_setitem by congruence.
    now apply dict_store_id.
  - rewrite (Hn eq_refl). clear Hn Hs.
    induction d as [|[k0 v0] d IH]; simpl in *.
    + now rewrite String.eqb_refl.
    + destruct (String.eqb k k0) eqn:E0; [discriminate|].
      simpl. rewrite E0. now rewrite (IH E).
Qed.

(** Where a record accepted under a free key, with an id that the registry
    does not hold, is found. *)
Lemma accept_first_match md st :
  ~ In (MissionData.mission_id md) (all_ids st) ->
  let t := MissionData.target_faction md in
  let f := MissionData.faction md in
  let b := get (dict_find t (MissionStack.missions st)) [] in
  let fm := get (dict_find f b) (FactionMissions.__init__ f) in
  dict_find (MissionData.localised_name md) (FactionMissions.missions fm) = None ->
  first_record (MissionData.mission_id md) fm = None
  /\ first_match (MissionData.mission_id md) (accept_spec md st)
     = Some (mk_location t
               (dict_setitem f (snd (FactionMissions.add_mission md fm)) b)
               f (snd (FactionMissions.add_mission md fm)) md).
Proof.
  intros Hno t f b fm Hnew.
  assert (Hb : forall f0 fm0, In (f0, fm0) b ->
                 first_record (MissionData.mission_id md) fm0 = None).
  { intros f0 fm0 Hin. unfold b in Hin.
    destruct (dict_find t (MissionStack.missions st)) as [b0|] eqn:Et;
      cbn [get] in Hin; [|contradiction].
    apply dict_find_Some_In in Et.
    apply (no_id_first_record _ st t b0 f0 fm0 Hno Et Hin). }
  assert (Hfm : first_record (MissionData.mission_id md) fm = None).
  { unfold fm. destruct (dict_find f b) as [fm0|] eqn:Ef; cbn [get]; [|reflexivity].
    apply dict_find_Some_In in Ef. apply (Hb f fm0 Ef). }
  split; [exact Hfm|].
  unfold first_match, accept_spec. cbn [MissionStack.missions].
  fold t. fold f. fold b. fold fm.
  apply first_bucket_setitem.
  - intros t0 b0 Hin. apply first_ledger_None. intros f0 fm0 Hin0.
    apply (no_id_first_record _ st t0 b0 f0 fm0 Hno Hin Hin0).
  - apply first_ledger_setitem; [exact Hb|].
    rewrite (add_mission_new md fm Hnew). cbn [snd].
    unfold first_record in *. cbn [FactionMissions.missions].
    unfold dict_values in *. rewrite map_app, (find_app_None _ _ _ _ Hfm).
    cbn [map snd find]. unfold has_id. now rewrite Z.eqb_refl.
Qed.

Lemma ledger_without_add_new md fm :
  dict_find (MissionData.localised_name md) (FactionMissions.missions fm) = None ->
  first_record (MissionData.mission_id md) fm = None ->
  ledger_without (MissionData.mission_id md) md (snd (FactionMissions.add_mission md fm))
  = fm.
Proof.
  intros Hnew Hfm. rewrite (add_mission_new md fm Hnew). cbn [snd].
  unfold ledger_without.
  cbn [FactionMissions.missions FactionMissions.faction_name
       FactionMissions.total_initial_kills FactionMissions.total_current_kills
       FactionMissions.total_reward].
  unfold first_record in Hfm. rewrite find_values in Hfm.
  rewrite remove_first_app_last.
  - destruct fm; cbn. f_equal; lia.
  - destruct (find (fun kv => has_id (MissionData.mission_id md) (snd kv))
                (FactionMissions.missions fm)); [discriminate | reflexivity].
  - cbn [snd]. unfold has_id. apply Z.eqb_refl.
Qed.

(** Removing at once the record that was just accepted under a free key
    gives the registry back. *)
Lemma accept_remove_at md st :
  no_empty st = true ->
  ~ In (MissionData.mission_id md) (all_ids st) ->
  let t := MissionData.target_faction md in
  let f := MissionData.faction md in
  let b := get (dict_find t (MissionStack.missions st)) [] in
  let fm := get (dict_find f b) (FactionMissions.__init__ f) in
  dict_find (MissionData.localised_name md) (FactionMissions.missions fm) = None ->
  removal_spec (MissionData.mission_id md) (accept_spec md st) = st.
Proof.
  intros Hne Hno t f b fm Hnew.
  destruct (accept_first_match md st Hno Hnew) as [Hfm Hloc].
  fold t f b fm in Hloc, Hfm.
  unfold removal_spec. rewrite Hloc. unfold remove_at.
  cbn [loc_target loc_bucket loc_faction loc_ledger loc_record].
  rewrite (ledger_without_add_new md fm Hnew Hfm).
  unfold accept_spec. cbn [MissionStack.missions]. fold t f b fm.
  assert (Hbucket :
    (if dict_is_empty (FactionMissions.missions fm)
     then dict_remove f (dict_setitem f (snd (FactionMissions.add_mission md fm)) b)
     else dict_store f fm (dict_setitem f (snd (FactionMissions.add_mission md fm)) b))
    = b).
  { apply dict_undo_setitem.
    - intros Ef. unfold fm. now rewrite Ef.
    - intros o Ef. unfold fm. rewrite Ef. cbn [get]. split; [|reflexivity].
      apply dict_is_empty_false. unfold b in Ef.
      destruct (dict_find t (MissionStack.missions st)) as [b0|] eqn:Et;
        cbn [get] in Ef; [|discriminate].
      apply dict_find_Some_In in Et, Ef.
      destruct (no_empty_In st t b0 Hne Et) as [_ Hl]. apply (Hl f o Ef). }
  rewrite Hbucket. destruct st as [reg]. cbn [MissionStack.missions] in *. f_equal.
  apply dict_undo_setitem.
  - intros Et. unfold b. now rewrite Et.
  - intros o Et. unfold b. rewrite Et. cbn [get]. split; [|reflexivity].
    apply dict_is_empty_false. apply dict_find_Some_In in Et.
    destruct (no_empty_In (MissionStack.mk reg) t o Hne Et) as [Hb _]. exact Hb.
Qed.

End RoundTripFacts.

Section RoundTripProperties.
Context {DT : DateTimeLib}.
Implicit Types (st : MissionStack.t) (fm : FactionMissions.t).

(** X18. Round trip. On a registry without empty buckets or ledgers, a
    massacre mission accepted under a free key with an id that no record
    has, and then completed, failed or abandoned, is found again (True is
    returned) and the registry is exactly what it was before the
    acceptance. *)
Theorem accept_then_removal_restores event closing st :
  registry_ok st = true ->
  no_empty st = true ->
  is_massacre_accept event = true ->
  key_taken event st = false ->
  ~ In (get (ev_MissionID event) 0) (all_ids st) ->
  is_removal_kind (get (ev_event closing) "") = true ->
  get (ev_MissionID closing) 0 = get (ev_MissionID event) 0 ->
  MissionStack.process_event closing (snd (MissionStack.process_event event st))
  = (Ok true, st).
Proof.
  intros Hok Hne Hacc Hfree Hno Hkind Hid.
  rewrite (process_accept_eq event st Hacc). cbn [snd].
  set (md := MissionData.__init__ event).
  rewrite (process_removal_eq closing _ (accept_spec_ok md st Hok) Hkind).
  rewrite Hid.
  change (get (ev_MissionID event) 0) with (MissionData.mission_id md) in *.
  pose proof (key_taken_false_new event st Hfree) as Hnew. fold md in Hnew.
  rewrite lookup_ledger_get in Hnew.
  destruct (accept_first_match md st Hno Hnew) as [_ Hloc].
  rewrite Hloc. now rewrite (accept_remove_at md st Hne Hno Hnew).
Qed.

End RoundTripProperties.

Lemma accept_then_removal_restores_witness :
  MissionStack.process_event (sample_completed 2)
    (snd (MissionStack.process_event scenario_2
            (run [Process scenario_1] (MissionStack.__init__ (DT := no_parser)))))
  = (Ok true, run [Process scenario_1] (MissionStack.__init__ (DT := no_parser))).
Proof.
  apply (accept_then_removal_restores (DT := no_parser) scenario_2 (sample_completed 2)
           (run [Process scenario_1] MissionStack.__init__)
           eq_refl eq_refl eq_refl eq_refl).
  - vm_compute. intros [H|[]]. discriminate.
  - reflexivity.
  - reflexivity.
Defined.

Section UpdateFacts.
Context {DT : DateTimeLib}.
Implicit Types (st : MissionStack.t) (fm : FactionMissions.t).

Lemma update_in_factions_eq mission_id new_kill_count t reg bucket items :
  dict_find t reg = Some bucket ->
  (forall f fm, In (f, fm) items ->
     dict_find f bucket = Some fm /\ ledger_ok fm = true) ->
  MissionStack.update_in_factions mission_id new_kill_count t items (MissionStack.mk reg) =
  match first_ledger mission_id items with
  | None => (Ok false, MissionStack.mk reg)
  | Some (f, fm, r) =>
      (Ok true,
       update_at mission_id new_kill_count (mk_location t bucket f fm r)
         (MissionStack.mk reg))
  end.
Proof.
  intros Ht. induction items as [|[f fm] items IH]; intros Hin; [reflexivity|].
  destruct (Hin f fm (or_introl eq_refl)) as [Hf Hok].
  cbn [MissionStack.update_in_factions first_ledger].
  unfold MissionStack.ledger_call at 1.
  unfold bind at 1. rewrite (update_mission_kills_spec mission_id new_kill_count fm Hok).
  destruct (first_record mission_id fm) as [r|] eqn:Er.
  - unfold MissionStack.ledger_store. cbn [MissionStack.missions fst snd]. rewrite Ht.
    reflexivity.
  - unfold MissionStack.ledger_store. cbn [MissionStack.missions fst snd]. rewrite Ht.
    rewrite (dict_store_id _ _ _ _ Hf), (dict_store_id _ _ _ _ Ht).
    apply IH. intros f0 fm0 H0. apply Hin. now right.
Qed.

Lemma update_in_targets_eq mission_id new_kill_count reg items :
  (forall t bucket, In (t, bucket) items ->
     dict_find t reg = Some bucket /\ bucket_ok bucket = true) ->
  MissionStack.update_in_targets mission_id new_kill_count items (MissionStack.mk reg) =
  match first_bucket mission_id items with
  | None => (Ok false, MissionStack.mk reg)
  | Some loc => (Ok true, update_at mission_id new_kill_count loc (MissionStack.mk reg))
  end.
Proof.
  induction items as [|[t bucket] items IH]; intros Hin; [reflexivity|].
  destruct (Hin t bucket (or_introl eq_refl)) as [Ht Hok].
  cbn [MissionStack.update_in_targets first_bucket].
  unfold bind at 1.
  rewrite (update_in_factions_eq mission_id new_kill_count t reg bucket bucket Ht
             (fun f fm => bucket_ok_In bucket f fm Hok)).
  destruct (first_ledger mission_id bucket) as [[[f fm] r]|]; [reflexivity|].
  apply IH. intros t0 b0 H0. apply Hin. now right.
Qed.

(** The update scan of the registry: the first record with the id, in the
    order of the scan, is the one that is updated. *)
Lemma stack_update_mission_kills_eq mission_id new_kill_count st :
  registry_ok st = true ->
  MissionStack.update_mission_kills mission_id new_kill_count st =
  match first_match mission_id st with
  | None => (Ok false, st)
  | Some loc => (Ok true, update_at mission_id new_kill_count loc st)
  end.
Proof.
  intros Hok. unfold MissionStack.update_mission_kills, first_match.
  unfold bind, gets. destruct st as [reg]. cbn [MissionStack.missions].
  apply update_in_targets_eq.
  intros t bucket Hin. now apply (registry_ok_In (MissionStack.mk reg)).
Qed.






Lemma update_at_ok mission_id new_kill_count loc st :
  registry_ok st = true ->
  first_match mission_id st = Some loc ->
  registry_ok (update_at mission_id new_kill_count loc st) = true.
Proof.
  intros Hok Hloc.
  destruct (first_match_found mission_id loc st Hok Hloc) as [_ [_ [_ [Hbok Hlok]]]].
  assert (Hd : dict_ok (MissionStack.missions st) = true).
  { unfold registry_ok in Hok. now apply andb_true_iff in Hok. }
  assert (Hbd : dict_ok (loc_bucket loc) = true).
  { unfold bucket_ok in Hbok. now apply andb_true_iff in Hbok. }
  unfold update_at. apply registry_ok_intro; [now rewrite dict_ok_store|].
  intros t b Hin. apply In_dict_store in Hin. destruct Hin as [Heq|Hin].
  - injection Heq as _ ->. apply bucket_ok_intro; [now rewrite dict_ok_store|].
    intros f fm Hin. apply In_dict_store in Hin. destruct Hin as [Heq|Hin].
    + injection Heq as _ ->. now apply ledger_updated_ok.
    + apply (bucket_ok_In _ f fm Hbok Hin).
  - apply (registry_ok_In st t b Hok Hin).
Qed.



End UpdateFacts.

Section UpdateProperties.
Context {DT : DateTimeLib}.
Implicit Types (st : MissionStack.t) (fm : FactionMissions.t).



End UpdateProperties.


Section InvariantFacts.
Context {DT : DateTimeLib}.
Implicit Types (st : MissionStack.t) (fm : FactionMissions.t).

Lemma all_ledgers_lookup st fm :
  registry_ok st = true ->
  (In fm (all_ledgers st) <-> exists t f, lookup_ledger t f st = Some fm).
Proof.
  intros Hok. unfold all_ledgers. rewrite in_flat_map. split.
  - intros [[t b] [Hb Hin]]. cbn [snd] in Hin. unfold dict_values in Hin.
    apply in_map_iff in Hin. destruct Hin as [[f fm0] [Heq Hl]]. cbn [snd] in Heq.
    subst fm0. destruct (registry_ok_In st t b Hok Hb) as [Ht Hbok].
    destruct (bucket_ok_In b f fm Hbok Hl) as [Hf _].
    exists t, f. unfold lookup_ledger. now rewrite Ht.
  - intros [t [f H]]. unfold lookup_ledger in H.
    destruct (dict_find t (MissionStack.missions st)) as [b|] eqn:Et; [|discriminate].
    exists (t, b). split; [now apply dict_find_Some_In|].
    cbn [snd]. unfold dict_values. apply in_map_iff. exists (f, fm).
    split; [reflexivity | now apply dict_find_Some_In].
Qed.

Lemma lookup_ledger_In t f fm st :
  lookup_ledger t f st = Some fm -> In fm (all_ledgers st).
Proof.
  unfold lookup_ledger, all_ledgers. intros H.
  destruct (dict_find t (MissionStack.missions st)) as [b|] eqn:Et; [|discriminate].
  apply in_flat_map. exists (t, b). split; [now apply dict_find_Some_In|].
  cbn [snd]. unfold dict_values. apply in_map_iff. exists (f, fm).
  split; [reflexivity | now apply dict_find_Some_In].
Qed.

Lemma update_at_lookup_ledger mission_id new_kill_count loc st t f :
  registry_ok st = true ->
  first_match mission_id st = Some loc ->
  lookup_ledger t f (update_at mission_id new_kill_count loc st)
  = if String.eqb t (loc_target loc) && String.eqb f (loc_faction loc)
    then Some (ledger_updated mission_id new_kill_count (loc_record loc) (loc_ledger loc))
    else lookup_ledger t f st.
Proof.
  intros Hok Hloc.
  destruct (first_match_found mission_id loc st Hok Hloc) as [Ht [Hf _]].
  unfold update_at, lookup_ledger. cbn [MissionStack.missions].
  destruct (String.eqb t (loc_target loc)) eqn:Et; cbn [andb].
  - apply String.eqb_eq in Et. subst t. rewrite dict_find_store_same, Ht.
    destruct (String.eqb f (loc_faction loc)) eqn:Ef.
    + apply String.eqb_eq in Ef. subst f. now rewrite dict_find_store_same, Hf.
    + apply String.eqb_neq in Ef. now rewrite (dict_find_store_other _ _ _ _ _ Ef).
  - apply String.eqb_neq in Et. now rewrite (dict_find_store_other _ _ _ _ _ Et).
Qed.

Lemma accept_spec_consistent md st :
  registry_ok st = true ->
  registry_consistent st ->
  dict_find (MissionData.localised_name md)
    (FactionMissions.missions
       (get (lookup_ledger (MissionData.target_faction md) (MissionData.faction md) st)
            (FactionMissions.__init__ (MissionData.faction md)))) = None ->
  registry_consistent (accept_spec md st).
Proof.
  intros Hok Hcons Hnew fm Hin.
  apply (all_ledgers_lookup _ _ (accept_spec_ok md st Hok)) in Hin.
  destruct Hin as [t [f Hl]].
  destruct (String.eqb t (MissionData.target_faction md)
            && String.eqb f (MissionData.faction md)) eqn:E.
  - apply andb_true_iff in E. destruct E as [Et Ef].
    apply String.eqb_eq in Et, Ef. subst t f.
    rewrite (accept_target_ledger md st) in Hl. injection Hl as <-.
    apply (add_mission_new_consistent md _ Hnew).
    destruct (lookup_ledger (MissionData.target_faction md) (MissionData.faction md) st)
      as [fm0|] eqn:E0; cbn [get].
    + apply Hcons. now apply (lookup_ledger_In _ _ _ _ E0).
    + repeat split.
  - rewrite accept_other_ledger in Hl.
    + apply Hcons. now apply (lookup_ledger_In _ _ _ _ Hl).
    + intros [= -> ->]. now rewrite !String.eqb_refl in E.
Qed.

Lemma removal_spec_consistent mission_id st :
  registry_ok st = true ->
  registry_consistent st ->
  registry_consistent (removal_spec mission_id st).
Proof.
  intros Hok Hcons. unfold removal_spec.
  destruct (first_match mission_id st) as [loc|] eqn:Hloc; [|exact Hcons].
  intros fm Hin.
  apply (all_ledgers_lookup _ _ (remove_at_ok mission_id loc st Hok Hloc)) in Hin.
  destruct Hin as [t [f Hl]].
  rewrite (remove_at_lookup_ledger mission_id loc st t f Hok Hloc) in Hl.
  destruct (first_match_found mission_id loc st Hok Hloc) as [Ht [Hf [Hr _]]].
  destruct (String.eqb t (loc_target loc) && String.eqb f (loc_faction loc)).
  - destruct (dict_is_empty _); [discriminate|]. injection Hl as <-.
    apply (ledger_without_consistent mission_id _ _ Hr).
    apply Hcons. apply (lookup_ledger_In (loc_target loc) (loc_faction loc)).
    unfold lookup_ledger. now rewrite Ht.
  - apply Hcons. now apply (lookup_ledger_In _ _ _ _ Hl).
Qed.

Lemma update_at_consistent mission_id new_kill_count loc st :
  registry_ok st = true ->
  first_match mission_id st = Some loc ->
  registry_consistent st ->
  registry_consistent (update_at mission_id new_kill_count loc st).
Proof.
  intros Hok Hloc Hcons fm Hin.
  apply (all_ledgers_lookup _ _ (update_at_ok mission_id new_kill_count loc st Hok Hloc))
    in Hin.
  destruct Hin as [t [f Hl]].
  rewrite (update_at_lookup_ledger mission_id new_kill_count loc st t f Hok Hloc) in Hl.
  destruct (first_match_found mission_id loc st Hok Hloc) as [Ht [Hf [Hr _]]].
  destruct (String.eqb t (loc_target loc) && String.eqb f (loc_faction loc)).
  - injection Hl as <-.
    apply (ledger_updated_consistent mission_id new_kill_count _ _ Hr).
    apply Hcons. apply (lookup_ledger_In (loc_target loc) (loc_faction loc)).
    unfold lookup_ledger. now rewrite Ht.
  - apply Hcons. now apply (lookup_ledger_In _ _ _ _ Hl).
Qed.

End InvariantFacts.

Section InvariantProperties.
Context {DT : DateTimeLib}.
Implicit Types (st : MissionStack.t) (fm : FactionMissions.t).

Lemma process_spec_filed event st :
  registry_ok st = true -> records_filed st ->
  records_filed (snd (process_spec event st)).
Proof.
  intros Hok [Hrec Hled]. unfold process_spec.
  destruct (String.eqb (get (ev_event event) "") "MissionAccepted").
  - destruct (str_in "Mission_Massacre" (get (ev_Name event) "")); cbn [snd];
      [|split; assumption].
    generalize (MissionData.__init__ event). intros md. split.
    + intros t f k r. rewrite accept_lookup_record.
      destruct (String.eqb t (MissionData.target_faction md)) eqn:Et; cbn [andb];
        [|apply Hrec].
      destruct (String.eqb f (MissionData.faction md)) eqn:Ef; cbn [andb];
        [|apply Hrec].
      destruct (String.eqb k (MissionData.localised_name md)) eqn:Ek; [|apply Hrec].
      apply String.eqb_eq in Et, Ef, Ek. subst t f k.
      destruct (lookup_record (MissionData.target_faction md) (MissionData.faction md)
                  (MissionData.localised_name md) st) as [existing|] eqn:E.
      * intros [= <-]. destruct (Hrec _ _ _ _ E) as [H1 [H2 H3]].
        cbn [MissionData.update_kill_count MissionData.target_faction
             MissionData.faction MissionData.localised_name].
        repeat split; assumption.
      * intros [= <-]. repeat split.
    + intros t f fm.
      destruct (String.eqb t (MissionData.target_faction md)
                && String.eqb f (MissionData.faction md)) eqn:E.
      * apply andb_true_iff in E. destruct E as [Et Ef].
        apply String.eqb_eq in Et, Ef. subst t f.
        rewrite (accept_target_ledger md st). intros [= <-].
        assert (Hname : FactionMissions.faction_name
                          (get (lookup_ledger (MissionData.target_faction md)
                                  (MissionData.faction md) st)
                               (FactionMissions.__init__ (MissionData.faction md)))
                        = MissionData.faction md).
        { destruct (lookup_ledger (MissionData.target_faction md)
                      (MissionData.faction md) st) as [fm0|] eqn:E0; cbn [get].
          - apply (Hled _ _ _ E0).
          - reflexivity. }
        destruct (dict_find (MissionData.localised_name md)
                    (FactionMissions.missions
                       (get (lookup_ledger (MissionData.target_faction md)
                               (MissionData.faction md) st)
                            (FactionMissions.__init__ (MissionData.faction md)))))
          as [existing|] eqn:Ek.
        -- rewrite (add_mission_existing md _ existing Ek). exact Hname.
        -- rewrite (add_mission_new md _ Ek). exact Hname.
      * intros Hl. rewrite accept_other_ledger in Hl; [now apply (Hled t f fm)|].
        intros [= -> ->]. now rewrite !String.eqb_refl in E.
  - destruct (is_removal_kind (get (ev_event event) "")); cbn [snd];
      [|split; assumption].
    split.
    + intros t f k r Hl. apply (Hrec t f k r).
      apply (proj1 (removal_keeps_records (get (ev_MissionID event) 0) st t f k r Hok) Hl).
    + intros t f fm. unfold removal_spec.
      destruct (first_match (get (ev_MissionID event) 0) st) as [loc|] eqn:Hloc;
        [|apply Hled].
      rewrite (remove_at_lookup_ledger _ loc st t f Hok Hloc).
      destruct (first_match_found _ loc st Hok Hloc) as [Ht [Hf _]].
      destruct (String.eqb t (loc_target loc) && String.eqb f (loc_faction loc)) eqn:E;
        [|apply Hled].
      apply andb_true_iff in E. destruct E as [Et Ef].
      apply String.eqb_eq in Et, Ef. subst t f.
      destruct (dict_is_empty _); [discriminate|]. intros [= <-].
      cbn [ledger_without FactionMissions.faction_name].
      apply (Hled (loc_target loc)). unfold lookup_ledger. now rewrite Ht.
Qed.

Lemma run_filed calls st :
  registry_ok st = true -> records_filed st -> records_filed (run calls st).
Proof.
  revert st. induction calls as [|c calls IH]; intros st Hok Hf; [exact Hf|].
  cbn [run fold_left]. apply IH.
  - destruct c as [event|]; cbn [step].
    + rewrite (process_event_eq event st Hok). cbn [snd]. now apply process_spec_ok.
    + reflexivity.
  - destruct c as [event|]; cbn [step].
    + rewrite (process_event_eq event st Hok). cbn [snd].
      now apply process_spec_filed.
    + split; intros; discriminate.
Qed.

(** X20. Without key collisions the aggregates stay exact. On a registry
    whose ledgers all have aggregates equal to the sums over their records,
    [process_event] leaves such a registry, provided the event is not the
    acceptance of a massacre mission under a key that its ledger already
    holds; [update_mission_kills] always leaves such a registry. *)
Theorem aggregates_stay_exact_without_collision event st :
  registry_ok st = true ->
  registry_consistent st ->
  (is_massacre_accept event = true -> key_taken event st = false) ->
  registry_consistent (snd (MissionStack.process_event event st))
  /\ forall mission_id new_kill_count,
       registry_consistent
         (snd (MissionStack.update_mission_kills mission_id new_kill_count st)).
Proof.
  intros Hok Hcons Hfree. split.
  - rewrite (process_event_eq event st Hok). cbn [snd].
    unfold process_spec. unfold is_massacre_accept in Hfree.
    destruct (String.eqb (get (ev_event event) "") "MissionAccepted"); cbn [andb] in Hfree.
    + destruct (str_in "Mission_Massacre" (get (ev_Name event) "")); cbn [snd];
        [|exact Hcons].
      apply (accept_spec_consistent _ st Hok Hcons).
      apply key_taken_false_new. now apply Hfree.
    + destruct (is_removal_kind (get (ev_event event) "")); cbn [snd]; [|exact Hcons].
      now apply removal_spec_consistent.
  - intros mission_id new_kill_count.
    rewrite (stack_update_mission_kills_eq mission_id new_kill_count st Hok).
    destruct (first_match mission_id st) as [loc|] eqn:Hloc; cbn [snd]; [|exact Hcons].
    now apply update_at_consistent.
Qed.

(** X21. In every registry that [process_event] and [clear] calls produce
    from an empty [MissionStack], each record is held under its own
    localised name, in the ledger of its own issuing faction, in the bucket
    of its own target faction, and each ledger carries the name of the
    faction it is held under. *)
Theorem records_are_filed_by_their_fields (calls : list call) :
  records_filed (run calls MissionStack.__init__).
Proof.
  apply run_filed; [reflexivity|]. split; intros; discriminate.
Qed.

(** X22. In every registry that [process_event] and [clear] calls produce
    from an empty [MissionStack], [get_target_factions] lists exactly the
    target factions for which [get_issuing_factions] is not empty, and every
    issuing faction listed for a target faction has a ledger with at least
    one mission. *)
Theorem listed_targets_have_issuers (calls : list call) (target_faction : string) :
  let st := run calls MissionStack.__init__ in
  (In target_faction (MissionStack.get_target_factions st)
   <-> MissionStack.get_issuing_factions target_faction st <> [])
  /\ forall f,
       In f (MissionStack.get_issuing_factions target_faction st) ->
       exists fm,
         lookup_ledger target_faction f st = Some fm
         /\ FactionMissions.missions fm <> [].
Proof.
  cbv zeta.
  destruct (run_keeps calls MissionStack.__init__ (conj eq_refl eq_refl)) as [Hok Hne].
  set (st := run calls MissionStack.__init__) in *.
  unfold MissionStack.get_target_factions, MissionStack.get_issuing_factions,
    lookup_ledger.
  destruct (dict_find target_faction (MissionStack.missions st)) as [b|] eqn:Et.
  - pose proof (dict_find_Some_In _ _ _ _ Et) as Hin.
    destruct (no_empty_In st _ _ Hne Hin) as [Hb Hl].
    destruct (registry_ok_In st _ _ Hok Hin) as [_ Hbok].
    split.
    + split.
      * intros _ Hk. apply Hb. destruct b; [reflexivity | discriminate].
      * intros _. apply (dict_find_Some_keys _ _ _ _ Et).
    + intros f Hf. unfold dict_keys in Hf. apply in_map_iff in Hf.
      destruct Hf as [[f0 fm] [Heq Hfm]]. cbn [fst] in Heq. subst f0.
      exists fm. split; [apply (bucket_ok_In b f fm Hbok Hfm) | apply (Hl f fm Hfm)].
  - split.
    + split.
      * intros Hk. exfalso. revert Hk. now apply dict_find_None_keys.
      * intros H. now elim H.
    + intros f [].
Qed.

(** X23. [clear] forgets the history: whatever calls came before it, the
    registry after the calls that follow it is the one that these calls
    alone produce from an empty [MissionStack]; right after [clear] no
    target faction is listed, the summary counts no mission and no kill,
    and there is no kill ratio to report. *)
Theorem clear_forgets_history (calls1 calls2 : list call) (st : MissionStack.t) :
  run (calls1 ++ Clear :: calls2) st = run calls2 MissionStack.__init__
  /\ MissionStack.get_target_factions (run (calls1 ++ [Clear]) st) = []
  /\ MissionStack.get_summary (run (calls1 ++ [Clear]) st)
     = Ok {| MissionStack.s_target_factions := [];
             MissionStack.s_total_initial_kills := 0;
             MissionStack.s_total_current_kills := 0;
             MissionStack.s_total_reward := 0;
             MissionStack.s_total_missions := 0 |}
  /\ MissionStack.get_kill_ratios (run (calls1 ++ [Clear]) st) = Ok [].
Proof.
  unfold run. rewrite !fold_left_app. repeat split.
Qed.

End InvariantProperties.

Lemma aggregates_stay_exact_without_collision_witness :
  registry_ok scenario_registry = true
  /\ registry_consistent
       (snd (MissionStack.process_event (sample_completed 3) scenario_registry)).
Proof.
  assert (Hc : registry_consistent scenario_registry).
  { intros fm Hin. vm_compute in Hin.
    destruct Hin as [<-|[<-|[<-|[]]]]; repeat split; reflexivity. }
  assert (Hf : is_massacre_accept (sample_completed 3) = true ->
               key_taken (sample_completed 3) scenario_registry = false)
    by (intros H; discriminate H).
  split; [reflexivity|].
  apply (proj1 (aggregates_stay_exact_without_collision (DT := no_parser)
                  (sample_completed 3) scenario_registry eq_refl Hc Hf)).
Defined.

Section StackRatioFacts.
Context {DT : DateTimeLib}.
Implicit Types (st : MissionStack.t) (fm : FactionMissions.t).

Lemma dict_find_map_values (A B : Type) (g : string -> A -> B) (k : string) (d : dict A) :
  dict_find k (map (fun kv => (fst kv, g (fst kv) (snd kv))) d)
  = option_map (g k) (dict_find k d).
Proof.
  induction d as [|[k0 v0] d IH]; simpl; [reflexivity|].
  destruct (String.eqb k k0) eqn:E; [|exact IH].
  apply String.eqb_eq in E. now subst k0.
Qed.

Lemma dict_keys_map_values (A B : Type) (h : string * A -> B) (d : dict A) :
  dict_keys (map (fun kv => (fst kv, h kv)) d) = dict_keys d.
Proof. unfold dict_keys. rewrite map_map. reflexivity. Qed.

(** The bucket of a target faction as the calculator receives it. *)
Lemma registry_view_eq st :
  MissionStack.registry_view st
  = map (fun tb =>
           (fst tb,
            map (fun ff => (fst ff, KillRatioCalculator.LedgerObject (snd ff))) (snd tb)))
        (MissionStack.missions st).
Proof. reflexivity. Qed.

Lemma remaining_ledger_object fm :
  remaining (KillRatioCalculator.LedgerObject fm)
  = sum_current (dict_values (FactionMissions.missions fm)).
Proof.
  unfold remaining, sum_current. cbn [KillRatioCalculator.missions_of].
  now rewrite map_map.
Qed.

Lemma total_remaining_bucket (b : dict FactionMissions.t) :
  total_remaining
    (map (fun ff => (fst ff, KillRatioCalculator.LedgerObject (snd ff))) b)
  = sum_current (bucket_records b).
Proof.
  unfold total_remaining, remaining_per_faction, sum_current, bucket_records.
  rewrite map_map. cbn [snd].
  induction b as [|[f fm] b IH]; [reflexivity|].
  cbn [map flat_map snd zsum fold_right]. rewrite map_app, zsum_app.
  fold (zsum (map (fun x => remaining (KillRatioCalculator.LedgerObject (snd x))) b)).
  rewrite IH, remaining_ledger_object. reflexivity.
Qed.

(** The three cases of the ratio of a target faction. *)
Lemma target_ratio_cases target (factions_data : dict KillRatioCalculator.faction_view) :
  dict_ok factions_data = true ->
  let n := Z.of_nat (List.length factions_data) in
  (n = 1 -> ratio_of target factions_data = 1%Q)
  /\ (2 <= n -> total_remaining factions_data <= 0 ->
      ratio_of target factions_data = 0%Q)
  /\ (2 <= n -> 0 < total_remaining factions_data ->
      (ratio_of target factions_data == 1 / inject_Z n)%Q).
Proof.
  intros Hok n. unfold ratio_of, KillRatioCalculator._calculate_target_faction_ratio.
  fold n. rewrite (remaining_dict_eq factions_data Hok).
  set (d := map (fun kv => (fst kv, remaining (snd kv))) factions_data).
  assert (Hlen : Z.of_nat (List.length d) = n) by (unfold d, n; now rewrite length_map).
  assert (Hvals : zsum (dict_values d) = total_remaining factions_data).
  { unfold d. now rewrite remaining_dict_values. }
  split; [|split].
  - intros H1. now rewrite H1.
  - intros Hn Ht. destruct (n =? 1) eqn:E1; [lia|].
    rewrite (compute_kill_ratio_nonpositive d); [reflexivity | lia | lia].
  - intros Hn Ht. destruct (n =? 1) eqn:E1; [lia|].
    destruct (compute_kill_ratio_eq d) as [m [Hm [Hpos Hr]]]; [lia | lia |].
    rewrite Hr, Hvals, Hlen. apply ratio_simplifies; lia.
Qed.

Lemma registry_ok_view st :
  registry_ok st = true -> dict_ok (MissionStack.registry_view st) = true.
Proof.
  intros Hok. unfold registry_ok in Hok. apply andb_true_iff in Hok.
  destruct Hok as [Hd _]. unfold dict_ok in *.
  unfold MissionStack.registry_view, dict_keys in *. now rewrite map_map.
Qed.

Lemma bucket_ok_view (b : dict FactionMissions.t) :
  bucket_ok b = true ->
  dict_ok (map (fun ff => (fst ff, KillRatioCalculator.LedgerObject (snd ff))) b) = true.
Proof.
  intros Hok. unfold bucket_ok in Hok. apply andb_true_iff in Hok.
  destruct Hok as [Hd _]. unfold dict_ok, dict_keys in *. now rewrite map_map.
Qed.

(** What [get_kill_ratios] returns on a registry. *)
Lemma get_kill_ratios_value st :
  registry_ok st = true ->
  MissionStack.get_kill_ratios st
  = Ok (map (fun tb =>
               (fst tb,
                ratio_of (fst tb)
                  (map (fun ff => (fst ff, KillRatioCalculator.LedgerObject (snd ff)))
                       (snd tb))))
            (MissionStack.missions st)).
Proof.
  intros Hok. unfold MissionStack.get_kill_ratios, KillRatioCalculator.calculate_ratios.
  rewrite calculate_ratios_loop_value.
  rewrite (fold_left_setitem_fresh _ _ (fun tb => ratio_of (fst tb) (snd tb)) _ []
             (registry_ok_view st Hok)) by (intros; reflexivity).
  cbn [app]. rewrite registry_view_eq, map_map. reflexivity.
Qed.

(** What [get_detailed_kill_breakdown] returns on a registry. *)
Lemma get_detailed_kill_breakdown_value st :
  registry_ok st = true ->
  MissionStack.get_detailed_kill_breakdown st
  = Ok (map (fun tb =>
               let fd := map (fun ff => (fst ff, KillRatioCalculator.LedgerObject (snd ff)))
                           (snd tb) in
               (fst tb,
                {| KillRatioCalculator.ratio := ratio_of (fst tb) fd;
                   KillRatioCalculator.faction_details :=
                     fst (KillRatioCalculator.breakdown_factions fd [] 0);
                   KillRatioCalculator.total_remaining_kills :=
                     snd (KillRatioCalculator.breakdown_factions fd [] 0);
                   KillRatioCalculator.faction_count := Z.of_nat (List.length fd) |}))
            (MissionStack.missions st)).
Proof.
  intros Hok. unfold MissionStack.get_detailed_kill_breakdown,
    KillRatioCalculator.calculate_detailed_breakdown.
  rewrite breakdown_loop_value.
  rewrite (fold_left_setitem_fresh _ _
             (fun tb =>
                {| KillRatioCalculator.ratio := ratio_of (fst tb) (snd tb);
                   KillRatioCalculator.faction_details :=
                     fst (KillRatioCalculator.breakdown_factions (snd tb) [] 0);
                   KillRatioCalculator.total_remaining_kills :=
                     snd (KillRatioCalculator.breakdown_factions (snd tb) [] 0);
                   KillRatioCalculator.faction_count :=
                     Z.of_nat (List.length (snd tb)) |}) _ []
             (registry_ok_view st Hok)) by (intros; reflexivity).
  cbn [app]. rewrite registry_view_eq, map_map. reflexivity.
Qed.

End StackRatioFacts.


Section ProgressProperties.
Context {DT : DateTimeLib}.

Lemma sum_current_fresh (events : list event_data) :
  sum_current (map MissionData.__init__ events)
  = sum_initial (map MissionData.__init__ events).
Proof.
  unfold sum_current, sum_initial. rewrite !map_map. reflexivity.
Qed.

(** X26. What [get_progress_percentage] measures is the share of the kills
    that remain: a ledger built by adding missions under pairwise distinct
    localised names, none of them updated yet, reports 100 when its quotas
    sum to something else than 0, and 0.0 when they sum to 0. *)
Theorem untouched_ledger_reports_100 (faction_name : string) (events : list event_data) :
  let records := map MissionData.__init__ events in
  distinct (map MissionData.localised_name records) = true ->
  exists p,
    FactionMissions.get_progress_percentage
      (snd (add_all records (FactionMissions.__init__ faction_name))) = Ok p
    /\ (sum_initial records = 0 -> p = 0%Q)
    /\ (sum_initial records <> 0 -> (p == 100)%Q).
Proof.
  intros records Hd.
  rewrite (add_all_new records (FactionMissions.__init__ faction_name) Hd)
    by (intros; reflexivity).
  cbn [snd]. unfold FactionMissions.get_progress_percentage, int_truediv.
  cbn [FactionMissions.total_initial_kills FactionMissions.total_current_kills
       FactionMissions.__init__].
  unfold records at 3. rewrite sum_current_fresh. fold records.
  rewrite !Z.add_0_l.
  destruct (sum_initial records =? 0) eqn:E.
  - exists 0%Q. split; [reflexivity|]. split; [reflexivity|].
    intros H. apply Z.eqb_eq in E. contradiction.
  - cbn [rbind]. eexists. split; [reflexivity|]. apply Z.eqb_neq in E. split.
    + intros H. contradiction.
    + intros _.
      assert (Hq : ~ (inject_Z (sum_initial records) == 0)%Q).
      { unfold Qeq, inject_Z. simpl. lia. }
      field. exact Hq.
Qed.

End ProgressProperties.

Lemma untouched_ledger_reports_100_witness :
  exists p,
    FactionMissions.get_progress_percentage
      (snd (add_all (map (MissionData.__init__ (DT := no_parser))
                       [sample_accepted 1 "T" "F" "Kill A" 30 100;
                        sample_accepted 2 "T" "F" "Kill B" 45 200])
              (FactionMissions.__init__ "F"))) = Ok p
    /\ (p == 100)%Q.
Proof.
  destruct (untouched_ledger_reports_100 (DT := no_parser) "F"
              [sample_accepted 1 "T" "F" "Kill A" 30 100;
               sample_accepted 2 "T" "F" "Kill B" 45 200] eq_refl)
    as [p [Hp [_ H100]]].
  exists p. split; [exact Hp|]. apply H100. vm_compute. discriminate.
Defined.

Section SummaryStructureFacts.
Context {DT : DateTimeLib}.
Implicit Types (st : MissionStack.t) (fm : FactionMissions.t).

Lemma to_dict_eq fm : FactionMissions.to_dict fm = Ok (ledger_dict fm).
Proof.
  unfold FactionMissions.to_dict, ledger_dict,
    FactionMissions.get_progress_percentage, int_truediv.
  destruct (FactionMissions.total_initial_kills fm =? 0); reflexivity.
Qed.

Lemma summarize_factions_value items (ts : MissionStack.target_summary_t) :
  MissionStack.summarize_factions items ts
  = Ok {| MissionStack.ts_factions :=
            fold_left (fun acc ff => dict_setitem (fst ff) (ledger_dict (snd ff)) acc)
              items (MissionStack.ts_factions ts);
          MissionStack.ts_total_initial_kills :=
            MissionStack.ts_total_initial_kills ts
            + dict_sum FactionMissions.total_initial_kills items;
          MissionStack.ts_total_current_kills :=
            MissionStack.ts_total_current_kills ts
            + dict_sum FactionMissions.total_current_kills items;
          MissionStack.ts_total_reward :=
            MissionStack.ts_total_reward ts + dict_sum FactionMissions.total_reward items;
          MissionStack.ts_total_missions :=
            MissionStack.ts_total_missions ts + dict_sum record_count items |}.
Proof.
  revert ts. induction items as [|[f fm] items IH]; intros ts.
  - cbn [MissionStack.summarize_factions fold_left]. unfold dict_sum. cbn [map zsum fold_right].
    rewrite !Z.add_0_r. now destruct ts.
  - cbn [MissionStack.summarize_factions]. rewrite to_dict_eq. cbn [rbind].
    rewrite IH. rewrite !dict_sum_cons.
    cbn [fold_left fst snd MissionStack.ts_factions MissionStack.ts_total_initial_kills
         MissionStack.ts_total_current_kills MissionStack.ts_total_reward
         MissionStack.ts_total_missions ledger_dict
         FactionMissions.d_total_initial_kills FactionMissions.d_total_current_kills
         FactionMissions.d_total_reward FactionMissions.d_missions].
    unfold record_count at 2. rewrite length_map.
    f_equal. f_equal; lia.
Qed.

Lemma summarize_factions_fresh (bucket : dict FactionMissions.t) :
  MissionStack.summarize_factions bucket
    {| MissionStack.ts_factions := [];
       MissionStack.ts_total_initial_kills := 0;
       MissionStack.ts_total_current_kills := 0;
       MissionStack.ts_total_reward := 0;
       MissionStack.ts_total_missions := 0 |}
  = Ok (bucket_summary bucket).
Proof. rewrite summarize_factions_value. reflexivity. Qed.


End SummaryStructureFacts.

Section SummaryStructureProperties.
Context {DT : DateTimeLib}.
Implicit Types (st : MissionStack.t) (fm : FactionMissions.t).


End SummaryStructureProperties.


Section EventFacts.
Context {DT : DateTimeLib}.
Variable mission_entry : Type.
Variable now : datetime.

Lemma process_event_same_reads (e1 e2 : event_data) (st : MissionStack.t) :
  same_reads e1 e2 ->
  MissionStack.process_event e1 st = MissionStack.process_event e2 st.
Proof.
  intros [H1 [H2 [H3 [H4 [H5 [H6 [H7 [H8 [H9 [H10 [H11 [H12 H13]]]]]]]]]]]].
  assert (Hinit : MissionData.__init__ e1 = MissionData.__init__ e2).
  { unfold MissionData.__init__. now rewrite H2, H3, H4, H5, H6, H7, H8, H9, H10, H11, H12, H13. }
  unfold MissionStack.process_event, MissionStack.dispatch,
    MissionStack._handle_mission_accepted, MissionStack._handle_mission_completed,
    MissionStack._handle_mission_failed, MissionStack._handle_mission_abandoned.
  now rewrite H1, H2, H3, Hinit.
Qed.

Lemma process_event_missions (e : event_data) (st : MissionStack.t) :
  get (ev_event e) "" = "Missions" ->
  MissionStack.process_event e st = (Ok false, st).
Proof.
  intros H. unfold MissionStack.process_event, MissionStack.dispatch, try_except.
  rewrite H. reflexivity.
Qed.

Lemma get_over_keep (A : Type) (x : option A) (d : A) :
  get (Events.over x (Some (get x d))) d = get x d.
Proof. now destruct x. Qed.

Lemma over_None (A : Type) (x : option A) : Events.over x None = x.
Proof. now destruct x. Qed.

Lemma existsb_filter_absent (p : string) (f : string -> bool) (l : list string) :
  ~ In p l -> existsb (String.eqb p) (filter f l) = false.
Proof.
  intros H. destruct (existsb (String.eqb p) (filter f l)) eqn:E; [|reflexivity].
  exfalso. apply H. apply existsb_exists in E. destruct E as [x [Hin Heq]].
  apply String.eqb_eq in Heq. subst x. apply filter_In in Hin. apply Hin.
Qed.

Lemma other_key_kept (p : string) (excluded others : list string) :
  existsb (String.eqb p)
    (filter (fun k => negb (existsb (String.eqb k) excluded)) others) = true
  <-> In p others /\ existsb (String.eqb p) excluded = false.
Proof.
  rewrite existsb_exists. split.
  - intros [x [Hin Heq]]. apply String.eqb_eq in Heq. subst x.
    apply filter_In in Hin. destruct Hin as [Hin Hf].
    split; [exact Hin | now apply negb_true_iff].
  - intros [Hin Hf]. exists p. split; [|apply String.eqb_refl].
    apply filter_In. split; [exact Hin | now apply negb_true_iff].
Qed.

Lemma typed_key_absent (A : Type) (p key : string) (excluded : list string)
    (x : option A) :
  String.eqb p key = false \/ existsb (String.eqb p) excluded = true ->
  String.eqb p key && Events.present (Events.keep excluded key x) = false.
Proof.
  destruct (String.eqb p key) eqn:E; [|reflexivity].
  apply String.eqb_eq in E. subst key. intros [H|H]; [discriminate H|].
  unfold Events.keep. now rewrite H.
Qed.

(** A name that is no key of the journal schema, or is excluded, is a key of
    the filtered dictionary only as one of the remaining keys. *)
Lemma has_key_without (p : string) (excluded : list string)
    (json_data : Events.json mission_entry) :
  existsb (String.eqb p)
    ["event"; "MissionID"; "Name"; "LocalisedName"; "Faction"; "TargetFaction";
     "KillCount"; "Reward"; "Expiry"; "Wing"; "DestinationSystem";
     "DestinationStation"; "timestamp"; "TargetType"; "TargetType_Localised";
     "Influence"; "Reputation"; "Active"; "Failed"; "Complete"] = false
  \/ existsb (String.eqb p) excluded = true ->
  Events.has_key p (Events.without excluded json_data)
  = existsb (String.eqb p)
      (filter (fun k => negb (existsb (String.eqb k) excluded))
         (Events.other_keys json_data)).
Proof.
  intros H.
  assert (Hk : forall key,
            In key ["event"; "MissionID"; "Name"; "LocalisedName"; "Faction";
                    "TargetFaction"; "KillCount"; "Reward"; "Expiry"; "Wing";
                    "DestinationSystem"; "DestinationStation"; "timestamp";
                    "TargetType"; "TargetType_Localised"; "Influence"; "Reputation";
                    "Active"; "Failed"; "Complete"] ->
            String.eqb p key = false \/ existsb (String.eqb p) excluded = true).
  { intros key Hin. destruct H as [H|H]; [left | now right].
    destruct (String.eqb p key) eqn:E; [|reflexivity].
    rewrite <- H. symmetry. apply existsb_exists. exists key. now split. }
  unfold Events.has_key, Events.without.
  cbn [Events.journal Events.j_TargetType Events.j_TargetType_Localised
       Events.j_Influence Events.j_Reputation Events.j_Active Events.j_Failed
       Events.j_Complete Events.other_keys
       ev_event ev_MissionID ev_Name ev_LocalisedName ev_Faction ev_TargetFaction
       ev_KillCount ev_Reward ev_Expiry ev_Wing ev_DestinationSystem
       ev_DestinationStation ev_timestamp].
  rewrite !typed_key_absent by (apply Hk; cbn [In]; tauto).
  reflexivity.
Qed.

Lemma outcome_map_TypeError (A B : Type) (f : A -> B) (r : Events.outcome A) :
  Events.outcome_map f r = Events.TypeError <-> r = Events.TypeError.
Proof. destruct r; cbn; split; intros H; try discriminate H; reflexivity. Qed.

End EventFacts.

Section EventProperties.
Context {DT : DateTimeLib}.
Variable mission_entry : Type.
Variable now : datetime.

(** X25. By its event type, every event that [process_event] handles is one
    for which the factory [MissionEvent.from_json] does not return None,
    and every event for which the factory does not return None passes
    [is_mission_event]; the comparison with 'Missions' in
    [is_mission_event] adds nothing to the test of the prefix 'Mission'. *)
Theorem handled_events_pass_the_gate (json_data : Events.json mission_entry) :
  (forall st,
     fst (MissionStack.process_event (Events.journal json_data) st) = Ok true ->
     Events.from_json now json_data <> Events.Built None)
  /\ (Events.from_json now json_data <> Events.Built None ->
      Events.is_mission_event json_data = true)
  /\ Events.is_mission_event json_data
     = Events.startswith (get (ev_event (Events.journal json_data)) "") "Mission".
Proof.
  assert (Hgate : forall event_type kind : string,
            Events.startswith kind "Mission" = true ->
            String.eqb event_type kind = true ->
            Events.startswith event_type "Mission" = true).
  { intros event_type kind Hk E. apply String.eqb_eq in E. now subst. }
  assert (Hmap : forall (A : Type) (f : A -> option (Events.MissionEvent mission_entry))
                        (r : Events.outcome A),
            (forall a, f a <> None) -> Events.outcome_map f r <> Events.Built None).
  { intros A f r Hf. destruct r as [a|]; cbn; [|discriminate].
    intros [= H]. now apply (Hf a). }
  split; [|split].
  - intros st.
    unfold MissionStack.process_event, MissionStack.dispatch, try_except,
      Events.from_json.
    destruct (String.eqb (get (ev_event (Events.journal json_data)) "") "Missions");
      [intros _; discriminate|].
    destruct (String.eqb (get (ev_event (Events.journal json_data)) "") "MissionAccepted");
      [intros _; apply Hmap; discriminate|].
    destruct (String.eqb (get (ev_event (Events.journal json_data)) "") "MissionCompleted");
      [intros _; apply Hmap; discriminate|].
    destruct (String.eqb (get (ev_event (Events.journal json_data)) "") "MissionFailed");
      [intros _; apply Hmap; discriminate|].
    destruct (String.eqb (get (ev_event (Events.journal json_data)) "") "MissionAbandoned");
      [intros _; apply Hmap; discriminate|].
    intros H. discriminate H.
  - unfold Events.from_json, Events.is_mission_event.
    destruct (String.eqb (get (ev_event (Events.journal json_data)) "") "Missions") eqn:E0.
    + intros _. now rewrite (Hgate _ "Missions" eq_refl E0).
    + destruct (String.eqb (get (ev_event (Events.journal json_data)) "")
                  "MissionAccepted") eqn:Ea;
        [intros _; now rewrite (Hgate _ "MissionAccepted" eq_refl Ea)|].
      destruct (String.eqb (get (ev_event (Events.journal json_data)) "")
                  "MissionCompleted") eqn:Ec;
        [intros _; now rewrite (Hgate _ "MissionCompleted" eq_refl Ec)|].
      destruct (String.eqb (get (ev_event (Events.journal json_data)) "")
                  "MissionFailed") eqn:Ef;
        [intros _; now rewrite (Hgate _ "MissionFailed" eq_refl Ef)|].
      destruct (String.eqb (get (ev_event (Events.journal json_data)) "")
                  "MissionAbandoned") eqn:Eb;
        [intros _; now rewrite (Hgate _ "MissionAbandoned" eq_refl Eb)|].
      intros H. now elim H.
  - unfold Events.is_mission_event.
    destruct (String.eqb (get (ev_event (Events.journal json_data)) "") "Missions") eqn:E0.
    + now rewrite (Hgate _ "Missions" eq_refl E0).
    + apply orb_false_r.
Qed.

(** X28. The event objects are transparent to the registry. When the
    factory builds an object from a journal line, [process_event] on the
    dictionary that [to_dict] makes of that object returns what it returns
    on the line itself and leaves the same registry: the two classes of
    [events.py] and [MissionData] name the journal fields alike and give
    them the same defaults. *)
Theorem event_objects_are_transparent (json_data : Events.json mission_entry)
    (mission_event : Events.MissionEvent mission_entry) (st : MissionStack.t) :
  Events.from_json now json_data = Events.Built (Some mission_event) ->
  MissionStack.process_event (Events.journal (Events.to_dict mission_event)) st
  = MissionStack.process_event (Events.journal json_data) st.
Proof.
  unfold Events.from_json.
  destruct json_data as [[e1 e2 e3 e4 e5 e6 e7 e8 e9 e10 e11 e12 e13]
                           tt ttl inf rep act fai com others].
  cbn [Events.journal ev_event].
  destruct (String.eqb (get e1 "") "Missions") eqn:E0.
  { intros [= <-]. apply String.eqb_eq in E0.
    rewrite !process_event_missions; [reflexivity | exact E0 | reflexivity]. }
  destruct (String.eqb (get e1 "") "MissionAccepted") eqn:Ea.
  { apply String.eqb_eq in Ea.
    unfold Events.MissionAcceptedEvent_from_json.
    destruct (Events.collides _ _); [discriminate|].
    intros [= <-]. apply process_event_same_reads.
    unfold same_reads. cbn. rewrite Ea.
    repeat split;
      match goal with |- get ?x _ = get ?y _ => destruct y; reflexivity end. }
  destruct (String.eqb (get e1 "") "MissionCompleted") eqn:Ec.
  { apply String.eqb_eq in Ec.
    unfold Events.MissionCompletedEvent_from_json.
    destruct (Events.collides _ _); [discriminate|].
    intros [= <-]. apply process_event_same_reads.
    unfold same_reads. cbn. rewrite Ec.
    repeat split;
      match goal with |- get ?x _ = get ?y _ => destruct y; reflexivity end. }
  destruct (String.eqb (get e1 "") "MissionFailed") eqn:Ef.
  { apply String.eqb_eq in Ef.
    unfold Events.MissionFailedEvent_from_json.
    destruct (Events.collides _ _); [discriminate|].
    intros [= <-]. apply process_event_same_reads.
    unfold same_reads. cbn. rewrite Ef.
    repeat split;
      match goal with |- get ?x _ = get ?y _ => destruct y; reflexivity end. }
  destruct (String.eqb (get e1 "") "MissionAbandoned") eqn:Eb.
  { apply String.eqb_eq in Eb.
    unfold Events.MissionAbandonedEvent_from_json.
    destruct (Events.collides _ _); [discriminate|].
    intros [= <-]. apply process_event_same_reads.
    unfold same_reads. cbn. rewrite Eb.
    repeat split;
      match goal with |- get ?x _ = get ?y _ => destruct y; reflexivity end. }
  discriminate.
Qed.

(** X29. [MissionEvent.from_json] raises exactly when a key of the journal
    line, beyond the fields of the journal schema, is named [self] or like a
    parameter, other than timestamp, of the constructor of the class that
    the event type selects: Python then sees a keyword passed twice. A
    Missions event and an event of another type never make it raise. *)
Theorem from_json_raises_on_parameter_names (json_data : Events.json mission_entry) :
  let event_type := get (ev_event (Events.journal json_data)) "" in
  let params :=
    if String.eqb event_type "Missions" then []
    else if String.eqb event_type "MissionAccepted" then
      ["self"; "faction"; "name"; "localised_name"; "target_type";
       "target_type_localised"; "target_faction"; "kill_count";
       "destination_system"; "destination_station"; "expiry"; "wing";
       "influence"; "reputation"; "reward"; "mission_id"]
    else if String.eqb event_type "MissionCompleted" then
      ["self"; "faction"; "name"; "mission_id"; "reward"]
    else if String.eqb event_type "MissionFailed" then ["self"; "name"; "mission_id"]
    else if String.eqb event_type "MissionAbandoned" then ["self"; "name"; "mission_id"]
    else [] in
  Events.from_json now json_data = Events.TypeError
  <-> exists k, In k (Events.other_keys json_data) /\ In k params.
Proof.
  cbv zeta. unfold Events.from_json.
  destruct json_data as [[e1 e2 e3 e4 e5 e6 e7 e8 e9 e10 e11 e12 e13]
                           tt ttl inf rep act fai com others].
  cbn [Events.journal ev_event Events.other_keys].
  destruct (String.eqb (get e1 "") "Missions").
  { split; [discriminate | intros [k [_ []]]]. }
  destruct (String.eqb (get e1 "") "MissionAccepted").
  { unfold Events.MissionAcceptedEvent_from_json. rewrite outcome_map_TypeError.
    match goal with |- (if ?c then _ else _) = _ <-> _ => destruct c eqn:Ec end.
    - split; [intros _ | reflexivity].
      unfold Events.collides in Ec. apply existsb_exists in Ec.
      destruct Ec as [p [Hp Hk]]. exists p.
      cbn [In] in Hp.
      repeat (destruct Hp as [<-|Hp];
              [rewrite has_key_without in Hk by (first [left; reflexivity | right; reflexivity]);
               apply other_key_kept in Hk; destruct Hk as [Hin Hex];
               first [discriminate Hex | split; [exact Hin | cbn; tauto]]|]).
      contradiction.
    - split; [discriminate|]. intros [k [Hin Hp]]. exfalso.
      unfold Events.collides in Ec.
      match type of Ec with
      | existsb ?f ?l = false =>
          assert (Hc : exists p, In p l /\ f p = true)
      end.
      { exists k. split; [cbn [In] in *; tauto|].
        cbn [In] in Hp.
        repeat (destruct Hp as [<-|Hp];
                [rewrite has_key_without by (left; reflexivity);
                 apply other_key_kept; split; [exact Hin | reflexivity]|]).
        contradiction. }
      apply existsb_exists in Hc. rewrite Hc in Ec. discriminate Ec. }
  destruct (String.eqb (get e1 "") "MissionCompleted").
  { unfold Events.MissionCompletedEvent_from_json. rewrite outcome_map_TypeError.
    match goal with |- (if ?c then _ else _) = _ <-> _ => destruct c eqn:Ec end.
    - split; [intros _ | reflexivity].
      unfold Events.collides in Ec. apply existsb_exists in Ec.
      destruct Ec as [p [Hp Hk]]. exists p.
      cbn [In] in Hp.
      repeat (destruct Hp as [<-|Hp];
              [rewrite has_key_without in Hk by (first [left; reflexivity | right; reflexivity]);
               apply other_key_kept in Hk; destruct Hk as [Hin Hex];
               first [discriminate Hex | split; [exact Hin | cbn; tauto]]|]).
      contradiction.
    - split; [discriminate|]. intros [k [Hin Hp]]. exfalso.
      unfold Events.collides in Ec.
      match type of Ec with
      | existsb ?f ?l = false =>
          assert (Hc : exists p, In p l /\ f p = true)
      end.
      { exists k. split; [cbn [In] in *; tauto|].
        cbn [In] in Hp.
        repeat (destruct Hp as [<-|Hp];
                [rewrite has_key_without by (left; reflexivity);
                 apply other_key_kept; split; [exact Hin | reflexivity]|]).
        contradiction. }
      apply existsb_exists in Hc. rewrite Hc in Ec. discriminate Ec. }
  destruct (String.eqb (get e1 "") "MissionFailed").
  { unfold Events.MissionFailedEvent_from_json. rewrite outcome_map_TypeError.
    match goal with |- (if ?c then _ else _) = _ <-> _ => destruct c eqn:Ec end.
    - split; [intros _ | reflexivity].
      unfold Events.collides in Ec. apply existsb_exists in Ec.
      destruct Ec as [p [Hp Hk]]. exists p.
      cbn [In] in Hp.
      repeat (destruct Hp as [<-|Hp];
              [rewrite has_key_without in Hk by (first [left; reflexivity | right; reflexivity]);
               apply other_key_kept in Hk; destruct Hk as [Hin Hex];
               first [discriminate Hex | split; [exact Hin | cbn; tauto]]|]).
      contradiction.
    - split; [discriminate|]. intros [k [Hin Hp]]. exfalso.
      unfold Events.collides in Ec.
      match type of Ec with
      | existsb ?f ?l = false =>
          assert (Hc : exists p, In p l /\ f p = true)
      end.
      { exists k. split; [cbn [In] in *; tauto|].
        cbn [In] in Hp.
        repeat (destruct Hp as [<-|Hp];
                [rewrite has_key_without by (left; reflexivity);
                 apply other_key_kept; split; [exact Hin | reflexivity]|]).
        contradiction. }
      apply existsb_exists in Hc. rewrite Hc in Ec. discriminate Ec. }
  destruct (String.eqb (get e1 "") "MissionAbandoned").
  { unfold Events.MissionAbandonedEvent_from_json. rewrite outcome_map_TypeError.
    match goal with |- (if ?c then _ else _) = _ <-> _ => destruct c eqn:Ec end.
    - split; [intros _ | reflexivity].
      unfold Events.collides in Ec. apply existsb_exists in Ec.
      destruct Ec as [p [Hp Hk]]. exists p.
      cbn [In] in Hp.
      repeat (destruct Hp as [<-|Hp];
              [rewrite has_key_without in Hk by (first [left; reflexivity | right; reflexivity]);
               apply other_key_kept in Hk; destruct Hk as [Hin Hex];
               first [discriminate Hex | split; [exact Hin | cbn; tauto]]|]).
      contradiction.
    - split; [discriminate|]. intros [k [Hin Hp]]. exfalso.
      unfold Events.collides in Ec.
      match type of Ec with
      | existsb ?f ?l = false =>
          assert (Hc : exists p, In p l /\ f p = true)
      end.
      { exists k. split; [cbn [In] in *; tauto|].
        cbn [In] in Hp.
        repeat (destruct Hp as [<-|Hp];
                [rewrite has_key_without by (left; reflexivity);
                 apply other_key_kept; split; [exact Hin | reflexivity]|]).
        contradiction. }
      apply existsb_exists in Hc. rewrite Hc in Ec. discriminate Ec. }
  split; [discriminate | intros [k [_ []]]].
Qed.

End EventProperties.

Lemma event_objects_are_transparent_witness :
  exists mission_event,
    Events.from_json (DT := no_parser) tt
      (@Events.mk_json unit scenario_1 None None None None None None None ["Cmdr"])
    = Events.Built (Some mission_event)
    /\ MissionStack.process_event (DT := no_parser)
         (Events.journal (Events.to_dict mission_event)) MissionStack.__init__
       = MissionStack.process_event scenario_1 MissionStack.__init__.
Proof.
  eassert (E : Events.from_json (DT := no_parser) tt
                 (@Events.mk_json unit scenario_1 None None None None None None None
                    ["Cmdr"])
               = Events.Built (Some _)) by (vm_compute; reflexivity).
  eexists. split; [exact E|].
  apply (event_objects_are_transparent (DT := no_parser) unit tt _ _
           MissionStack.__init__ E).
Defined.

(** * The range of binary64 *)

Section RangeFacts.
Context {DT : DateTimeLib}.
Implicit Types (st : MissionStack.t) (fm : FactionMissions.t).

Lemma overflow_threshold_gt_1 : 1 < Binary64.overflow_threshold.
Proof. vm_compute. reflexivity. Qed.

Lemma ranged_refl (A : Type) (r : result A) : Binary64.ranged r r.
Proof. now left. Qed.

Lemma ranged_rbind (A B : Type) (r ideal : result A) (k k' : A -> result B) :
  Binary64.ranged r ideal ->
  (forall a, Binary64.ranged (k a) (k' a)) ->
  Binary64.ranged (rbind r k) (rbind ideal k').
Proof.
  intros [->| ->] Hk.
  - destruct ideal as [a|e]; cbn [rbind]; [apply Hk | now left].
  - now right.
Qed.

Lemma ranged_Ok (A : Type) (r ideal : result A) (a : A) :
  Binary64.ranged r ideal -> r = Ok a -> ideal = Ok a.
Proof. intros [->| ->] H; [exact H | discriminate H]. Qed.

Lemma ranged_Raise (A : Type) (r ideal : result A) (e : exn) :
  Binary64.ranged r ideal -> (exists a, ideal = Ok a) -> r = Raise e ->
  e = OverflowError.
Proof.
  intros [->| ->] [a Ha] H; [rewrite Ha in H; discriminate H | now injection H].
Qed.

Lemma int_truediv_ranged (a b : Z) :
  Binary64.ranged (Binary64.int_truediv a b) (int_truediv a b).
Proof.
  unfold Binary64.int_truediv, int_truediv.
  destruct (b =? 0); [now left|].
  destruct (Binary64.overflow_threshold * Z.abs b <=? Z.abs a); [now right | now left].
Qed.

Lemma float_int_truediv_ranged (x : Q) (b : Z) :
  Binary64.ranged (Binary64.float_int_truediv x b) (float_int_truediv x b).
Proof.
  unfold Binary64.float_int_truediv, float_int_truediv.
  destruct (Binary64.overflow_threshold <=? Z.abs b); [now right | now left].
Qed.

Lemma int_truediv_in_range (a b : Z) :
  b <> 0 -> Z.abs a < Binary64.overflow_threshold * Z.abs b ->
  Binary64.int_truediv a b = Ok (inject_Z a / inject_Z b)%Q.
Proof.
  intros Hb Ha. unfold Binary64.int_truediv.
  apply Z.eqb_neq in Hb. rewrite Hb.
  apply Z.leb_gt in Ha. now rewrite Ha.
Qed.

Lemma float_int_truediv_in_range (x : Q) (b : Z) :
  b <> 0 -> Z.abs b < Binary64.overflow_threshold ->
  Binary64.float_int_truediv x b = Ok (x / inject_Z b)%Q.
Proof.
  intros Hb Ha. unfold Binary64.float_int_truediv.
  apply Z.leb_gt in Ha. rewrite Ha.
  apply Z.eqb_neq in Hb. now rewrite Hb.
Qed.

(** ** The progress percentage and the summary *)

Lemma get_progress_percentage_range fm :
  Binary64.get_progress_percentage fm
  = if Binary64.ledger_in_range fm then FactionMissions.get_progress_percentage fm
    else Raise OverflowError.
Proof.
  unfold Binary64.get_progress_percentage, FactionMissions.get_progress_percentage,
    Binary64.ledger_in_range, Binary64.int_truediv, int_truediv.
  destruct (FactionMissions.total_initial_kills fm =? 0); cbn [orb]; [reflexivity|].
  rewrite Z.ltb_antisym.
  destruct (Binary64.overflow_threshold * Z.abs (FactionMissions.total_initial_kills fm)
            <=? Z.abs (FactionMissions.total_current_kills fm)); reflexivity.
Qed.

Lemma to_dict_range fm :
  Binary64.to_dict fm
  = if Binary64.ledger_in_range fm then Ok (ledger_dict fm) else Raise OverflowError.
Proof.
  rewrite <- to_dict_eq. unfold Binary64.to_dict, FactionMissions.to_dict.
  rewrite get_progress_percentage_range.
  destruct (Binary64.ledger_in_range fm); reflexivity.
Qed.

Lemma summarize_factions_range items (ts : MissionStack.target_summary_t) :
  Binary64.summarize_factions items ts
  = if forallb (fun ff => Binary64.ledger_in_range (snd ff)) items
    then MissionStack.summarize_factions items ts
    else Raise OverflowError.
Proof.
  revert ts. induction items as [|[f fm] items IH]; intros ts; [reflexivity|].
  cbn [Binary64.summarize_factions MissionStack.summarize_factions forallb snd].
  rewrite to_dict_range, to_dict_eq.
  destruct (Binary64.ledger_in_range fm); cbn [rbind andb]; [apply IH | reflexivity].
Qed.

Lemma summarize_targets_range items (s : MissionStack.summary_t) :
  Binary64.summarize_targets items s
  = if forallb (fun tb => forallb (fun ff => Binary64.ledger_in_range (snd ff)) (snd tb))
         items
    then MissionStack.summarize_targets items s
    else Raise OverflowError.
Proof.
  revert s. induction items as [|[t b] items IH]; intros s; [reflexivity|].
  cbn [Binary64.summarize_targets MissionStack.summarize_targets forallb snd].
  rewrite summarize_factions_range, summarize_factions_fresh.
  destruct (forallb (fun ff => Binary64.ledger_in_range (snd ff)) b);
    cbn [rbind andb]; [apply IH | reflexivity].
Qed.

Lemma get_summary_range st :
  Binary64.get_summary st
  = if Binary64.registry_in_range st then MissionStack.get_summary st
    else Raise OverflowError.
Proof. apply summarize_targets_range. Qed.

End RangeFacts.

Section RatioRangeFacts.
Context {DT : DateTimeLib}.
Implicit Types (st : MissionStack.t) (fm : FactionMissions.t).

Lemma compute_kill_ratio_ranged (d : dict Z) :
  Binary64.ranged (Binary64._compute_kill_ratio d)
    (KillRatioCalculator._compute_kill_ratio d).
Proof.
  unfold Binary64._compute_kill_ratio, KillRatioCalculator._compute_kill_ratio.
  destruct (Z.of_nat (List.length d) =? 0); [apply ranged_refl|].
  destruct (Z.of_nat (List.length d) =? 1); [apply ranged_refl|].
  destruct (KillRatioCalculator.py_sum (dict_values d) =? 0); [apply ranged_refl|].
  apply ranged_rbind; [apply ranged_refl|]. intros m.
  apply ranged_rbind; [apply int_truediv_ranged|]. intros avg.
  apply ranged_rbind.
  { destruct (0 <? m); [apply float_int_truediv_ranged | apply ranged_refl]. }
  intros dist. apply ranged_rbind.
  { destruct (0 <? KillRatioCalculator.py_sum (dict_values d));
      [apply int_truediv_ranged | apply ranged_refl]. }
  intros base. apply ranged_refl.
Qed.

Lemma target_ratio_ranged target (factions_data : dict KillRatioCalculator.faction_view) :
  Binary64.ranged (Binary64._calculate_target_faction_ratio target factions_data)
    (Ok (ratio_of target factions_data)).
Proof.
  rewrite <- ratio_of_eq.
  unfold Binary64._calculate_target_faction_ratio,
    KillRatioCalculator._calculate_target_faction_ratio.
  destruct (Z.of_nat (List.length factions_data) =? 1); [apply ranged_refl|].
  apply compute_kill_ratio_ranged.
Qed.

Lemma max_le_sum_nonneg (x : Z) (xs : list Z) :
  (forall y, In y (x :: xs) -> 0 <= y) ->
  0 <= fold_right Z.max x xs <= zsum (x :: xs).
Proof.
  induction xs as [|y xs IH]; intros H.
  - cbn. pose proof (H x (or_introl eq_refl)). lia.
  - assert (H' : forall z, In z (x :: xs) -> 0 <= z).
    { intros z [->|Hz]; apply H; [now left | right; now right]. }
    specialize (IH H'). pose proof (H y (or_intror (or_introl eq_refl))) as Hy.
    cbn [fold_right zsum] in *. fold (zsum xs) in *. lia.
Qed.

(** Kill counts that are not negative, with a total below the threshold,
    keep every division of [_compute_kill_ratio] within the range. *)
Lemma compute_kill_ratio_in_range (d : dict Z) :
  (forall x, In x (dict_values d) -> 0 <= x) ->
  zsum (dict_values d) < Binary64.overflow_threshold ->
  exists r, Binary64._compute_kill_ratio d = Ok r.
Proof.
  intros Hnn Hlt. unfold Binary64._compute_kill_ratio.
  destruct (Z.of_nat (List.length d) =? 0) eqn:E0; [eauto|].
  destruct (Z.of_nat (List.length d) =? 1) eqn:E1; [eauto|].
  rewrite py_sum_zsum.
  destruct (zsum (dict_values d) =? 0) eqn:Ez; [eauto|].
  destruct d as [|[k x] d]; [discriminate E0|].
  cbn [dict_values map snd KillRatioCalculator.py_max rbind] in *.
  rewrite fold_left_max_eq.
  fold (dict_values d) in *.
  pose proof (max_le_sum_nonneg x (dict_values d) Hnn) as [Hm0 Hms].
  pose proof overflow_threshold_gt_1 as HT.
  set (m := fold_right Z.max x (dict_values d)) in *.
  set (total := zsum (x :: dict_values d)) in *.
  set (n := Z.of_nat (List.length ((k, x) :: d))) in *.
  apply Z.eqb_neq in E0, E1, Ez.
  assert (Hn : 2 <= n) by (unfold n in *; lia).
  assert (Htot : 0 < total) by lia.
  rewrite (int_truediv_in_range total n) by (try lia; rewrite !Z.abs_eq by lia; nia).
  cbn [rbind].
  destruct (0 <? m) eqn:Em.
  - apply Z.ltb_lt in Em.
    rewrite float_int_truediv_in_range by (try lia; rewrite Z.abs_eq by lia; lia).
    cbn [rbind]. apply Z.ltb_lt in Htot. rewrite Htot. apply Z.ltb_lt in Htot.
    rewrite (int_truediv_in_range m total) by (try lia; rewrite !Z.abs_eq by lia; nia).
    cbn [rbind]. eauto.
  - cbn [rbind]. apply Z.ltb_lt in Htot. rewrite Htot. apply Z.ltb_lt in Htot.
    rewrite (int_truediv_in_range m total) by (try lia; rewrite !Z.abs_eq by lia; nia).
    cbn [rbind]. eauto.
Qed.

Lemma target_ratio_in_range target (factions_data : dict KillRatioCalculator.faction_view) :
  dict_ok factions_data = true ->
  (forall x, In x (remaining_per_faction factions_data) -> 0 <= x) ->
  total_remaining factions_data < Binary64.overflow_threshold ->
  exists r, Binary64._calculate_target_faction_ratio target factions_data = Ok r.
Proof.
  intros Hok Hnn Hlt. unfold Binary64._calculate_target_faction_ratio.
  destruct (Z.of_nat (List.length factions_data) =? 1); [eauto|].
  rewrite (remaining_dict_eq factions_data Hok).
  apply compute_kill_ratio_in_range; rewrite remaining_dict_values; assumption.
Qed.

(** The loops return exactly when every target faction is within the range. *)
Lemma calculate_ratios_loop_range
    (items : list (string * dict KillRatioCalculator.faction_view)) (acc : dict Q) :
  Binary64.calculate_ratios_loop items acc
  = if forallb
         (fun tb =>
            match Binary64._calculate_target_faction_ratio (fst tb) (snd tb) with
            | Ok _ => true
            | Raise _ => false
            end) items
    then KillRatioCalculator.calculate_ratios_loop items acc
    else Raise OverflowError.
Proof.
  revert acc. induction items as [|[t fd] items IH]; intros acc; [reflexivity|].
  cbn [Binary64.calculate_ratios_loop KillRatioCalculator.calculate_ratios_loop
       forallb fst snd].
  rewrite ratio_of_eq.
  destruct (target_ratio_ranged t fd) as [H|H]; rewrite H; cbn [rbind andb];
    [apply IH | reflexivity].
Qed.

Lemma breakdown_loop_range
    (items : list (string * dict KillRatioCalculator.faction_view))
    (acc : dict KillRatioCalculator.target_breakdown) :
  Binary64.breakdown_loop items acc
  = if forallb
         (fun tb =>
            match Binary64._calculate_target_faction_ratio (fst tb) (snd tb) with
            | Ok _ => true
            | Raise _ => false
            end) items
    then KillRatioCalculator.breakdown_loop items acc
    else Raise OverflowError.
Proof.
  revert acc. induction items as [|[t fd] items IH]; intros acc; [reflexivity|].
  cbn [Binary64.breakdown_loop KillRatioCalculator.breakdown_loop forallb fst snd].
  destruct (KillRatioCalculator.breakdown_factions fd [] 0) as [details total].
  rewrite ratio_of_eq.
  destruct (target_ratio_ranged t fd) as [H|H]; rewrite H; cbn [rbind andb];
    [apply IH | reflexivity].
Qed.

End RatioRangeFacts.

Section RangeCharacterisation.
Context {DT : DateTimeLib}.
Implicit Types (st : MissionStack.t) (fm : FactionMissions.t).

Lemma forallb_pointwise (A : Type) (f g : A -> bool) (l : list A) :
  (forall x, f x = g x) -> forallb f l = forallb g l.
Proof.
  intros H. induction l as [|x l IH]; [reflexivity|].
  cbn [forallb]. now rewrite H, IH.
Qed.

Lemma forallb_false_exists (A : Type) (f : A -> bool) (l : list A) :
  forallb f l = false -> exists x, In x l /\ f x = false.
Proof.
  induction l as [|x l IH]; [discriminate|].
  cbn [forallb]. destruct (f x) eqn:E; cbn [andb].
  - intros H. destruct (IH H) as [y [Hy Hf]]. exists y. split; [now right | exact Hf].
  - intros _. exists x. split; [now left | exact E].
Qed.

(** [_compute_kill_ratio] returns what it returns without a range exactly
    when its divisions are within the range, and raises OverflowError
    otherwise. *)
Lemma compute_kill_ratio_range (d : dict Z) :
  Binary64._compute_kill_ratio d
  = if Binary64.kills_in_range d then KillRatioCalculator._compute_kill_ratio d
    else Raise OverflowError.
Proof.
  unfold Binary64._compute_kill_ratio, KillRatioCalculator._compute_kill_ratio,
    Binary64.kills_in_range, Binary64.int_truediv, Binary64.float_int_truediv,
    int_truediv, float_int_truediv.
  destruct d as [|[k x] d]; [reflexivity|].
  cbn [dict_values map snd KillRatioCalculator.py_max rbind].
  fold (dict_values d).
  generalize (fold_left (fun m y : Z => if m <? y then y else m) (dict_values d) x).
  generalize (KillRatioCalculator.py_sum (x :: dict_values d)).
  assert (Hn : 1 <= Z.of_nat (List.length ((k, x) :: d)))
    by (cbn [List.length]; lia).
  revert Hn. generalize (Z.of_nat (List.length ((k, x) :: d))).
  generalize Binary64.overflow_threshold.
  intros T n Hn total m.
  destruct (Z.eqb_spec n 0); [lia|].
  destruct (Z.eqb_spec n 1); destruct (Z.leb_spec n 1); try lia;
    cbn [orb]; [reflexivity|].
  destruct (Z.eqb_spec total 0); cbn [orb]; [reflexivity|].
  destruct (Z.leb_spec (T * Z.abs n) (Z.abs total));
    destruct (Z.ltb_spec (Z.abs total) (T * Z.abs n)); try lia;
    cbn [rbind andb]; [reflexivity|].
  destruct (Z.ltb_spec 0 m); destruct (Z.leb_spec m 0); try lia; cbn [orb].
  - destruct (Z.leb_spec T (Z.abs m)); destruct (Z.ltb_spec (Z.abs m) T); try lia;
      cbn [rbind andb]; [reflexivity|].
    destruct (Z.eqb_spec m 0); [lia|]. cbn [rbind].
    destruct (Z.ltb_spec 0 total); destruct (Z.leb_spec total 0); try lia;
      cbn [orb rbind]; [|reflexivity].
    destruct (Z.leb_spec (T * Z.abs total) (Z.abs m));
      destruct (Z.ltb_spec (Z.abs m) (T * Z.abs total)); try lia;
      cbn [rbind]; reflexivity.
  - cbn [rbind andb].
    destruct (Z.ltb_spec 0 total); destruct (Z.leb_spec total 0); try lia;
      cbn [orb rbind]; [|reflexivity].
    destruct (Z.leb_spec (T * Z.abs total) (Z.abs m));
      destruct (Z.ltb_spec (Z.abs m) (T * Z.abs total)); try lia;
      cbn [rbind]; reflexivity.
Qed.

Lemma target_ratio_range target (factions_data : dict KillRatioCalculator.faction_view) :
  Binary64._calculate_target_faction_ratio target factions_data
  = if Binary64.target_in_range factions_data
    then KillRatioCalculator._calculate_target_faction_ratio target factions_data
    else Raise OverflowError.
Proof.
  unfold Binary64._calculate_target_faction_ratio, Binary64.target_in_range,
    KillRatioCalculator._calculate_target_faction_ratio.
  destruct (Z.of_nat (List.length factions_data) =? 1); cbn [orb]; [reflexivity|].
  apply compute_kill_ratio_range.
Qed.

Lemma target_returns_in_range target
    (factions_data : dict KillRatioCalculator.faction_view) :
  match Binary64._calculate_target_faction_ratio target factions_data with
  | Ok _ => true
  | Raise _ => false
  end = Binary64.target_in_range factions_data.
Proof.
  rewrite target_ratio_range.
  destruct (Binary64.target_in_range factions_data); [now rewrite ratio_of_eq | reflexivity].
Qed.

Lemma target_in_range_value target
    (factions_data : dict KillRatioCalculator.faction_view) :
  Binary64.target_in_range factions_data = true ->
  Binary64._calculate_target_faction_ratio target factions_data
  = Ok (ratio_of target factions_data).
Proof. intros H. now rewrite target_ratio_range, H, ratio_of_eq. Qed.

Lemma target_out_of_range target
    (factions_data : dict KillRatioCalculator.faction_view) :
  Binary64.target_in_range factions_data = false ->
  Binary64._calculate_target_faction_ratio target factions_data = Raise OverflowError.
Proof. intros H. now rewrite target_ratio_range, H. Qed.

(** Remaining kills that are not negative, with a total below the
    threshold, are within the range. *)
Lemma target_in_range_nonneg (factions_data : dict KillRatioCalculator.faction_view) :
  dict_ok factions_data = true ->
  (forall x, In x (remaining_per_faction factions_data) -> 0 <= x) ->
  total_remaining factions_data < Binary64.overflow_threshold ->
  Binary64.target_in_range factions_data = true.
Proof.
  intros Hok Hnn Hlt.
  destruct (target_ratio_in_range EmptyString factions_data Hok Hnn Hlt) as [r Hr].
  rewrite target_ratio_range in Hr.
  destruct (Binary64.target_in_range factions_data); [reflexivity | discriminate Hr].
Qed.

Lemma calculate_ratios_range
    (mission_stack : dict (dict KillRatioCalculator.faction_view)) :
  Binary64.calculate_ratios mission_stack
  = if Binary64.stack_in_range mission_stack
    then KillRatioCalculator.calculate_ratios mission_stack
    else Raise OverflowError.
Proof.
  unfold Binary64.calculate_ratios, KillRatioCalculator.calculate_ratios,
    Binary64.stack_in_range.
  rewrite calculate_ratios_loop_range.
  rewrite (forallb_pointwise _ _ (fun tb => Binary64.target_in_range (snd tb)));
    [reflexivity|].
  intros tb. apply target_returns_in_range.
Qed.

Lemma calculate_detailed_breakdown_range
    (mission_stack : dict (dict KillRatioCalculator.faction_view)) :
  Binary64.calculate_detailed_breakdown mission_stack
  = if Binary64.stack_in_range mission_stack
    then KillRatioCalculator.calculate_detailed_breakdown mission_stack
    else Raise OverflowError.
Proof.
  unfold Binary64.calculate_detailed_breakdown,
    KillRatioCalculator.calculate_detailed_breakdown, Binary64.stack_in_range.
  rewrite breakdown_loop_range.
  rewrite (forallb_pointwise _ _ (fun tb => Binary64.target_in_range (snd tb)));
    [reflexivity|].
  intros tb. apply target_returns_in_range.
Qed.

Lemma stack_out_of_range (mission_stack : dict (dict KillRatioCalculator.faction_view)) :
  Binary64.stack_in_range mission_stack = false ->
  exists target factions_data,
    In (target, factions_data) mission_stack
    /\ Binary64.target_in_range factions_data = false.
Proof.
  intros H. destruct (forallb_false_exists _ _ _ H) as [[t fd] [Hin Hf]].
  exists t, fd. split; assumption.
Qed.

Lemma registry_out_of_range st :
  Binary64.registry_in_range st = false ->
  exists fm, In fm (all_ledgers st) /\ Binary64.ledger_in_range fm = false.
Proof.
  intros H. destruct (forallb_false_exists _ _ _ H) as [[t b] [Hin Hb]].
  destruct (forallb_false_exists _ _ _ Hb) as [[f fm] [Hinf Hf]].
  exists fm. split; [|exact Hf].
  unfold all_ledgers. apply in_flat_map. exists (t, b). split; [exact Hin|].
  unfold dict_values. apply in_map_iff. exists (f, fm). split; [reflexivity | exact Hinf].
Qed.

End RangeCharacterisation.

Section StackRangeFacts.
Context {DT : DateTimeLib}.
Implicit Types (st : MissionStack.t) (fm : FactionMissions.t).

Lemma zsum_nonneg (xs : list Z) : (forall x, In x xs -> 0 <= x) -> 0 <= zsum xs.
Proof.
  induction xs as [|x xs IH]; intros H; [cbn; lia|].
  cbn [zsum fold_right]. fold (zsum xs).
  pose proof (H x (or_introl eq_refl)).
  assert (0 <= zsum xs) by (apply IH; intros y Hy; apply H; now right).
  lia.
Qed.

Lemma get_kill_ratios_range st :
  Binary64.get_kill_ratios st
  = if Binary64.stack_in_range (MissionStack.registry_view st)
    then MissionStack.get_kill_ratios st
    else Raise OverflowError.
Proof. apply calculate_ratios_range. Qed.

Lemma get_detailed_kill_breakdown_range st :
  Binary64.get_detailed_kill_breakdown st
  = if Binary64.stack_in_range (MissionStack.registry_view st)
    then MissionStack.get_detailed_kill_breakdown st
    else Raise OverflowError.
Proof. apply calculate_detailed_breakdown_range. Qed.

(** Current kill counts that are not negative, with a sum below the
    threshold for every target faction, keep the ratios within the range. *)
Lemma registry_view_in_range st :
  registry_ok st = true ->
  (forall r, In r (all_records st) -> 0 <= MissionData.current_kill_count r) ->
  (forall t b, In (t, b) (MissionStack.missions st) ->
               sum_current (bucket_records b) < Binary64.overflow_threshold) ->
  Binary64.stack_in_range (MissionStack.registry_view st) = true.
Proof.
  intros Hok Hnn Hlt. unfold Binary64.stack_in_range.
  apply forallb_forall. intros tb Hin.
  rewrite registry_view_eq in Hin. apply in_map_iff in Hin.
  destruct Hin as [[t b] [<- Hin]]. cbn [fst snd].
  destruct (registry_ok_In st t b Hok Hin) as [_ Hbok].
  apply target_in_range_nonneg.
  - apply bucket_ok_view, Hbok.
  - intros x Hx. unfold remaining_per_faction in Hx. rewrite map_map in Hx.
    apply in_map_iff in Hx. destruct Hx as [[f fm] [<- Hf]]. cbn [snd].
    rewrite remaining_ledger_object. unfold sum_current. apply zsum_nonneg.
    intros y Hy. apply in_map_iff in Hy. destruct Hy as [r [<- Hr]].
    apply Hnn. unfold all_records. apply in_flat_map. exists (t, b).
    split; [exact Hin|]. unfold bucket_records. apply in_flat_map.
    exists (f, fm). split; [exact Hf | exact Hr].
  - rewrite total_remaining_bucket. apply (Hlt t b Hin).
Qed.

End StackRangeFacts.

Section RangeProperties.
Context {DT : DateTimeLib}.
Implicit Types (st : MissionStack.t) (fm : FactionMissions.t).

(** X1. [_calculate_target_faction_ratio] raises nothing but the
    OverflowError of a division beyond the range of floats: within the
    range ([Binary64.target_in_range]) it returns a ratio between 0 and 1,
    as its docstring says, whatever the shape and the counts of the
    factions (negative counts included); beyond it, it raises
    OverflowError. Remaining kills that are not negative, with a total
    below [2^1024 - 2^970], are within the range. *)
Theorem ratio_between_0_and_1_within_range (target : string)
    (factions_data : dict KillRatioCalculator.faction_view) :
  (if Binary64.target_in_range factions_data
   then exists r,
          Binary64._calculate_target_faction_ratio target factions_data = Ok r
          /\ (0 <= r)%Q /\ (r <= 1)%Q
   else Binary64._calculate_target_faction_ratio target factions_data
        = Raise OverflowError)
  /\ (dict_ok factions_data = true ->
      (forall x, In x (remaining_per_faction factions_data) -> 0 <= x) ->
      total_remaining factions_data < Binary64.overflow_threshold ->
      Binary64.target_in_range factions_data = true).
Proof.
  split; [|apply target_in_range_nonneg].
  destruct (Binary64.target_in_range factions_data) eqn:E.
  - rewrite (target_in_range_value target factions_data E).
    destruct (target_ratio_bounds target factions_data) as [r [Hr Hb]].
    rewrite ratio_of_eq in Hr. injection Hr as <-. eauto.
  - apply target_out_of_range, E.
Qed.

(** X3. On a dict of target factions with distinct keys, [calculate_ratios]
    raises nothing but the OverflowError of a division beyond the range of
    floats. When every target faction is within the range it returns one
    ratio per target faction, in the order of the input, each the value
    that [_calculate_target_faction_ratio] returns for that target faction;
    otherwise it raises OverflowError, as [_calculate_target_faction_ratio]
    does for one of the target factions. *)
Theorem calculate_ratios_one_per_target
    (mission_stack : dict (dict KillRatioCalculator.faction_view)) :
  dict_ok mission_stack = true ->
  if Binary64.stack_in_range mission_stack
  then Binary64.calculate_ratios mission_stack
       = Ok (map (fun tb => (fst tb, ratio_of (fst tb) (snd tb))) mission_stack)
       /\ (forall target factions_data,
             In (target, factions_data) mission_stack ->
             Binary64._calculate_target_faction_ratio target factions_data
             = Ok (ratio_of target factions_data))
  else Binary64.calculate_ratios mission_stack = Raise OverflowError
       /\ (exists target factions_data,
             In (target, factions_data) mission_stack
             /\ Binary64._calculate_target_faction_ratio target factions_data
                = Raise OverflowError).
Proof.
  intros Hok. rewrite calculate_ratios_range.
  destruct (Binary64.stack_in_range mission_stack) eqn:E.
  - split.
    + unfold KillRatioCalculator.calculate_ratios.
      rewrite calculate_ratios_loop_value. f_equal.
      rewrite (fold_left_setitem_fresh _ _ (fun tb => ratio_of (fst tb) (snd tb))
                 mission_stack [] Hok); [reflexivity|].
      intros k _. reflexivity.
    + intros target fd Hin. apply target_in_range_value.
      unfold Binary64.stack_in_range in E.
      apply (proj1 (forallb_forall _ _) E (target, fd) Hin).
  - split; [reflexivity|].
    destruct (stack_out_of_range mission_stack E) as [t [fd [Hin Hf]]].
    exists t, fd. split; [exact Hin | apply target_out_of_range, Hf].
Qed.

(** X9. [get_summary] raises nothing but the OverflowError of a progress
    percentage beyond the range of floats. When every ledger is within the
    range it returns a summary whose total_missions is the number of
    records held by the registry and whose three other totals are the sums
    of that aggregate over every ledger of the registry; otherwise it
    raises OverflowError, as [get_progress_percentage] does for one of the
    ledgers. *)
Theorem get_summary_counts_every_record st :
  if Binary64.registry_in_range st
  then exists s,
         Binary64.get_summary st = Ok s
         /\ MissionStack.s_total_missions s = Z.of_nat (List.length (all_records st))
         /\ MissionStack.s_total_initial_kills s
            = zsum (map FactionMissions.total_initial_kills (all_ledgers st))
         /\ MissionStack.s_total_current_kills s
            = zsum (map FactionMissions.total_current_kills (all_ledgers st))
         /\ MissionStack.s_total_reward s
            = zsum (map FactionMissions.total_reward (all_ledgers st))
  else Binary64.get_summary st = Raise OverflowError
       /\ (exists fm,
             In fm (all_ledgers st)
             /\ Binary64.get_progress_percentage fm = Raise OverflowError).
Proof.
  rewrite get_summary_range.
  destruct (Binary64.registry_in_range st) eqn:E.
  - destruct (get_summary_totals st) as [s [Hs [Hi [Hc [Hw Hn]]]]].
    exists s. split; [exact Hs|].
    rewrite Hn, Hi, Hc, Hw, registry_sum_count.
    repeat split; apply registry_sum_ledgers.
  - split; [reflexivity|].
    destruct (registry_out_of_range st E) as [fm [Hin Hf]].
    exists fm. split; [exact Hin|].
    now rewrite get_progress_percentage_range, Hf.
Qed.

(** X24. On a registry with distinct keys, [get_kill_ratios] and
    [get_detailed_kill_breakdown] raise nothing but the OverflowError of a
    division beyond the range of floats, and both or neither. When the
    registry is within the range they have one entry per listed target
    faction, in the order of [get_target_factions]; with n the number of
    issuing factions of a target faction and the sum of the current kill
    counts of its records, its ratio is 1 for n = 1, and for n >= 2 it is 0
    when that sum is not positive and otherwise 1/n as an exact rational,
    which the float of the program equals up to rounding. The breakdown
    entry carries the same ratio, n as faction_count and that sum as
    total_remaining_kills. Current kill counts that are not negative, with
    a sum below [2^1024 - 2^970] for every target faction, are within the
    range. *)
Theorem stack_ratio_counts_issuers st (target_faction : string)
    (bucket : dict FactionMissions.t) :
  registry_ok st = true ->
  dict_find target_faction (MissionStack.missions st) = Some bucket ->
  let n := Z.of_nat (List.length (MissionStack.get_issuing_factions target_faction st)) in
  let total := sum_current (bucket_records bucket) in
  (if Binary64.stack_in_range (MissionStack.registry_view st)
   then exists ratios breakdown r,
          Binary64.get_kill_ratios st = Ok ratios
          /\ Binary64.get_detailed_kill_breakdown st = Ok breakdown
          /\ dict_keys ratios = MissionStack.get_target_factions st
          /\ dict_keys breakdown = MissionStack.get_target_factions st
          /\ dict_find target_faction ratios = Some r
          /\ (exists b,
                dict_find target_faction breakdown = Some b
                /\ KillRatioCalculator.ratio b = r
                /\ KillRatioCalculator.faction_count b = n
                /\ KillRatioCalculator.total_remaining_kills b = total)
          /\ (n = 1 -> r = 1%Q)
          /\ (2 <= n -> total <= 0 -> r = 0%Q)
          /\ (2 <= n -> 0 < total -> (r == 1 / inject_Z n)%Q)
   else Binary64.get_kill_ratios st = Raise OverflowError
        /\ Binary64.get_detailed_kill_breakdown st = Raise OverflowError)
  /\ ((forall r, In r (all_records st) -> 0 <= MissionData.current_kill_count r) ->
      (forall t b, In (t, b) (MissionStack.missions st) ->
                   sum_current (bucket_records b) < Binary64.overflow_threshold) ->
      Binary64.stack_in_range (MissionStack.registry_view st) = true).
Proof.
  intros Hok Ht. cbv zeta. split; [|apply (registry_view_in_range st Hok)].
  rewrite get_kill_ratios_range, get_detailed_kill_breakdown_range.
  destruct (Binary64.stack_in_range (MissionStack.registry_view st));
    [|split; reflexivity].
  set (view := fun b : dict FactionMissions.t =>
                 map (fun ff => (fst ff, KillRatioCalculator.LedgerObject (snd ff))) b).
  assert (Hn : MissionStack.get_issuing_factions target_faction st = dict_keys bucket).
  { unfold MissionStack.get_issuing_factions. now rewrite Ht. }
  assert (Hlen : Z.of_nat (List.length (dict_keys bucket))
                 = Z.of_nat (List.length (view bucket))).
  { unfold dict_keys, view. now rewrite !length_map. }
  destruct (registry_ok_In st _ _ Hok (dict_find_Some_In _ _ _ _ Ht)) as [_ Hbok].
  rewrite (get_kill_ratios_value st Hok), (get_detailed_kill_breakdown_value st Hok).
  eexists. eexists. exists (ratio_of target_faction (view bucket)).
  split; [reflexivity|]. split; [reflexivity|].
  split.
  { unfold MissionStack.get_target_factions, dict_keys. now rewrite map_map. }
  split.
  { unfold MissionStack.get_target_factions, dict_keys. now rewrite map_map. }
  split.
  { rewrite (dict_find_map_values _ _ (fun t b => ratio_of t (view b))), Ht.
    reflexivity. }
  split.
  { eexists. split.
    - rewrite (dict_find_map_values _ _
                 (fun t b =>
                    {| KillRatioCalculator.ratio := ratio_of t (view b);
                       KillRatioCalculator.faction_details :=
                         fst (KillRatioCalculator.breakdown_factions (view b) [] 0);
                       KillRatioCalculator.total_remaining_kills :=
                         snd (KillRatioCalculator.breakdown_factions (view b) [] 0);
                       KillRatioCalculator.faction_count :=
                         Z.of_nat (List.length (view b)) |})), Ht.
      reflexivity.
    - cbn [KillRatioCalculator.ratio KillRatioCalculator.faction_count
           KillRatioCalculator.total_remaining_kills].
      split; [reflexivity|]. split; [now rewrite Hn, Hlen|].
      rewrite breakdown_factions_total. unfold view.
      rewrite <- total_remaining_bucket. unfold total_remaining, remaining_per_faction.
      lia. }
  rewrite Hn, Hlen, <- total_remaining_bucket.
  apply (target_ratio_cases target_faction (view bucket) (bucket_ok_view bucket Hbok)).
Qed.

End RangeProperties.

Lemma ratio_between_0_and_1_within_range_witness :
  Binary64.target_in_range example_target_faction = true
  /\ exists r,
       Binary64._calculate_target_faction_ratio "ExampleTargetFaction"
         example_target_faction
       = Ok r
       /\ (0 <= r)%Q /\ (r <= 1)%Q.
Proof.
  assert (E : Binary64.target_in_range example_target_faction = true).
  { apply (proj2 (ratio_between_0_and_1_within_range (DT := no_parser)
                    "ExampleTargetFaction" example_target_faction)).
    - reflexivity.
    - intros x Hx. vm_compute in Hx.
      repeat (destruct Hx as [<-|Hx]; [lia|]). destruct Hx.
    - vm_compute. reflexivity. }
  split; [exact E|].
  destruct (ratio_between_0_and_1_within_range (DT := no_parser)
              "ExampleTargetFaction" example_target_faction) as [H _].
  rewrite E in H. exact H.
Defined.

(** Beyond the range the ratio is an OverflowError. *)
Lemma overflow_target_faction_raises :
  Binary64.target_in_range overflow_target_faction = false
  /\ Binary64._calculate_target_faction_ratio "T" overflow_target_faction
     = Raise OverflowError
  /\ Binary64.calculate_ratios [("T", overflow_target_faction)] = Raise OverflowError.
Proof.
  split; [vm_compute; reflexivity|]. split; vm_compute; reflexivity.
Qed.

Lemma calculate_ratios_one_per_target_witness :
  exists r,
    Binary64.calculate_ratios [("ExampleTargetFaction", example_target_faction)]
    = Ok [("ExampleTargetFaction", r)]
    /\ (r == 1 # 3)%Q.
Proof.
  pose proof (calculate_ratios_one_per_target (DT := no_parser)
                [("ExampleTargetFaction", example_target_faction)] eq_refl) as H.
  assert (E : Binary64.stack_in_range
                [("ExampleTargetFaction", example_target_faction)] = true)
    by (vm_compute; reflexivity).
  rewrite E in H.
  exists (ratio_of "ExampleTargetFaction" example_target_faction).
  split; [exact (proj1 H)|]. vm_compute. reflexivity.
Defined.

Lemma stack_ratio_counts_issuers_witness :
  exists ratios r,
    Binary64.get_kill_ratios scenario_registry = Ok ratios
    /\ dict_keys ratios = ["Mizete Jet Society"; "Brothers of Nijoten"]
    /\ dict_find "Mizete Jet Society" ratios = Some r
    /\ (r == 1 / 2)%Q.
Proof.
  eassert (Eb : dict_find "Mizete Jet Society" (MissionStack.missions scenario_registry)
                = Some _) by (vm_compute; reflexivity).
  pose proof (stack_ratio_counts_issuers (DT := no_parser) scenario_registry
                "Mizete Jet Society" _ eq_refl Eb) as H.
  cbv zeta in H. destruct H as [H _].
  assert (E : Binary64.stack_in_range (MissionStack.registry_view scenario_registry)
              = true) by (vm_compute; reflexivity).
  rewrite E in H.
  destruct H as [ratios [breakdown [r [Hr [_ [Hk [_ [Hf [_ [_ [_ Hpos]]]]]]]]]]].
  exists ratios, r. split; [exact Hr|]. split; [rewrite Hk; reflexivity|].
  split; [exact Hf|].
  apply Hpos; vm_compute; [discriminate | reflexivity].
Defined.
